(** * PLY-Converter: the conversion pipeline of ply_converter.py and the
    job handling of app.py, embedded and verified.

    Numbers.  The Python code computes with IEEE doubles through numpy.  They
    are modelled by the real numbers [R]: sums, means, square roots and
    comparisons are the exact ones.  Integers (counts, indices, progress
    percentages) are [nat] and [Z].

    Libraries.  trimesh, Open3D, scipy, the PLY parsers, werkzeug, Flask and
    the operating system are outside the repository.  Their operations are
    fields of the records [Trimesh_lib], [Open3d_lib], [Os_lib] and
    [Flask_lib]; an operation that can raise returns an [outcome], a method
    that mutates its object is a computation [M] over the object's state.
    Every theorem is stated for all libraries.

    Output.  [log] of ply_converter.py prints a line; the lines printed by
    [convert_ply] itself are kept in [stdout].  The helper functions' log
    lines format floating-point numbers and are left out, as are the
    [logger] calls of app.py. *)

From Stdlib Require Import Reals Lra Lia ZArith List Sorted Ascii String.
From stdpp Require Import gmap strings list fin_maps pretty.

Local Open Scope string_scope.

(** ** Exceptions and stateful computations *)

(** A Python exception is represented by its message, [str(e)]. *)
Inductive outcome (A : Type) : Type :=
| Ok (a : A)
| Raise (e : string).
Arguments Ok {A} a.
Arguments Raise {A} e.

#[global] Instance outcome_ret : MRet outcome := fun A a => Ok a.
#[global] Instance outcome_bind : MBind outcome := fun A B f o =>
  match o with
  | Ok a => f a
  | Raise e => Raise e
  end.

(** A computation on a mutable state [S]: it leaves a state behind also when
    it raises. *)
Definition M (S A : Type) : Type := S -> S * outcome A.

#[global] Instance M_ret (S : Type) : MRet (M S) := fun A a s => (s, Ok a).
#[global] Instance M_bind (S : Type) : MBind (M S) := fun A B f m s =>
  match m s with
  | (s', Ok a) => f a s'
  | (s', Raise e) => (s', Raise e)
  end.

Definition raise {S A : Type} (e : string) : M S A := fun s => (s, Raise e).
Definition get {S : Type} : M S S := fun s => (s, Ok s).
Definition modify {S : Type} (f : S -> S) : M S unit := fun s => (f s, Ok tt).
Definition lift {S A : Type} (o : outcome A) : M S A := fun s => (s, o).

(** [try: body except Exception as e: handler e] *)
Definition try_except {S A : Type} (body : M S A) (handler : string -> M S A) : M S A :=
  fun s =>
    match body s with
    | (s', Ok a) => (s', Ok a)
    | (s', Raise e) => handler e s'
    end.

(** [try: body finally: cleanup] *)
Definition try_finally {S A : Type} (body : M S A) (cleanup : M S unit) : M S A :=
  fun s =>
    match body s with
    | (s', r) =>
        match cleanup s' with
        | (s'', Ok _) => (s'', r)
        | (s'', Raise e) => (s'', Raise e)
        end
    end.

(** Calling mutating methods on a local object [o]: the object after the
    calls, or the exception (the object is then dropped by the callers). *)
Definition on {O : Type} (o : O) (m : M O unit) : outcome O :=
  match m o with
  | (o', Ok _) => Ok o'
  | (_, Raise e) => Raise e
  end.

(** ** Python strings *)

Module Py.

Definition upper_ascii (c : ascii) : ascii :=
  let n := nat_of_ascii c in
  if (97 <=? n)%nat && (n <=? 122)%nat then ascii_of_nat (n - 32) else c.

Definition lower_ascii (c : ascii) : ascii :=
  let n := nat_of_ascii c in
  if (65 <=? n)%nat && (n <=? 90)%nat then ascii_of_nat (n + 32) else c.

Fixpoint map_string (f : ascii -> ascii) (s : string) : string :=
  match s with
  | EmptyString => EmptyString
  | String c s' => String (f c) (map_string f s')
  end.

(** [s.upper()] and [s.lower()], on the ASCII letters. *)
Definition upper (s : string) : string := map_string upper_ascii s.
Definition lower (s : string) : string := map_string lower_ascii s.

(** The part of [s] after its last ["."], if there is one:
    [s.rsplit('.', 1)[1]] under the guard ['.' in s]. *)
Fixpoint after_last_dot (s : string) : option string :=
  match s with
  | EmptyString => None
  | String c s' =>
      match after_last_dot s' with
      | Some ext => Some ext
      | None => if Ascii.eqb c "."%char then Some s' else None
      end
  end.

(** [d.get(k, default)] *)
Definition dict_get {V : Type} (d : gmap string V) (k : string) (default : V) : V :=
  match d !! k with
  | Some v => v
  | None => default
  end.

End Py.

(** ** numpy on arrays of doubles *)

Definition vec : Type := R * R * R.
Definition face : Type := nat * nat * nat.

Module Np.
Local Open Scope R_scope.

Definition Rltb (x y : R) : bool := if Rlt_dec x y then true else false.
Definition Rleb (x y : R) : bool := if Rle_dec x y then true else false.

(** Python's [max(a, b)]: [b] when [b > a], else [a]. *)
Definition py_max (a b : R) : R := if Rlt_dec a b then b else a.

Definition sum (l : list R) : R := fold_right Rplus 0 l.

(** [np.mean(l)] *)
Definition mean (l : list R) : R := sum l / INR (length l).

(** [np.var(l)] with the default [ddof=0]. *)
Definition var (l : list R) : R :=
  mean (map (fun x => (x - mean l) * (x - mean l)) l).

(** [np.std(l)] *)
Definition std (l : list R) : R := sqrt (var l).

(** [np.min(l)] and [np.max(l)]; numpy raises on an empty array. *)
Definition min (l : list R) : outcome R :=
  match l with
  | [] => Raise "zero-size array to reduction operation minimum which has no identity"
  | x :: l' => Ok (fold_left Rmin l' x)
  end.

Definition max (l : list R) : outcome R :=
  match l with
  | [] => Raise "zero-size array to reduction operation maximum which has no identity"
  | x :: l' => Ok (fold_left Rmax l' x)
  end.

(** [np.sum(mask)] for a boolean array *)
Definition count_true (mask : list bool) : nat := length (filter (fun b => b = true) mask).

Definition vx (v : vec) : R := v.1.1.
Definition vy (v : vec) : R := v.1.2.
Definition vz (v : vec) : R := v.2.

Definition vsub (a b : vec) : vec := (vx a - vx b, vy a - vy b, vz a - vz b).
Definition vmul (a b : vec) : vec := (vx a * vx b, vy a * vy b, vz a * vz b).
Definition vdiv (a : vec) (k : R) : vec := (vx a / k, vy a / k, vz a / k).

(** [np.linalg.norm(v)] *)
Definition norm (v : vec) : R := sqrt (vx v * vx v + vy v * vy v + vz v * vz v).

(** [a.mean(axis=0)] of an (n,3) array *)
Definition mean_axis0 (a : list vec) : vec :=
  (mean (map vx a), mean (map vy a), mean (map vz a)).

(** [a.max(axis=0)] and [a.min(axis=0)] of an (n,3) array *)
Definition max_axis0 (a : list vec) : outcome vec :=
  x ← max (map vx a); y ← max (map vy a); z ← max (map vz a); Ok (x, y, z).

Definition min_axis0 (a : list vec) : outcome vec :=
  x ← min (map vx a); y ← min (map vy a); z ← min (map vz a); Ok (x, y, z).

(** [vertices[faces]]: the three corners of every face; an index out of
    range raises IndexError. *)
Definition corners (vertices : list vec) (f : face) : outcome (vec * vec * vec) :=
  match vertices !! f.1.1, vertices !! f.1.2, vertices !! f.2 with
  | Some a, Some b, Some c => Ok (a, b, c)
  | _, _, _ => Raise "index is out of bounds"
  end.

Fixpoint take_faces (vertices : list vec) (faces : list face) : outcome (list (vec * vec * vec)) :=
  match faces with
  | [] => Ok []
  | f :: faces' =>
      t ← corners vertices f;
      ts ← take_faces vertices faces';
      Ok (t :: ts)
  end.

(** [t.mean(axis=1)] of an (n,3,3) array: the centroid of each triangle *)
Definition mean_axis1 (ts : list (vec * vec * vec)) : list vec :=
  map (fun t : vec * vec * vec =>
         let '(a, b, c) := t in mean_axis0 [a; b; c]) ts.

(** [a * b] for two (n,3) arrays, with numpy's broadcasting of a single row;
    other length mismatches raise ValueError. *)
Definition mul_rows (a b : list vec) : outcome (list vec) :=
  if (length a =? length b)%nat then Ok (zip_with vmul a b)
  else match a, b with
       | [x], _ => Ok (map (vmul x) b)
       | _, [y] => Ok (map (fun x => vmul x y) a)
       | _, _ => Raise "operands could not be broadcast together"
       end.

(** [np.sum(a, axis=1)] of an (n,3) array *)
Definition sum_axis1 (a : list vec) : list R := map (fun v => vx v + vy v + vz v) a.

End Np.

(** ** Meshes and the external libraries *)

Section model.

(** [colors]: arrays of per-vertex colours (numpy arrays, float or uint8);
    [disk]: the state of the file system. *)
Context {colors : Type} {disk : Type}.

(** A [trimesh.Trimesh]: vertex positions, triangles as index triples, and
    [visual.vertex_colors] ([None] when the mesh has none). *)
Record trimesh : Type := Mesh {
  vertices : list vec;
  faces : list face;
  vertex_colors : option colors;
}.

Definition set_vertex_colors (m : trimesh) (c : colors) : trimesh :=
  {| vertices := vertices m; faces := faces m; vertex_colors := Some c |}.

(** What [trimesh.load] returns: each attribute is there or not
    ([hasattr]). *)
Record loaded : Type := Loaded {
  l_vertices : option (list vec);
  l_visual_vertex_colors : option colors;
  l_faces : option (list face);
}.

(** What [PlyData.read] returns: the vertex coordinates, the red, green and
    blue columns stacked when all three are there, and the
    [vertex_indices] of the face element when there is one. *)
Record plydata : Type := Plydata {
  p_coords : list vec;
  p_rgb : option colors;
  p_face_vertex_indices : option (list face);
}.

(** numpy on colour arrays. *)
Record Numpy_colors : Type := {
  (** [len(c)] *)
  colors_len : colors -> nat;
  (** [c.shape[1]]: an [IndexError] on an array of one dimension *)
  colors_width : colors -> outcome nat;
  (** [c.max()] *)
  colors_max : colors -> outcome R;
  (** [c[:, :3]] *)
  colors_rgb : colors -> colors;
  (** [c / 255.0] *)
  colors_div255 : colors -> colors;
  (** [(c * 255).astype(np.uint8)] *)
  colors_to_uint8 : colors -> colors;
  (** [colors[indices]] after [cKDTree(points).query(mesh_vertices, k=1)] *)
  kdtree_nearest_colors : list vec -> colors -> list vec -> outcome colors;
  (** the nearest-point loop with [np.argmin] *)
  argmin_nearest_colors : list vec -> colors -> list vec -> outcome colors;
}.

(** trimesh and plyfile. *)
Record Trimesh_lib : Type := {
  (** [trimesh.Trimesh(vertices=..., faces=...)] *)
  Trimesh : list vec -> option (list face) -> outcome trimesh;
  fix_normals : M trimesh unit;
  unify_normals : M trimesh unit;
  (** the property [mesh.face_normals] *)
  face_normals : trimesh -> outcome (list vec);
  remove_degenerate_faces : M trimesh unit;
  remove_duplicate_faces : M trimesh unit;
  remove_unreferenced_vertices : M trimesh unit;
  (** the property [mesh.convex_hull] *)
  convex_hull : trimesh -> outcome trimesh;
  (** [trimesh.creation.box(extents=...)] *)
  creation_box : list R -> trimesh;
  (** [hasattr(mesh, 'smoothed')] and [mesh.smoothed()] *)
  has_smoothed : trimesh -> bool;
  smoothed : trimesh -> outcome trimesh;
  (** [mesh.export(path)] *)
  export : trimesh -> string -> M disk unit;
  (** [trimesh.load(path)] *)
  trimesh_load : string -> disk -> outcome loaded;
  (** [PlyData.read(path)] with the columns extracted *)
  PlyData_read : string -> disk -> outcome plydata;
}.

(** The library [tm] with another [smoothed] capability. *)
Definition with_smoothing (tm : Trimesh_lib) (has : trimesh -> bool)
    (sm : trimesh -> outcome trimesh) : Trimesh_lib := {|
  Trimesh := Trimesh tm;
  fix_normals := fix_normals tm;
  unify_normals := unify_normals tm;
  face_normals := face_normals tm;
  remove_degenerate_faces := remove_degenerate_faces tm;
  remove_duplicate_faces := remove_duplicate_faces tm;
  remove_unreferenced_vertices := remove_unreferenced_vertices tm;
  convex_hull := convex_hull tm;
  creation_box := creation_box tm;
  has_smoothed := has;
  smoothed := sm;
  export := export tm;
  trimesh_load := trimesh_load tm;
  PlyData_read := PlyData_read tm;
|}.

(** Open3D: point clouds [pcd] and triangle meshes [tmesh]. *)
Record Open3d_lib : Type := {
  pcd : Type;
  tmesh : Type;
  (** [PointCloud()] with [points] and, when given, [colors] assigned *)
  PointCloud : list vec -> option colors -> outcome pcd;
  (** [estimate_normals(KDTreeSearchParamHybrid(radius, max_nn))] *)
  estimate_normals : R -> nat -> M pcd unit;
  normalize_normals : M pcd unit;
  orient_normals_consistent_tangent_plane : nat -> M pcd unit;
  orient_normals_to_align_with_direction : M pcd unit;
  (** [create_from_point_cloud_poisson(pcd, depth, width, scale, linear_fit)] *)
  create_from_point_cloud_poisson :
    pcd -> nat -> R -> R -> bool -> outcome (tmesh * list R);
  remove_vertices_by_mask : list bool -> M tmesh unit;
  remove_duplicated_vertices : M tmesh unit;
  remove_duplicated_triangles : M tmesh unit;
  remove_degenerate_triangles : M tmesh unit;
  o3d_remove_unreferenced_vertices : M tmesh unit;
  (** [filter_smooth_laplacian(number_of_iterations, lambda_filter)] *)
  filter_smooth_laplacian : nat -> R -> tmesh -> outcome tmesh;
  tmesh_vertices : tmesh -> list vec;
  tmesh_triangles : tmesh -> list face;
  has_vertex_colors : tmesh -> bool;
  tmesh_vertex_colors : tmesh -> colors;
}.

(** The operating system, werkzeug and the Python import system. *)
Record Os_lib : Type := {
  (** [os.path.exists(path)] *)
  path_exists : string -> disk -> bool;
  (** [Path(dir).mkdir(parents=True, exist_ok=True)], [os.makedirs] *)
  makedirs : string -> M disk unit;
  (** [os.remove(path)] *)
  os_remove : string -> M disk unit;
  (** [file.save(path)] of an uploaded file with the given content *)
  file_save : string -> string -> M disk unit;
  (** [secure_filename(name)] *)
  secure_filename : string -> string;
  (** [from ply_converter import PLYConverter] *)
  import_PLYConverter : outcome unit;
  (** [traceback.format_exc()] for the exception being handled *)
  format_exc : string -> string;
}.

Context (np : Numpy_colors) (tm : Trimesh_lib) (o3 : Open3d_lib) (os : Os_lib).

(** The flags set by the optional imports at the top of ply_converter.py. *)
Context (HAS_OPEN3D HAS_SCIPY : bool).

(** ** [fix_face_orientation_and_normals] (lines 59-147) *)

(** The three cleanup calls, in the order of lines 124-126 and 137-139. *)
Definition cleanup : M trimesh unit :=
  remove_degenerate_faces tm;;
  remove_duplicate_faces tm;;
  remove_unreferenced_vertices tm.

(** Lines 91-99: the dot product of every face normal with the normalized
    vector from the mesh centre to the face centre. *)
Definition dot_products (vertices : list vec) (faces : list face)
    (face_normals : list vec) : outcome (list R) :=
  let center := Np.mean_axis0 vertices in
  triangles ← Np.take_faces vertices faces;
  let face_centers := Np.mean_axis1 triangles in
  let center_to_face := map (fun c => Np.vsub c center) face_centers in
  let center_to_face :=
    map (fun c => Np.vdiv c (Np.norm c + 1e-8)%R) center_to_face in
  products ← Np.mul_rows face_normals center_to_face;
  Ok (Np.sum_axis1 products).

(** Lines 100-103: the fraction of the faces whose dot product is positive. *)
Definition outward_ratio (dot_products : list R) : R :=
  let outward_faces := Np.count_true (map (fun d => Np.Rltb 0 d) dot_products) in
  let total_faces := length dot_products in
  if (0 <? total_faces)%nat then (INR outward_faces / INR total_faces)%R else 0%R.

(** [faces[:, [0, 2, 1]]] *)
Definition flip (f : face) : face := (f.1.1, f.2, f.1.2).

(** [np.vstack([faces, flipped_faces])] *)
Definition double_sided_faces (faces : list face) : list face :=
  let flipped_faces := map flip faces in
  faces ++ flipped_faces.


(** Lines 117-126: the double-sided mesh, with the colours of [mesh] when it
    has some, cleaned up. *)
Definition make_double_sided (mesh : trimesh) (vertices : list vec) (faces : list face)
    : outcome trimesh :=
  let all_faces := double_sided_faces faces in
  double_sided_mesh ← Trimesh tm vertices (Some all_faces);
  let double_sided_mesh :=
    match vertex_colors mesh with
    | Some c => set_vertex_colors double_sided_mesh c
    | None => double_sided_mesh
    end in
  on double_sided_mesh cleanup.

(** Step 3 (the body of the [try] of lines 82-131), on the object [mesh]:
    [Some d] when the function returns the double-sided mesh [d] at line 129,
    [None] when control falls through to step 4. *)
Definition step3 : M trimesh (option trimesh) :=
  mesh ← get;
  let vertices := vertices mesh in
  let faces := faces mesh in
  face_normals ← lift (face_normals tm mesh);
  if (0 <? length face_normals)%nat then
    dps ← lift (dot_products vertices faces face_normals);
    if Np.Rltb (outward_ratio dps) 0.6 then
      d ← lift (make_double_sided mesh vertices faces);
      mret (Some d)
    else mret None
  else mret None.

(** Step 4 (lines 137-143) *)
Definition step4 : M trimesh trimesh :=
  cleanup;;
  get.

(** Steps 1 and 2 (lines 68-79): failures are logged and ignored. *)
Definition step1 : M trimesh unit := try_except (fix_normals tm) (fun _ => mret tt).
Definition step2 : M trimesh unit := try_except (unify_normals tm) (fun _ => mret tt).

(** The state of the mesh object after steps 1 and 2. *)
Definition prepared (mesh : trimesh) : trimesh := (step2 (step1 mesh).1).1.

Definition fix_face_orientation_and_normals : M trimesh trimesh :=
  try_except
    (step1;;
     step2;;
     r ← try_except step3 (fun _ => mret None);
     match r with
     | Some double_sided_mesh => mret double_sided_mesh
     | None => step4
     end)
    (fun _ => get).

(** ** [precise_poisson_reconstruction] (lines 150-261) *)

Definition depth_map : gmap string nat :=
  {[ "light" := 8%nat; "medium" := 9%nat; "high" := 10%nat; "ultra" := 11%nat ]}.

Definition smoothing_iterations : gmap string nat :=
  {[ "high" := 1%nat; "ultra" := 2%nat ]}.

(** Line 214:
    [thresh = max(mean_density - 2 * std_density, np.min(densities) * 1.1)] *)
Definition density_threshold (densities : list R) : outcome R :=
  let mean_density := Np.mean densities in
  let std_density := Np.std densities in
  min_density ← Np.min densities;
  Ok (Np.py_max (mean_density - 2 * std_density) (min_density * 1.1))%R.

(** Line 216: [vertices_to_remove = densities < thresh] *)
Definition vertices_to_remove (densities : list R) (thresh : R) : list bool :=
  map (fun d => Np.Rltb d thresh) densities.

(** Lines 205-222 *)
Definition density_filter (mesh : tmesh o3) (densities : list R) : outcome (tmesh o3) :=
  if (0 <? length densities)%nat then
    thresh ← density_threshold densities;
    let vertices_to_remove := vertices_to_remove densities thresh in
    let removed_count := Np.count_true vertices_to_remove in
    if (0 <? removed_count)%nat then
      on mesh (remove_vertices_by_mask o3 vertices_to_remove)
    else Ok mesh
  else Ok mesh.

(** Lines 176-184: the orientation of the normals, with its two fallbacks. *)
Definition orient_normals : M (pcd o3) unit :=
  try_except (orient_normals_consistent_tangent_plane o3 100)
    (fun _ =>
       try_except (orient_normals_to_align_with_direction o3)
         (fun _ => mret tt)).

(** Lines 240-257: the conversion to trimesh. *)
Definition to_trimesh (mesh : tmesh o3) : outcome (option trimesh) :=
  let vertices_np := tmesh_vertices o3 mesh in
  let faces_np := tmesh_triangles o3 mesh in
  if (0 <? length vertices_np)%nat && (0 <? length faces_np)%nat then
    tm0 ← Trimesh tm vertices_np (Some faces_np);
    tm1 ← (if has_vertex_colors o3 mesh then
             let vertex_colors := tmesh_vertex_colors o3 mesh in
             mx ← colors_max np vertex_colors;
             let vertex_colors :=
               if Np.Rleb mx 1.0
               then colors_to_uint8 np vertex_colors
               else vertex_colors in
             Ok (set_vertex_colors tm0 vertex_colors)
           else Ok tm0);
    Ok (Some tm1)
  else Ok None.

(** The body of the [try] of lines 156-257. *)
Definition poisson_body (vertices : list vec) (colors : option colors)
    (smoothing_level : string) : outcome (option trimesh) :=
  pcd ← PointCloud o3 vertices colors;
  hi ← Np.max_axis0 vertices;
  lo ← Np.min_axis0 vertices;
  let bbox := Np.vsub hi lo in
  let radius := Np.py_max (Np.norm bbox * 0.02) 0.001 in
  pcd ← on pcd (estimate_normals o3 radius 30;; normalize_normals o3;; orient_normals);
  let depth := Py.dict_get depth_map smoothing_level 9%nat in
  '(mesh, densities) ← create_from_point_cloud_poisson o3 pcd depth 0 1.1 false;
  mesh ← density_filter mesh densities;
  mesh ← on mesh (remove_duplicated_vertices o3;;
                  remove_duplicated_triangles o3;;
                  remove_degenerate_triangles o3;;
                  o3d_remove_unreferenced_vertices o3);
  mesh ← (if bool_decide (smoothing_level ∈ ["high"; "ultra"]) then
            let iterations := Py.dict_get smoothing_iterations smoothing_level 1%nat in
            filter_smooth_laplacian o3 iterations 0.2 mesh
          else Ok mesh);
  to_trimesh mesh.

Definition precise_poisson_reconstruction (vertices : list vec)
    (colors : option colors) (smoothing_level : string) : option trimesh :=
  if negb HAS_OPEN3D then None
  else match poisson_body vertices colors smoothing_level with
       | Ok r => r
       | Raise _ => None
       end.

(** ** [create_mesh_from_points_basic] (lines 264-299) *)

(** The body of the [try] of lines 268-294. *)
Definition basic_body (points : list vec) (colors : option colors) : outcome trimesh :=
  cloud ← Trimesh tm points None;
  mesh ← convex_hull tm cloud;
  match colors with
  | Some colors =>
      if (colors_len np colors =? length points)%nat then
        let mesh_vertices := vertices mesh in
        mesh_colors ← (if HAS_SCIPY
                       then kdtree_nearest_colors np points colors mesh_vertices
                       else argmin_nearest_colors np points colors mesh_vertices);
        mx ← colors_max np mesh_colors;
        let mesh_colors :=
          if Np.Rleb mx 1.0 then colors_to_uint8 np mesh_colors else mesh_colors in
        Ok (set_vertex_colors mesh mesh_colors)
      else Ok mesh
  | None => Ok mesh
  end.

Definition create_mesh_from_points_basic (points : list vec)
    (colors : option colors) : trimesh :=
  match basic_body points colors with
  | Ok mesh => mesh
  | Raise _ => creation_box tm [1; 1; 1]%R
  end.

(** The mesh that the reconstruction stage of [convert_ply] (lines 421-431)
    hands on: the Poisson surface if there is one, else the basic mesh. *)
Definition reconstructed (vertices : list vec) (colors : option colors)
    (smoothing_level : string) : trimesh :=
  match precise_poisson_reconstruction vertices colors smoothing_level with
  | None => create_mesh_from_points_basic vertices colors
  | Some mesh => mesh
  end.

(** At least one vertex and at least one face. *)
Definition has_geometry (m : trimesh) : Prop := vertices m <> [] /\ faces m <> [].

(** ** [load_ply_file] (lines 302-366) *)

Record ply_data : Type := Ply_data {
  pd_vertices : list vec;
  pd_faces : option (list face);
  pd_colors : option colors;
  is_point_cloud : bool;
}.

(** [faces is None or len(faces) == 0] *)
Definition no_faces (faces : option (list face)) : bool :=
  match faces with
  | None => true
  | Some fs => (length fs =? 0)%nat
  end.

(** Lines 317-318 and 347-348 *)
Definition normalize_colors (c : colors) : outcome colors :=
  mx ← colors_max np c;
  Ok (if Np.Rltb 1.0 mx then colors_div255 np c else c).

(** The [try] of lines 304-330: [Ok None] when [mesh_data] has no
    [vertices] and control leaves the [try] without returning. *)
Definition load_with_trimesh (file_path : string) (d : disk) : outcome (option ply_data) :=
  mesh_data ← trimesh_load tm file_path d;
  match l_vertices mesh_data with
  | Some vertices =>
      colors ← match l_visual_vertex_colors mesh_data with
               | Some c =>
                   width ← colors_width np c;
                   let c := if (width =? 4)%nat then colors_rgb np c else c in
                   c ← normalize_colors c;
                   Ok (Some c)
               | None => Ok None
               end;
      let faces :=
        match l_faces mesh_data with
        | Some fs => if (0 <? length fs)%nat then Some fs else None
        | None => None
        end in
      Ok (Some (Ply_data vertices faces colors (no_faces faces)))
  | None => Ok None
  end.

(** The [try] of lines 335-362 *)
Definition load_with_plyfile (file_path : string) (d : disk) : outcome ply_data :=
  plydata ← PlyData_read tm file_path d;
  colors ← match p_rgb plydata with
           | Some c => c ← normalize_colors c; Ok (Some c)
           | None => Ok None
           end;
  let faces := p_face_vertex_indices plydata in
  Ok (Ply_data (p_coords plydata) faces colors (no_faces faces)).

Definition load_ply_file (file_path : string) (d : disk) : outcome ply_data :=
  let first :=
    match load_with_trimesh file_path d with
    | Ok r => r
    | Raise _ => None
    end in
  match first with
  | Some data => Ok data
  | None =>
      match load_with_plyfile file_path d with
      | Ok data => Ok data
      | Raise e => Raise ("Failed to load PLY file: " ++ e)
      end
  end.

(** ** [smooth_mesh_basic] (lines 369-393) *)

Definition iterations_map : gmap string nat :=
  {[ "light" := 1%nat; "medium" := 2%nat; "high" := 3%nat; "ultra" := 5%nat ]}.

(** The loop of lines 382-386, with [n] iterations left. *)
Fixpoint smoothing_loop (n : nat) (smoothed_mesh : trimesh) : outcome trimesh :=
  match n with
  | O => Ok smoothed_mesh
  | S n' =>
      if has_smoothed tm smoothed_mesh then
        smoothed_mesh ← smoothed tm smoothed_mesh;
        smoothing_loop n' smoothed_mesh
      else Ok smoothed_mesh
  end.

Definition smooth_mesh_basic (mesh : trimesh) (smoothing_level : string) : trimesh :=
  let iterations := Py.dict_get iterations_map smoothing_level 2%nat in
  match smoothing_loop iterations mesh with
  | Ok smoothed_mesh => smoothed_mesh
  | Raise _ => mesh
  end.

(** ** The process state *)

(** An entry of the dictionary [conversion_progress] of app.py. *)
Record entry : Type := Entry {
  e_status : string;
  e_progress : Z;
  e_message : string;
  e_input_file : string;
  e_output_formats : list string;
  e_smoothing_level : string;
  e_created_at : R;
}.

(** The file system, the two registries of app.py, the lines printed by
    [log], and the history of the calls made to progress callbacks (message
    and percentage, oldest first).  The history is not a variable of the
    program: it records what the program did. *)
Record world : Type := World {
  files : disk;
  conversion_progress : gmap string entry;
  conversion_results : gmap string (gmap string string);
  stdout : list string;
  calls : list (string * Z);
}.

Definition on_files {A : Type} (m : M disk A) : M world A := fun w =>
  match m (files w) with
  | (d, r) =>
      (World d (conversion_progress w) (conversion_results w) (stdout w) (calls w), r)
  end.

Definition set_conversion_progress (p : gmap string entry) : M world unit :=
  modify (fun w => World (files w) p (conversion_results w) (stdout w) (calls w)).

Definition set_conversion_results (r : gmap string (gmap string string)) : M world unit :=
  modify (fun w => World (files w) (conversion_progress w) r (stdout w) (calls w)).

(** [log(msg)] (lines 54-56) *)
Definition log (msg : string) : M world unit :=
  modify (fun w =>
    World (files w) (conversion_progress w) (conversion_results w)
          (stdout w ++ ["[PLY-Converter] " ++ msg]) (calls w)).

(** A progress callback, and the call [callback(message, progress)]. *)
Definition callback : Type := string -> Z -> M world unit.

Definition call (cb : callback) (message : string) (progress : Z) : M world unit :=
  modify (fun w =>
    World (files w) (conversion_progress w) (conversion_results w)
          (stdout w) (calls w ++ [(message, progress)]));;
  cb message progress.

(** A callback that returns whenever it is called ([None]: no callback). *)
Definition never_raises (progress_callback : option callback) : Prop :=
  match progress_callback with
  | Some cb => forall (message : string) (progress : Z) (w : world),
      (cb message progress w).2 = Ok tt
  | None => True
  end.

(** A callback that leaves the history of calls alone. *)
Definition keeps_history (progress_callback : option callback) : Prop :=
  match progress_callback with
  | Some cb => forall (message : string) (progress : Z) (w : world),
      calls (cb message progress w).1 = calls w
  | None => True
  end.

(** A list of percentages that never decreases. *)
Definition nondecreasing (l : list Z) : Prop :=
  forall (i j : nat) (x y : Z), (i <= j)%nat -> l !! i = Some x -> l !! j = Some y -> (x <= y)%Z.

(** Every run of [m] appends calls with non-decreasing percentages between
    [lo] and [hi] to the history, whether it returns or raises. *)
Definition emits {A : Type} (lo hi : Z) (m : M world A) : Prop :=
  forall (w w' : world) (r : outcome A), m w = (w', r) ->
    exists new : list (string * Z),
      calls w' = (calls w ++ new)%list /\
      nondecreasing (map snd new) /\
      Forall (fun p => lo <= p <= hi)%Z (map snd new).

(** [emits], and a run that returns has made its last call with [final]
    (when there is a callback). *)
Definition emits_last {A : Type} (progress_callback : option callback)
    (final : string * Z) (lo hi : Z) (m : M world A) : Prop :=
  forall (w w' : world) (r : outcome A), m w = (w', r) ->
    exists new : list (string * Z),
      calls w' = (calls w ++ new)%list /\
      nondecreasing (map snd new) /\
      Forall (fun p => lo <= p <= hi)%Z (map snd new) /\
      (forall a, r = Ok a -> progress_callback <> None ->
         exists l, new = (l ++ [final])%list).

(** A computation that makes no call. *)
Definition silent {A : Type} (m : M world A) : Prop :=
  forall (w w' : world) (r : outcome A), m w = (w', r) -> calls w' = calls w.

(** The call of line 491, the last one of a conversion that succeeds. *)
Definition completed : string * Z := ("Conversion completed successfully!", 100%Z).

(** ** [PLYConverter.convert_ply] (lines 399-499) *)

(** Lines 404-407 *)
Definition update_progress (progress_callback : option callback)
    (message : string) (progress : Z) : M world unit :=
  match progress_callback with
  | Some cb => call cb message progress
  | None => mret tt
  end;;
  log ("Progress " ++ pretty progress ++ "%: " ++ message).

(** Lines 421-431: the point-cloud branch. *)
Definition reconstruct (progress_callback : option callback) (vertices : list vec)
    (colors : option colors) (smoothing_level : string) : M world trimesh :=
  update_progress progress_callback
    "Point cloud detected, precise surface reconstruction..." 25;;
  match precise_poisson_reconstruction vertices colors smoothing_level with
  | None =>
      update_progress progress_callback "Using basic surface reconstruction..." 35;;
      mret (create_mesh_from_points_basic vertices colors)
  | Some mesh =>
      update_progress progress_callback "Precise surface reconstruction completed" 45;;
      mret mesh
  end.

(** Lines 433-440: the mesh branch. *)
Definition original_mesh (progress_callback : option callback) (vertices : list vec)
    (faces : option (list face)) (colors : option colors) : M world trimesh :=
  update_progress progress_callback
    "Mesh detected, preserving original geometry..." 25;;
  mesh ← lift (Trimesh tm vertices faces);
  mesh ← match colors with
         | Some colors =>
             mx ← lift (colors_max np colors);
             let colors :=
               if Np.Rleb mx 1.0 then colors_to_uint8 np colors else colors in
             mret (set_vertex_colors mesh colors)
         | None => mret mesh
         end;
  update_progress progress_callback "Original mesh loaded" 40;;
  mret mesh.

(** Lines 449-451 *)
Definition smoothing_stage (is_point_cloud : bool) (mesh : trimesh)
    (smoothing_level : string) : trimesh :=
  if negb is_point_cloud then smooth_mesh_basic mesh smoothing_level else mesh.

(** Lines 456-461 *)
Definition final_cleanup (mesh : trimesh) : M world trimesh :=
  match cleanup mesh with
  | (mesh', Ok _) => mret mesh'
  | (mesh', Raise e) => log ("Final cleanup warning: " ++ e);; mret mesh'
  end.

(** [str(Path(output_dir) / filename)], for a relative [filename] and an
    [output_dir] that pathlib leaves as it is: not empty, without trailing
    or repeated separator and without a component [.], as the directory
    "outputs" that app.py passes. *)
Definition path_join (output_dir filename : string) : string :=
  output_dir ++ "/" ++ filename.

(** [str(output_path / f"{conversion_id}_smooth.{fmt}")] *)
Definition export_path (output_dir conversion_id fmt : string) : string :=
  path_join output_dir (conversion_id ++ "_smooth." ++ fmt).

(** Line 472: [80 + int((i + 1) / len(output_formats) * 15)], with the
    quotient computed exactly: the integer part of [15 (i + 1) / n]. *)
Definition export_progress (i n : nat) : Z :=
  80 + (Z.of_nat (i + 1) * 15) / Z.of_nat n.

(** One iteration of the loop of lines 470-486, for the format [fmt] at
    index [i] of [n]. *)
Definition export_one (progress_callback : option callback) (mesh : trimesh)
    (output_dir conversion_id : string) (n i : nat) (fmt : string)
    (results : gmap string string) : M world (gmap string string) :=
  try_except
    (let progress := export_progress i n in
     update_progress progress_callback ("Exporting " ++ Py.upper fmt ++ "...") progress;;
     let file_path := export_path output_dir conversion_id fmt in
     on_files (export tm mesh file_path);;
     let results := <[fmt := file_path]> results in
     log ("Exported " ++ Py.upper fmt ++ ": " ++ file_path);;
     mret results)
    (fun export_error =>
       log ("Failed to export " ++ fmt ++ ": " ++ export_error);;
       mret results).

(** The loop of lines 470-486 over the formats from index [i] on. *)
Fixpoint export_loop (progress_callback : option callback) (mesh : trimesh)
    (output_dir conversion_id : string) (n i : nat) (fmts : list string)
    (results : gmap string string) : M world (gmap string string) :=
  match fmts with
  | [] => mret results
  | fmt :: fmts' =>
      results ← export_one progress_callback mesh output_dir conversion_id n i fmt results;
      export_loop progress_callback mesh output_dir conversion_id n (S i) fmts' results
  end.

(** The export of [mesh] in the format [fmt] returns on every state of the
    file system, respectively raises on every state. *)
Definition export_always_returns (mesh : trimesh) (output_dir conversion_id fmt : string)
    : Prop :=
  forall d : disk, (export tm mesh (export_path output_dir conversion_id fmt) d).2 = Ok tt.

Definition export_always_raises (mesh : trimesh) (output_dir conversion_id fmt : string)
    : Prop :=
  forall d : disk, exists e : string,
    (export tm mesh (export_path output_dir conversion_id fmt) d).2 = Raise e.

(** Lines 463-492 *)
Definition export_stage (progress_callback : option callback) (mesh : trimesh)
    (output_dir : string) (output_formats : list string) (conversion_id : string)
    : M world (gmap string string) :=
  update_progress progress_callback "Exporting files..." 80;;
  on_files (makedirs os output_dir);;
  results ← export_loop progress_callback mesh output_dir conversion_id
              (length output_formats) 0 output_formats ∅;
  if bool_decide (results = ∅) then raise "No files were successfully exported"
  else
    update_progress progress_callback "Conversion completed successfully!" 100;;
    mret results.

(** Lines 414-492: the pipeline once the file is loaded. *)
Definition convert_loaded (ply_data : ply_data) (output_dir : string)
    (output_formats : list string) (conversion_id : string)
    (progress_callback : option callback) (smoothing_level : string)
    : M world (gmap string string) :=
  let vertices := pd_vertices ply_data in
  let faces := pd_faces ply_data in
  let colors := pd_colors ply_data in
  let is_point_cloud := is_point_cloud ply_data in
  update_progress progress_callback
    ("Loaded " ++ pretty (length vertices) ++ " vertices") 15;;
  mesh ← (if is_point_cloud
          then reconstruct progress_callback vertices colors smoothing_level
          else original_mesh progress_callback vertices faces colors);
  update_progress progress_callback
    "Fixing face orientation for 360° visibility..." 55;;
  mesh ← lift (fix_face_orientation_and_normals mesh).2;
  update_progress progress_callback
    ("Applying " ++ smoothing_level ++ " smoothing...") 65;;
  let mesh := smoothing_stage is_point_cloud mesh smoothing_level in
  update_progress progress_callback "Final cleanup..." 75;;
  mesh ← final_cleanup mesh;
  export_stage progress_callback mesh output_dir output_formats conversion_id.

(** The body of the [try] of lines 409-492. *)
Definition convert_body (input_path output_dir : string) (output_formats : list string)
    (conversion_id : string) (progress_callback : option callback)
    (smoothing_level : string) : M world (gmap string string) :=
  update_progress progress_callback "Loading PLY file..." 5;;
  w ← get;
  ply_data ← lift (load_ply_file input_path (files w));
  convert_loaded ply_data output_dir output_formats conversion_id
    progress_callback smoothing_level.

Definition convert_ply (input_path output_dir : string) (output_formats : list string)
    (conversion_id : string) (progress_callback : option callback)
    (smoothing_level : string) : M world (gmap string string) :=
  try_except
    (convert_body input_path output_dir output_formats conversion_id
       progress_callback smoothing_level)
    (fun e =>
       let error_msg := "Conversion failed: " ++ e in
       log ("ERROR: " ++ error_msg);;
       log ("Traceback: " ++ format_exc os e);;
       update_progress progress_callback error_msg 0;;
       raise error_msg).

(** ** app.py *)

Definition ALLOWED_EXTENSIONS : list string := ["ply"].
Definition OUTPUT_FORMATS : list string := ["stl"; "obj"; "glb"; "3mf"; "dxf"].
Definition SMOOTHING_LEVELS : list string := ["light"; "medium"; "high"; "ultra"].
Definition UPLOAD_FOLDER : string := "uploads".
Definition OUTPUT_FOLDER : string := "outputs".

(** Lines 40-41 *)
Definition allowed_file (filename : string) : bool :=
  match Py.after_last_dot filename with
  | Some ext => bool_decide (Py.lower ext ∈ ALLOWED_EXTENSIONS)
  | None => false
  end.

(** The part of a POST request that [upload_file] reads: the uploaded file
    (name and content) if there is one, the values of the form field
    [formats], and the form field [smoothing] if present. *)
Record request : Type := Request {
  req_file : option (string * string);
  req_formats : list string;
  req_smoothing : option string;
}.

(** The arguments of the background thread running
    [convert_file_async_debug]. *)
Record job : Type := Job {
  job_id : string;
  job_input_path : string;
  job_formats : list string;
  job_smoothing : string;
}.

(** What [upload_file] answers: an error with its HTTP status, or the JSON
    of lines 131-137 after the thread of lines 123-128 has been started. *)
Inductive response : Type :=
| Rejected (error : string) (code : nat)
| Started (thread : job) (input_file : string).

(** Lines 92-104: the formats and the smoothing level of the request. *)
Definition requested_formats (form_formats : list string) : list string :=
  let output_formats :=
    match form_formats with
    | [] => ["stl"]
    | _ => form_formats
    end in
  filter (fun fmt => fmt ∈ OUTPUT_FORMATS) output_formats.

Definition requested_smoothing (form_smoothing : option string) : string :=
  let smoothing_level := default "medium" form_smoothing in
  if bool_decide (smoothing_level ∈ SMOOTHING_LEVELS) then smoothing_level else "medium".

(** [upload_file] (lines 47-145), for the fresh identifier [conversion_id]
    ([uuid.uuid4()]) at time [now] ([time.time()]). *)
Definition upload_file (conversion_id : string) (now : R) (req : request)
    : M world response :=
  try_except
    (match req_file req with
     | None => mret (Rejected "No file uploaded" 400)
     | Some (file_filename, content) =>
         if bool_decide (file_filename = "") then mret (Rejected "No file selected" 400)
         else if negb (allowed_file file_filename)
         then mret (Rejected "Only PLY files are allowed" 400)
         else
           let filename := secure_filename os file_filename in
           let input_path :=
             UPLOAD_FOLDER ++ "/" ++ conversion_id ++ "_" ++ filename in
           on_files (file_save os input_path content);;
           w ← get;
           if negb (path_exists os input_path (files w))
           then mret (Rejected "File save failed" 500)
           else
             let smoothing_level := requested_smoothing (req_smoothing req) in
             let valid_formats := requested_formats (req_formats req) in
             match valid_formats with
             | [] => mret (Rejected "Invalid output formats specified" 400)
             | _ =>
                 set_conversion_progress
                   (<[conversion_id :=
                        Entry "starting" 0 "Initializing smooth surface conversion..."
                              filename valid_formats smoothing_level now]>
                      (conversion_progress w));;
                 mret (Started (Job conversion_id input_path valid_formats smoothing_level)
                               filename)
             end
     end)
    (fun e => mret (Rejected ("Upload failed: " ++ e) 500)).

(** The closure [progress_callback] of lines 153-162. *)
Definition progress_callback (conversion_id : string) (message : string)
    (progress : option Z) : M world unit :=
  w ← get;
  match conversion_progress w !! conversion_id with
  | Some e =>
      let progress' :=
        match progress with
        | Some p => Z.min p 100
        | None => e_progress e
        end in
      set_conversion_progress
        (<[conversion_id :=
             Entry "converting" progress' message (e_input_file e) (e_output_formats e)
                   (e_smoothing_level e) (e_created_at e)]>
           (conversion_progress w))
  | None => mret tt
  end.

(** Lines 221-228: the results whose file exists. *)
Definition verified_results (results : gmap string string) (d : disk)
    : gmap string string :=
  filter (fun kv : string * string =>
            kv.2 ≠ "" ∧ path_exists os kv.2 d = true) results.

(** Lines 233-237; an assignment to a missing entry raises KeyError. *)
Definition store_results (conversion_id : string)
    (verified : gmap string string) : M world unit :=
  w ← get;
  set_conversion_results (<[conversion_id := verified]> (conversion_results w));;
  match conversion_progress w !! conversion_id with
  | Some e =>
      set_conversion_progress
        (<[conversion_id :=
             Entry "completed" 100
                   ("Conversion completed! " ++ pretty (size verified) ++ " files created.")
                   (e_input_file e) (e_output_formats e) (e_smoothing_level e) (e_created_at e)]>
           (conversion_progress w))
  | None => raise ("'" ++ conversion_id ++ "'")
  end.

(** Lines 220-237: the results are verified, and stored when at least one
    file is there. *)
Definition verify_and_store (conversion_id : string)
    (results : gmap string string) : M world unit :=
  w ← get;
  let verified := verified_results results (files w) in
  if bool_decide (verified = ∅)
  then raise "No output files were created successfully"
  else store_results conversion_id verified.

(** Lines 241-249 *)
Definition store_error (conversion_id : string) (e : string) : M world unit :=
  let error_msg := "Conversion failed: " ++ e in
  w ← get;
  match conversion_progress w !! conversion_id with
  | Some en =>
      set_conversion_progress
        (<[conversion_id :=
             Entry "error" (e_progress en) error_msg (e_input_file en) (e_output_formats en)
                   (e_smoothing_level en) (e_created_at en)]>
           (conversion_progress w))
  | None => mret tt
  end.

(** Lines 251-258 *)
Definition remove_input (input_path : string) : M world unit :=
  try_except
    (w ← get;
     if path_exists os input_path (files w)
     then on_files (os_remove os input_path)
     else mret tt)
    (fun _ => mret tt).

(** [convert_file_async_debug] (lines 147-258).  The constructor call
    [PLYConverter()] cannot fail (the class has no [__init__]) and
    [os.path.getsize] only feeds the logger; both are left out. *)
Definition convert_file_async_debug (conversion_id input_path : string)
    (output_formats : list string) (smoothing_level : string) : M world unit :=
  let notify : callback := fun message progress =>
    progress_callback conversion_id message (Some progress) in
  try_finally
    (try_except
       (call notify "Loading PLY converter..." 5;;
        try_except (lift (import_PLYConverter os))
          (fun import_error => raise ("Failed to import PLYConverter: " ++ import_error));;
        call notify "Creating converter instance..." 10;;
        call notify "Checking input file..." 15;;
        w ← get;
        (if negb (path_exists os input_path (files w))
         then raise ("Input file not found: " ++ input_path)
         else mret tt);;
        let output_dir := OUTPUT_FOLDER in
        (if negb (path_exists os output_dir (files w))
         then on_files (makedirs os output_dir)
         else mret tt);;
        call notify "Starting PLY conversion..." 20;;
        results ← convert_ply input_path output_dir output_formats conversion_id
                    (Some notify) smoothing_level;
        verify_and_store conversion_id results)
       (fun e => store_error conversion_id e))
    (remove_input input_path).

(** ** The endpoints of app.py *)

(** Flask, as far as the endpoints use it. *)
Record Flask_lib : Type := {
  (** [url_for('download_file', conversion_id=..., format_name=...)] *)
  url_for_download_file : string -> string -> string;
  (** [send_file(file_path, as_attachment=True, download_name=...)] *)
  send_file : string -> string -> disk -> outcome unit;
}.

Context (fl : Flask_lib).

(** What an endpoint answers: the body of a JSON answer with status 200, or
    an error with its HTTP status. *)
Inductive reply (A : Type) : Type :=
| Json (body : A)
| Json_error (error : string) (code : nat).
Arguments Json {A} body.
Arguments Json_error {A} error code.

(** The body of the answer of [get_progress]: the copy of the entry, and the
    key [download_links] when it was added. *)
Record progress_json : Type := Progress_json {
  progress_data : entry;
  download_links : option (gmap string string);
}.

(** The loop of lines 279-283: a link for every result whose path is not
    empty and exists. *)
Definition links_of (conversion_id : string) (results : gmap string string) (d : disk)
    : gmap string string :=
  map_imap (fun format_name file_path =>
              if bool_decide (file_path ≠ "") && path_exists os file_path d
              then Some (url_for_download_file fl conversion_id format_name)
              else None) results.

(** [get_progress] (lines 260-291) *)
Definition get_progress (conversion_id : string) : M world (reply progress_json) :=
  try_except
    (w ← get;
     match conversion_progress w !! conversion_id with
     | None => mret (Json_error "Conversion not found" 404)
     | Some progress_data =>
         let download_links :=
           if bool_decide (e_status progress_data = "completed") then
             match conversion_results w !! conversion_id with
             | Some results => Some (links_of conversion_id results (files w))
             | None => None
             end
           else None in
         mret (Json (Progress_json progress_data download_links))
     end)
    (fun e => mret (Json_error ("Progress check failed: " ++ e) 500)).

(** What [download_file] answers: the file sent as an attachment under a
    download name, or an error. *)
Inductive download : Type :=
| Attachment (file_path download_name : string)
| Download_error (error : string) (code : nat).

(** [download_file] (lines 293-325); [os.path.getsize] only feeds the
    logger and is left out. *)
Definition download_file (conversion_id format_name : string) : M world download :=
  try_except
    (w ← get;
     match conversion_results w !! conversion_id with
     | None => mret (Download_error "Conversion not found" 404)
     | Some results =>
         match results !! format_name with
         | None => mret (Download_error "Format not found" 404)
         | Some file_path =>
             if bool_decide (file_path = "") || negb (path_exists os file_path (files w))
             then mret (Download_error "File not found" 404)
             else
               let download_name := "smooth_" ++ conversion_id ++ "." ++ format_name in
               lift (send_file fl file_path download_name (files w));;
               mret (Attachment file_path download_name)
         end
     end)
    (fun e => mret (Download_error ("Download failed: " ++ e) 500)).

(** [status] (lines 327-337) *)
Record status_json : Type := Status_json {
  active_conversions : nat;
  completed_conversions : nat;
  upload_folder : string;
  output_folder : string;
  upload_folder_exists : bool;
  output_folder_exists : bool;
}.

Definition status (w : world) : status_json := {|
  active_conversions := size (conversion_progress w);
  completed_conversions := size (conversion_results w);
  upload_folder := UPLOAD_FOLDER;
  output_folder := OUTPUT_FOLDER;
  upload_folder_exists := path_exists os UPLOAD_FOLDER (files w);
  output_folder_exists := path_exists os OUTPUT_FOLDER (files w);
|}.

(** Lines 354-359: one output file is removed if it is there; a failure of
    [os.remove] is logged and ignored. *)
Definition remove_output (file_path : string) : M disk unit :=
  d ← get;
  if bool_decide (file_path ≠ "") && path_exists os file_path d
  then try_except (os_remove os file_path) (fun _ => mret tt)
  else mret tt.

(** The loop of lines 353-359 over [results.values()]. *)
Fixpoint remove_outputs (file_paths : list string) : M disk unit :=
  match file_paths with
  | [] => mret tt
  | file_path :: file_paths' =>
      remove_output file_path;;
      remove_outputs file_paths'
  end.

(** [cleanup_conversion] (lines 339-367).  The loop visits the values of
    [results] in the order of the map. *)
Definition cleanup_conversion (conversion_id : string) : M world (reply string) :=
  try_except
    (w ← get;
     match conversion_progress w !! conversion_id with
     | Some _ => set_conversion_progress (delete conversion_id (conversion_progress w))
     | None => mret tt
     end;;
     match conversion_results w !! conversion_id with
     | Some results =>
         on_files (remove_outputs (map snd (map_to_list results)));;
         set_conversion_results (delete conversion_id (conversion_results w))
     | None => mret tt
     end;;
     mret (Json "Cleanup completed"))
    (fun e => mret (Json_error ("Cleanup failed: " ++ e) 500)).

(** ** Specifications of runs *)

(** The two registries of app.py in a state. *)
Definition registries (w : world) : gmap string entry * gmap string (gmap string string) :=
  (conversion_progress w, conversion_results w).

(** Every run of [m], returning or raising, moves the registries along
    [R]. *)
Definition moves_registries {A : Type}
    (R : relation (gmap string entry * gmap string (gmap string string)))
    (m : M world A) : Prop :=
  forall (w w' : world) (r : outcome A), m w = (w', r) -> R (registries w) (registries w').

Definition callback_moves_registries
    (R : relation (gmap string entry * gmap string (gmap string string)))
    (progress_callback : option callback) : Prop :=
  match progress_callback with
  | Some cb => forall (message : string) (progress : Z), moves_registries R (cb message progress)
  | None => True
  end.

(** Two entries of the same job: the fields that [upload_file] sets and
    nothing changes afterwards agree. *)
Definition same_job (a b : entry) : Prop :=
  e_input_file a = e_input_file b /\ e_output_formats a = e_output_formats b /\
  e_smoothing_level a = e_smoothing_level b /\ e_created_at a = e_created_at b.

(** The registries [b] differ from [a] at most in the status, the percentage
    and the message of the entry of [conversion_id], which is neither added
    nor removed. *)
Definition progress_of (conversion_id : string)
    : relation (gmap string entry * gmap string (gmap string string)) :=
  fun a b =>
    b.2 = a.2 /\
    (forall k : string, k <> conversion_id -> b.1 !! k = a.1 !! k) /\
    option_Forall2 same_job (a.1 !! conversion_id) (b.1 !! conversion_id).

(** The registries [b] differ from [a] at most at [conversion_id]: results
    may have been stored for it, and the status, the percentage and the
    message of its entry may have changed; the entry is neither added nor
    removed. *)
Definition job_of (conversion_id : string)
    : relation (gmap string entry * gmap string (gmap string string)) :=
  fun a b =>
    (b.2 = a.2 \/ exists verified, b.2 = <[conversion_id := verified]> a.2) /\
    (forall k : string, k <> conversion_id -> b.1 !! k = a.1 !! k) /\
    option_Forall2 same_job (a.1 !! conversion_id) (b.1 !! conversion_id).

(** The results of a conversion: not empty, and every entry is a requested
    format with the path of its file. *)
Definition results_of (output_dir conversion_id : string) (output_formats : list string)
    (results : gmap string string) : Prop :=
  results <> ∅ /\
  forall fmt file_path : string, results !! fmt = Some file_path ->
    fmt ∈ output_formats /\ file_path = export_path output_dir conversion_id fmt.

(** What the body of [convert_file_async_debug] does for a job that has its
    entry: when it raises, only the progress of the job has changed; when it
    returns, it has verified and stored the results of a conversion. *)
Definition job_prefix_spec (conversion_id : string) (output_formats : list string)
    (m : M world unit) : Prop :=
  forall (w w' : world) (r : outcome unit), m w = (w', r) ->
    is_Some (conversion_progress w !! conversion_id) ->
    match r with
    | Raise _ => progress_of conversion_id (registries w) (registries w')
    | Ok _ =>
        exists (w0 : world) (results : gmap string string),
          progress_of conversion_id (registries w) (registries w0) /\
          results_of OUTPUT_FOLDER conversion_id output_formats results /\
          verify_and_store conversion_id results w0 = (w', Ok tt)
    end.

(** What a run of the pipeline after loading (lines 414-492) ends with, in
    terms of its causes: an exception of the mesh branch or no exportable
    format when it raises, and the files of the exportable formats when it
    returns. *)
Definition loaded_outcome (ply : ply_data) (output_dir : string)
    (output_formats : list string) (conversion_id : string)
    (r : outcome (gmap string string)) : Prop :=
  match r with
  | Raise e =>
      (is_point_cloud ply = false /\
       (Trimesh tm (pd_vertices ply) (pd_faces ply) = Raise e \/
        exists c, pd_colors ply = Some c /\ colors_max np c = Raise e)) \/
      (e = "No files were successfully exported" /\
       exists mesh', forall f, f ∈ output_formats ->
         ~ export_always_returns mesh' output_dir conversion_id f)
  | Ok res =>
      exists mesh', forall f, f ∈ output_formats ->
        export_always_returns mesh' output_dir conversion_id f ->
        res !! f = Some (export_path output_dir conversion_id f)
  end.

(** The library [o3] with another Laplacian filter. *)
Definition with_laplacian (o3 : Open3d_lib)
    (filter : nat -> R -> tmesh o3 -> outcome (tmesh o3)) : Open3d_lib := {|
  pcd := pcd o3;
  tmesh := tmesh o3;
  PointCloud := PointCloud o3;
  estimate_normals := estimate_normals o3;
  normalize_normals := normalize_normals o3;
  orient_normals_consistent_tangent_plane := orient_normals_consistent_tangent_plane o3;
  orient_normals_to_align_with_direction := orient_normals_to_align_with_direction o3;
  create_from_point_cloud_poisson := create_from_point_cloud_poisson o3;
  remove_vertices_by_mask := remove_vertices_by_mask o3;
  remove_duplicated_vertices := remove_duplicated_vertices o3;
  remove_duplicated_triangles := remove_duplicated_triangles o3;
  remove_degenerate_triangles := remove_degenerate_triangles o3;
  o3d_remove_unreferenced_vertices := o3d_remove_unreferenced_vertices o3;
  filter_smooth_laplacian := filter;
  tmesh_vertices := tmesh_vertices o3;
  tmesh_triangles := tmesh_triangles o3;
  has_vertex_colors := has_vertex_colors o3;
  tmesh_vertex_colors := tmesh_vertex_colors o3;
|}.

End model.

Arguments trimesh : clear implicits.
Arguments loaded : clear implicits.
Arguments plydata : clear implicits.
Arguments ply_data : clear implicits.
Arguments Numpy_colors : clear implicits.
Arguments Trimesh_lib : clear implicits.
Arguments Open3d_lib : clear implicits.
Arguments Os_lib : clear implicits.
Arguments world : clear implicits.
Arguments callback : clear implicits.
Arguments Flask_lib : clear implicits.
Arguments Json {A} body.
Arguments Json_error {A} error code.

(** ** A small concrete installation

    Colours are lists of reals, the file system is the list of the paths that
    exist.  The libraries below are simple but follow the shape of the real
    ones: the exporter knows the formats STL and OBJ, the convex hull fails
    (as qhull does on degenerate input), Open3D is not installed, and loading
    succeeds for the path [uploads/cloud.ply] (four points, no faces) and
    for [uploads/tri.ply] (one triangle). *)
Module Demo.

Definition colors : Type := list R.
Definition disk : Type := list string.

Definition np : Numpy_colors colors := {|
  colors_len := fun c => length c;
  colors_width := fun c =>
    if (0 <? length c)%nat then Ok 3%nat else Raise "tuple index out of range";
  colors_max := fun c => Np.max c;
  colors_rgb := fun c => c;
  colors_div255 := fun c => map (fun x => x / 255)%R c;
  colors_to_uint8 := fun c => map (fun x => x * 255)%R c;
  kdtree_nearest_colors := fun _ c _ => Ok c;
  argmin_nearest_colors := fun _ c _ => Ok c;
|}.

(** The unit cube centred at the origin, two triangles per side. *)
Definition unit_cube : trimesh colors := {|
  vertices := [(-0.5, -0.5, -0.5); (-0.5, -0.5, 0.5); (-0.5, 0.5, -0.5); (-0.5, 0.5, 0.5);
               (0.5, -0.5, -0.5); (0.5, -0.5, 0.5); (0.5, 0.5, -0.5); (0.5, 0.5, 0.5)]%R;
  faces := [(1, 3, 0); (4, 1, 0); (0, 3, 2); (2, 4, 0); (1, 7, 3); (5, 1, 4);
            (5, 7, 1); (3, 7, 2); (6, 4, 2); (2, 7, 6); (6, 5, 4); (7, 5, 6)]%nat;
  vertex_colors := None;
|}.

Definition known_format (path : string) : bool :=
  match Py.after_last_dot path with
  | Some ext => bool_decide (ext ∈ ["stl"; "obj"])
  | None => false
  end.

Definition cloud_points : list vec :=
  [(0, 0, 0); (1, 0, 0); (0, 1, 0); (1, 1, 0)]%R.

Definition triangle_points : list vec := [(0, 0, 0); (1, 0, 0); (0, 1, 0)]%R.

(** trimesh, for a given behaviour of the property [face_normals], with or
    without the method [smoothed]. *)
Definition tm_with (normals : trimesh colors -> outcome (list vec)) (can_smooth : bool)
    : Trimesh_lib colors disk := {|
  Trimesh := fun v f => Ok (Mesh v (default [] f) None);
  fix_normals := mret tt;
  unify_normals := mret tt;
  face_normals := normals;
  remove_degenerate_faces := mret tt;
  remove_duplicate_faces := mret tt;
  remove_unreferenced_vertices := mret tt;
  convex_hull := fun _ => Raise "QhullError";
  creation_box := fun _ => unit_cube;
  has_smoothed := fun _ => can_smooth;
  smoothed := fun m =>
    if can_smooth then Ok m else Raise "'Trimesh' object has no attribute 'smoothed'";
  export := fun _ path d =>
    if known_format path then (path :: d, Ok tt)
    else (d, Raise "exporter not available");
  trimesh_load := fun path d =>
    if bool_decide (path ∈ d) then
      if bool_decide (path = "uploads/cloud.ply")
      then Ok (Loaded (Some cloud_points) None None)
      else if bool_decide (path = "uploads/tri.ply")
      then Ok (Loaded (Some triangle_points) None (Some [(0, 1, 2)%nat]))
      else Raise "not a PLY file"
    else Raise "No such file or directory";
  PlyData_read := fun _ _ => Raise "not a PLY file";
|}.

(** Face normals are not available: the orientation check is skipped. *)
Definition tm : Trimesh_lib colors disk :=
  tm_with (fun _ => Raise "face normals are not available") true.





(** A trimesh release without the method [smoothed]. *)
Definition tm_plain : Trimesh_lib colors disk :=
  tm_with (fun _ => Raise "face normals are not available") false.

(** One triangle, and a triangle lying above a fourth vertex. *)
Definition triangle : trimesh colors := Mesh triangle_points [(0, 1, 2)%nat] None.


Definition o3 : Open3d_lib colors := {|
  pcd := unit;
  tmesh := unit;
  PointCloud := fun _ _ => Ok tt;
  estimate_normals := fun _ _ => mret tt;
  normalize_normals := mret tt;
  orient_normals_consistent_tangent_plane := fun _ => mret tt;
  orient_normals_to_align_with_direction := mret tt;
  create_from_point_cloud_poisson := fun _ _ _ _ _ => Raise "Open3D is not installed";
  remove_vertices_by_mask := fun _ => mret tt;
  remove_duplicated_vertices := mret tt;
  remove_duplicated_triangles := mret tt;
  remove_degenerate_triangles := mret tt;
  o3d_remove_unreferenced_vertices := mret tt;
  filter_smooth_laplacian := fun _ _ m => Ok m;
  tmesh_vertices := fun _ => [];
  tmesh_triangles := fun _ => [];
  has_vertex_colors := fun _ => false;
  tmesh_vertex_colors := fun _ => [];
|}.

Definition os : Os_lib disk := {|
  path_exists := fun path d => bool_decide (path ∈ d);
  makedirs := fun path d => (if bool_decide (path ∈ d) then d else path :: d, Ok tt);
  os_remove := fun path d => (filter (fun p => p ≠ path) d, Ok tt);
  file_save := fun path _ d => (path :: d, Ok tt);
  secure_filename := fun name => name;
  import_PLYConverter := Ok tt;
  format_exc := fun e => "RuntimeError: " ++ e;
|}.

(** Two densities close together. *)
Definition tight_densities : list R := [10; 11]%R.

Definition HAS_OPEN3D : bool := false.
Definition HAS_SCIPY : bool := false.

Definition entry0 (formats : list string) : entry :=
  Entry "starting" 0 "Initializing smooth surface conversion..." "in.ply" formats "medium" 0.

(** The process just after [upload_file] accepted a job [j1] on [path]. *)
Definition started (path : string) (formats : list string) : world disk :=
  World [path; "uploads"; "outputs"] {[ "j1" := entry0 formats ]} ∅ [] [].

(** The process before any upload. *)
Definition idle : world disk := World ["uploads"; "outputs"] ∅ ∅ [] [].

(** The callback that [convert_file_async_debug] passes on for the job
    [j1]. *)
Definition notify : callback disk :=
  fun message progress => progress_callback "j1" message (Some progress).

(** The percentages of the calls made to the progress callback so far. *)
Definition percentages (w : world disk) : list Z := map snd (calls w).

(** Flask: the route of [download_file], and [send_file] on a file that is
    there. *)
Definition fl : Flask_lib disk := {|
  url_for_download_file := fun conversion_id format_name =>
    "/download/" ++ conversion_id ++ "/" ++ format_name;
  send_file := fun path _ d =>
    if bool_decide (path ∈ d) then Ok tt else Raise "No such file or directory";
|}.

(** An Open3D whose Poisson reconstruction spans one triangle over the
    first three points of the cloud and reports no densities. *)
Definition o3_installed : Open3d_lib colors := {|
  pcd := list vec;
  tmesh := list vec * list face;
  PointCloud := fun points _ => Ok points;
  estimate_normals := fun _ _ => mret tt;
  normalize_normals := mret tt;
  orient_normals_consistent_tangent_plane := fun _ => mret tt;
  orient_normals_to_align_with_direction := mret tt;
  create_from_point_cloud_poisson := fun cloud _ _ _ _ => Ok ((cloud, [(0, 1, 2)%nat]), []);
  remove_vertices_by_mask := fun _ => mret tt;
  remove_duplicated_vertices := mret tt;
  remove_duplicated_triangles := mret tt;
  remove_degenerate_triangles := mret tt;
  o3d_remove_unreferenced_vertices := mret tt;
  filter_smooth_laplacian := fun _ _ m => Ok m;
  tmesh_vertices := fun m => m.1;
  tmesh_triangles := fun m => m.2;
  has_vertex_colors := fun _ => false;
  tmesh_vertex_colors := fun _ => [];
|}.

(** The process after the job [j1] has stored its STL file. *)
Definition finished : world disk :=
  World ["outputs/j1_smooth.stl"; "uploads"; "outputs"]
        {[ "j1" := Entry "completed" 100 "Conversion completed! 1 files created." "in.ply"
                         ["stl"] "medium" 0 ]}
        {[ "j1" := {[ "stl" := "outputs/j1_smooth.stl" ]} ]} [] [].

End Demo.

(** * Verification *)

Local Open Scope list_scope.

(** ** Orientation fixing *)

Section orientation_facts.
Context {colors disk : Type} (tm : Trimesh_lib colors disk).

(** Steps 1 and 2 never raise. *)
Lemma step1_returns (mesh : trimesh colors) : (step1 tm mesh).2 = Ok tt.
Proof.
  unfold step1, try_except. destruct (fix_normals tm mesh) as [s [[]|e]]; reflexivity.
Qed.

Lemma step2_returns (mesh : trimesh colors) : (step2 tm mesh).2 = Ok tt.
Proof.
  unfold step2, try_except. destruct (unify_normals tm mesh) as [s [[]|e]]; reflexivity.
Qed.

Lemma fix_unfold (mesh : trimesh colors) :
  fix_face_orientation_and_normals tm mesh =
  let m2 := prepared tm mesh in
  match try_except (step3 tm) (fun _ => mret None) m2 with
  | (m3, Ok (Some d)) => (m3, Ok d)
  | (m3, Ok None) =>
      match cleanup tm m3 with
      | (m4, _) => (m4, Ok m4)
      end
  | (m3, Raise _) => (m3, Ok m3)
  end.
Proof.
  unfold fix_face_orientation_and_normals, prepared.
  pose proof (step1_returns mesh) as H1.
  destruct (step1 tm mesh) as [s1 r1] eqn:E1. simpl in H1. subst r1.
  pose proof (step2_returns s1) as H2. cbn [fst].
  destruct (step2 tm s1) as [s2 r2] eqn:E2. simpl in H2. subst r2. cbn [fst].
  unfold try_except at 1. unfold mbind, M_bind. rewrite E1, E2. cbv zeta.
  destruct (try_except (step3 tm) (fun _ => mret None) s2) as [s3 [[d|]|e]];
    try reflexivity.
  unfold step4, mbind, M_bind.
  destruct (cleanup tm s3) as [s4 [[]|e]]; reflexivity.
Qed.


(** Step 3 reads the mesh and leaves it as it is. *)
Lemma step3_unfold (mesh : trimesh colors) :
  step3 tm mesh =
  (mesh,
   match face_normals tm mesh with
   | Raise e => Raise e
   | Ok normals =>
       if (0 <? length normals)%nat then
         match dot_products (vertices mesh) (faces mesh) normals with
         | Raise e => Raise e
         | Ok dps =>
             if Np.Rltb (outward_ratio dps) 0.6 then
               match make_double_sided tm mesh (vertices mesh) (faces mesh) with
               | Ok d => Ok (Some d)
               | Raise e => Raise e
               end
             else Ok None
         end
       else Ok None
   end).
Proof.
  unfold step3, mbind, M_bind, get, lift. cbv zeta.
  destruct (face_normals tm mesh) as [normals|e]; [|reflexivity].
  destruct (0 <? length normals)%nat; [|reflexivity].
  destruct (dot_products (vertices mesh) (faces mesh) normals) as [dps|e]; [|reflexivity].
  destruct (Np.Rltb (outward_ratio dps) 0.6); [|reflexivity].
  destruct (make_double_sided tm mesh (vertices mesh) (faces mesh)); reflexivity.
Qed.

Lemma Rltb_true (x y : R) : Np.Rltb x y = true <-> (x < y)%R.
Proof. unfold Np.Rltb. destruct (Rlt_dec x y); split; (congruence || lra || auto). Qed.

Lemma Rltb_false (x y : R) : Np.Rltb x y = false <-> (y <= x)%R.
Proof. unfold Np.Rltb. destruct (Rlt_dec x y); split; (congruence || lra || auto). Qed.

(** Claim C9.  [fix_face_orientation_and_normals] returns a mesh for every
    library behaviour and every input: no exception leaves it.  The mesh
    returned is either the double-sided mesh built from the input after steps
    1 and 2, or the input object in the state its method calls left it in. *)
Theorem fix_face_orientation_never_raises (mesh : trimesh colors) :
  exists (s result : trimesh colors),
    fix_face_orientation_and_normals tm mesh = (s, Ok result) /\
    (result = s \/
     (s = prepared tm mesh /\
      make_double_sided tm s (vertices s) (faces s) = Ok result)).
Proof.
  rewrite fix_unfold. cbv zeta. unfold try_except. rewrite step3_unfold.
  set (m2 := prepared tm mesh).
  destruct (face_normals tm m2) as [normals|e]; simpl.
  2:{ destruct (cleanup tm m2) as [m4 r]. eauto. }
  destruct (0 <? length normals)%nat.
  2:{ destruct (cleanup tm m2) as [m4 r]. eauto. }
  destruct (dot_products (vertices m2) (faces m2) normals) as [dps|e].
  2:{ simpl. destruct (cleanup tm m2) as [m4 r]. eauto. }
  destruct (Np.Rltb (outward_ratio dps) 0.6).
  2:{ destruct (cleanup tm m2) as [m4 r]. eauto. }
  destruct (make_double_sided tm m2 (vertices m2) (faces m2)) as [d|e] eqn:E.
  - exists m2, d. split; [reflexivity|]. right. split; [reflexivity|exact E].
  - simpl. destruct (cleanup tm m2) as [m4 r]. eauto.
Qed.




(** Claim C4.  The face array of the double-sided mesh is the original face
    list followed by the list of its reversed faces: twice as many faces,
    face [i] unchanged at index [i], its twin [a,c,b] at index [|F| + i].  The
    mesh handed to the cleanup carries the vertex colours of the input mesh
    when it has some. *)
Theorem double_sided_faces_spec (F : list face) :
  length (double_sided_faces F) = (2 * length F)%nat /\
  (forall (i : nat) (a b c : nat), F !! i = Some (a, b, c) ->
     double_sided_faces F !! i = Some (a, b, c) /\
     double_sided_faces F !! (length F + i)%nat = Some (a, c, b)) /\
  (forall (i : nat) (f : face), double_sided_faces F !! i = Some f ->
     F !! i = Some f \/ exists f0, F !! (i - length F)%nat = Some f0 /\ f = flip f0) /\
  (forall (mesh d : trimesh colors) (vs : list vec),
     Trimesh tm vs (Some (double_sided_faces F)) = Ok d ->
     make_double_sided tm mesh vs F =
       on (match vertex_colors mesh with
           | Some c => set_vertex_colors d c
           | None => d
           end) (cleanup tm)) /\
  (forall (d : trimesh colors) (c : colors),
     vertex_colors (set_vertex_colors d c) = Some c /\
     vertices (set_vertex_colors d c) = vertices d /\
     faces (set_vertex_colors d c) = faces d).
Proof.
  unfold double_sided_faces. cbv zeta. unfold face in *. repeat split.
  - rewrite length_app, length_map. lia.
  - rewrite lookup_app_l; [assumption|]. eapply lookup_lt_Some; eassumption.
  - rewrite lookup_app_r by lia.
    replace (length F + i - length F)%nat with i by lia.
    rewrite list_lookup_fmap, H. reflexivity.
  - intros i f H. destruct (decide (i < length F)%nat) as [Hlt|Hge].
    + left. rewrite lookup_app_l in H; assumption.
    + right. rewrite lookup_app_r in H by lia.
      rewrite list_lookup_fmap in H.
      destruct (F !! (i - length F)%nat) as [f0|]; simpl in H; [|discriminate].
      exists f0. split; congruence.
  - intros mesh d vs H. unfold make_double_sided, double_sided_faces. cbv zeta.
    unfold mbind, outcome_bind. unfold face in *. rewrite H. reflexivity.
Qed.

End orientation_facts.

(** ** Reconstruction *)

Section reconstruction_facts.
Context {colors disk : Type}.
Context (np : Numpy_colors colors) (tm : Trimesh_lib colors disk) (o3 : Open3d_lib colors).
Context (HAS_OPEN3D HAS_SCIPY : bool).

Lemma set_vertex_colors_has_geometry (m : trimesh colors) (c : colors) :
  has_geometry m -> has_geometry (set_vertex_colors m c).
Proof. unfold has_geometry. simpl. tauto. Qed.

Lemma length_pos_nonempty {A : Type} (l : list A) : (0 <? length l)%nat = true -> l <> [].
Proof. destruct l; simpl; [discriminate|congruence]. Qed.

Section with_library_contract.
(** What the pipeline relies on from trimesh: the constructor keeps
    non-empty geometry non-empty, a convex hull that is returned has
    geometry, and so has the box. *)
Hypothesis Trimesh_keeps_geometry :
  forall (v : list vec) (f : list face) (m : trimesh colors),
    Trimesh tm v (Some f) = Ok m -> v <> [] -> f <> [] -> has_geometry m.
Hypothesis convex_hull_has_geometry :
  forall m h : trimesh colors, convex_hull tm m = Ok h -> has_geometry h.
Hypothesis box_has_geometry :
  forall extents : list R, has_geometry (creation_box tm extents).

Lemma to_trimesh_has_geometry (mesh : tmesh o3) (m : trimesh colors) :
  to_trimesh np tm o3 mesh = Ok (Some m) -> has_geometry m.
Proof.
  unfold to_trimesh. cbv zeta.
  destruct (0 <? length (tmesh_vertices o3 mesh))%nat eqn:Ev; simpl; [|discriminate].
  destruct (0 <? length (tmesh_triangles o3 mesh))%nat eqn:Ef; simpl; [|discriminate].
  unfold mbind, outcome_bind.
  destruct (Trimesh tm _ _) as [tm0|e] eqn:Et; [|discriminate].
  assert (Hg : has_geometry tm0).
  { eapply Trimesh_keeps_geometry; eauto using length_pos_nonempty. }
  destruct (has_vertex_colors o3 mesh).
  - destruct (colors_max np (tmesh_vertex_colors o3 mesh)); [|discriminate].
    intros [= <-]. apply set_vertex_colors_has_geometry, Hg.
  - intros [= <-]. exact Hg.
Qed.

Lemma poisson_has_geometry (vertices : list vec) (colors0 : option colors)
    (smoothing_level : string) (m : trimesh colors) :
  precise_poisson_reconstruction np tm o3 HAS_OPEN3D vertices colors0 smoothing_level = Some m ->
  has_geometry m.
Proof.
  unfold precise_poisson_reconstruction.
  destruct (negb HAS_OPEN3D); [discriminate|].
  destruct (poisson_body np tm o3 vertices colors0 smoothing_level) as [r|e] eqn:E;
    [|discriminate].
  intros ->. revert E. unfold poisson_body. cbv zeta. unfold mbind, outcome_bind.
  repeat match goal with
  | |- match ?x with _ => _ end = _ -> _ => destruct x; try discriminate
  end.
  apply to_trimesh_has_geometry.
Qed.

Lemma basic_has_geometry (points : list vec) (colors0 : option colors) :
  has_geometry (create_mesh_from_points_basic np tm HAS_SCIPY points colors0).
Proof.
  unfold create_mesh_from_points_basic.
  destruct (basic_body np tm HAS_SCIPY points colors0) as [m|e] eqn:E.
  2:{ apply box_has_geometry. }
  revert E. unfold basic_body, mbind, outcome_bind.
  destruct (Trimesh tm points None) as [cloud|]; [|discriminate].
  destruct (convex_hull tm cloud) as [hull|] eqn:Eh; [|discriminate].
  apply convex_hull_has_geometry in Eh.
  destruct colors0 as [c|]; [|intros [= <-]; exact Eh].
  destruct (colors_len np c =? length points)%nat; [|intros [= <-]; exact Eh].
  cbv zeta.
  destruct (if HAS_SCIPY then _ else _) as [mc|]; [|discriminate].
  destruct (colors_max np mc); [|discriminate].
  intros [= <-]. apply set_vertex_colors_has_geometry, Eh.
Qed.

End with_library_contract.
End reconstruction_facts.

(** ** The stages of [convert_ply] *)

Section stage_facts.
Context {colors disk : Type}.
Context (np : Numpy_colors colors) (tm : Trimesh_lib colors disk) (o3 : Open3d_lib colors).
Context (HAS_OPEN3D HAS_SCIPY : bool).

Lemma update_progress_returns (pc : option (callback disk)) (msg : string) (p : Z)
    (w : world disk) :
  never_raises pc -> exists w', update_progress pc msg p w = (w', Ok tt).
Proof.
  intros H. unfold update_progress, mbind, M_bind, log, modify.
  destruct pc as [cb|]; simpl.
  - unfold call, mbind, M_bind, modify.
    specialize (H msg p (World (files w) (conversion_progress w) (conversion_results w)
                               (stdout w) (calls w ++ [(msg, p)]))).
    destruct (cb msg p _) as [w1 r]. simpl in H. subst r. eauto.
  - eauto.
Qed.

(** Claim C7.  Given that trimesh keeps non-empty geometry non-empty, that a
    convex hull it returns has geometry and that its box has geometry, the
    reconstruction stage hands on a mesh with at least one vertex and one
    face, for every point set: whatever is returned has geometry, and the
    stage does return when the progress callback does. *)
Theorem reconstruction_yields_geometry
    (pc : option (callback disk)) (points : list vec) (colors0 : option colors)
    (smoothing_level : string) (w : world disk) :
  (forall (v : list vec) (f : list face) (m : trimesh colors),
     Trimesh tm v (Some f) = Ok m -> v <> [] -> f <> [] -> has_geometry m) ->
  (forall m h : trimesh colors, convex_hull tm m = Ok h -> has_geometry h) ->
  (forall extents : list R, has_geometry (creation_box tm extents)) ->
  has_geometry (reconstructed np tm o3 HAS_OPEN3D HAS_SCIPY points colors0 smoothing_level) /\
  (forall w' m,
     reconstruct np tm o3 HAS_OPEN3D HAS_SCIPY pc points colors0 smoothing_level w
       = (w', Ok m) ->
     m = reconstructed np tm o3 HAS_OPEN3D HAS_SCIPY points colors0 smoothing_level) /\
  (never_raises pc ->
   exists w',
     reconstruct np tm o3 HAS_OPEN3D HAS_SCIPY pc points colors0 smoothing_level w
       = (w', Ok (reconstructed np tm o3 HAS_OPEN3D HAS_SCIPY points colors0
                    smoothing_level))).
Proof.
  intros Ht Hh Hb. unfold reconstructed, reconstruct.
  split; [|split].
  - destruct (precise_poisson_reconstruction _ _ _ _ _ _ _) as [m|] eqn:E.
    + eapply poisson_has_geometry; eauto.
    + apply basic_has_geometry; auto.
  - intros w' m. unfold mbind, M_bind.
    destruct (update_progress pc _ 25 w) as [w1 [[]|e]]; [|discriminate].
    destruct (precise_poisson_reconstruction _ _ _ _ _ _ _) as [m0|].
    + destruct (update_progress pc _ 45 w1) as [w2 [[]|e]]; [|discriminate].
      unfold mret, M_ret. congruence.
    + destruct (update_progress pc _ 35 w1) as [w2 [[]|e]]; [|discriminate].
      unfold mret, M_ret. congruence.
  - intros Hc. unfold mbind, M_bind.
    destruct (update_progress_returns pc
      "Point cloud detected, precise surface reconstruction..." 25 w Hc) as [w1 ->].
    destruct (precise_poisson_reconstruction _ _ _ _ _ _ _) as [m0|].
    + destruct (update_progress_returns pc
        "Precise surface reconstruction completed" 45 w1 Hc) as [w2 ->]. eauto.
    + destruct (update_progress_returns pc
        "Using basic surface reconstruction..." 35 w1 Hc) as [w2 ->]. eauto.
Qed.

Lemma smoothing_loop_no_capability (n : nat) (mesh : trimesh colors) :
  has_smoothed tm mesh = false -> smoothing_loop tm n mesh = Ok mesh.
Proof. intros H. destruct n; simpl; [reflexivity|]. rewrite H. reflexivity. Qed.

Lemma smoothing_loop_iter (f : trimesh colors -> trimesh colors) (n : nat)
    (mesh : trimesh colors) :
  (forall m, has_smoothed tm m = true) ->
  (forall m, smoothed tm m = Ok (f m)) ->
  smoothing_loop tm n mesh = Ok (Nat.iter n f mesh).
Proof.
  intros Hc Hs. revert mesh. induction n as [|n IH]; intros mesh; simpl; [reflexivity|].
  rewrite Hc, Hs. unfold mbind, outcome_bind. rewrite IH. f_equal.
  clear. induction n as [|n IH]; simpl; [reflexivity|]. rewrite IH. reflexivity.
Qed.

(** Claim C8.  The smoothing stage of [convert_ply] leaves a reconstructed
    point-cloud surface as it is and applies [smooth_mesh_basic] to an original
    mesh only; the iteration counts are 1, 2, 3 and 5; a mesh without the
    [smoothed] capability comes back unmodified, and with the capability the
    mesh is smoothed as many times as the level says.  For a point cloud the
    whole pipeline after loading does the same whatever [smoothed] does: it
    is never called. *)
Theorem smoothing_stage_spec (mesh : trimesh colors) (smoothing_level : string) :
  smoothing_stage tm true mesh smoothing_level = mesh /\
  smoothing_stage tm false mesh smoothing_level = smooth_mesh_basic tm mesh smoothing_level /\
  (Py.dict_get iterations_map "light" 2 = 1 /\
   Py.dict_get iterations_map "medium" 2 = 2 /\
   Py.dict_get iterations_map "high" 2 = 3 /\
   Py.dict_get iterations_map "ultra" 2 = 5)%nat /\
  (has_smoothed tm mesh = false -> smooth_mesh_basic tm mesh smoothing_level = mesh) /\
  (forall f : trimesh colors -> trimesh colors,
     (forall m, has_smoothed tm m = true) ->
     (forall m, smoothed tm m = Ok (f m)) ->
     smooth_mesh_basic tm mesh smoothing_level
       = Nat.iter (Py.dict_get iterations_map smoothing_level 2%nat) f mesh) /\
  (forall (os : Os_lib disk) (ply : ply_data colors) (output_dir cid : string)
          (output_formats : list string) (pc : option (callback disk))
          (has : trimesh colors -> bool) (sm : trimesh colors -> outcome (trimesh colors)),
     is_point_cloud ply = true ->
     convert_loaded np (with_smoothing tm has sm) o3 os HAS_OPEN3D HAS_SCIPY ply output_dir
       output_formats cid pc smoothing_level
     = convert_loaded np tm o3 os HAS_OPEN3D HAS_SCIPY ply output_dir
         output_formats cid pc smoothing_level).
Proof.
  split; [reflexivity|]. split; [reflexivity|].
  split; [repeat split; vm_compute; reflexivity|]. split; [|split].
  - intros H. unfold smooth_mesh_basic. cbv zeta.
    rewrite smoothing_loop_no_capability by exact H. reflexivity.
  - intros f Hc Hs. unfold smooth_mesh_basic. cbv zeta.
    rewrite (smoothing_loop_iter f) by assumption. reflexivity.
  - intros os ply output_dir cid output_formats pc has sm Hpc.
    unfold convert_loaded. cbv zeta. rewrite Hpc. reflexivity.
Qed.

Lemma dict_get_absent {V : Type} (d : gmap string V) (k : string) (v : V) :
  d !! k = None -> Py.dict_get d k v = v.
Proof. intros H. unfold Py.dict_get. rewrite H. reflexivity. Qed.

Lemma unknown_level_lookups (smoothing_level : string) :
  smoothing_level ∉ SMOOTHING_LEVELS ->
  depth_map !! smoothing_level = None /\
  iterations_map !! smoothing_level = None /\
  bool_decide (smoothing_level ∈ ["high"; "ultra"]) = false.
Proof.
  intros H. unfold SMOOTHING_LEVELS in H.
  assert (Hl : smoothing_level <> "light") by (intros ->; apply H; left).
  assert (Hm : smoothing_level <> "medium") by (intros ->; apply H; right; left).
  assert (Hh : smoothing_level <> "high") by (intros ->; apply H; right; right; left).
  assert (Hu : smoothing_level <> "ultra")
    by (intros ->; apply H; right; right; right; left).
  unfold depth_map, iterations_map. repeat split.
  - rewrite !lookup_insert_ne by congruence. apply lookup_singleton_ne. congruence.
  - rewrite !lookup_insert_ne by congruence. apply lookup_singleton_ne. congruence.
  - apply bool_decide_eq_false. intros Hin.
    apply elem_of_cons in Hin as [->|Hin]; [congruence|].
    apply elem_of_cons in Hin as [->|Hin]; [congruence|].
    apply elem_of_nil in Hin. exact Hin.
Qed.

(** Claim C10.  A smoothing level outside light, medium, high and ultra is
    accepted: the Poisson depth is 9 and the number of basic smoothing
    iterations is 2, and both functions return what they return for
    ["medium"]. *)
Theorem unknown_level_is_medium (smoothing_level : string)
    (vertices : list vec) (colors0 : option colors) (mesh : trimesh colors) :
  smoothing_level ∉ SMOOTHING_LEVELS ->
  Py.dict_get depth_map smoothing_level 9%nat = 9%nat /\
  Py.dict_get depth_map "medium" 9%nat = 9%nat /\
  Py.dict_get iterations_map smoothing_level 2%nat = 2%nat /\
  Py.dict_get iterations_map "medium" 2%nat = 2%nat /\
  precise_poisson_reconstruction np tm o3 HAS_OPEN3D vertices colors0 smoothing_level
    = precise_poisson_reconstruction np tm o3 HAS_OPEN3D vertices colors0 "medium" /\
  smooth_mesh_basic tm mesh smoothing_level = smooth_mesh_basic tm mesh "medium".
Proof.
  intros H. destruct (unknown_level_lookups smoothing_level H) as (Hd & Hi & Hs).
  assert (Ed : Py.dict_get depth_map smoothing_level 9%nat = 9%nat)
    by (apply dict_get_absent, Hd).
  assert (Ei : Py.dict_get iterations_map smoothing_level 2%nat = 2%nat)
    by (apply dict_get_absent, Hi).
  repeat split; try assumption; try (vm_compute; reflexivity).
  - unfold precise_poisson_reconstruction, poisson_body. cbv zeta.
    rewrite Ed, Hs. reflexivity.
  - unfold smooth_mesh_basic. cbv zeta. rewrite Ei. reflexivity.
Qed.

End stage_facts.

(** ** Histories of progress calls *)

Section progress_facts.
Context {colors disk : Type}.
Context (np : Numpy_colors colors) (tm : Trimesh_lib colors disk) (o3 : Open3d_lib colors)
        (os : Os_lib disk).
Context (HAS_OPEN3D HAS_SCIPY : bool).

Lemma nondecreasing_nil : nondecreasing [].
Proof. intros i j x y _ H. rewrite lookup_nil in H. discriminate. Qed.

Lemma nondecreasing_singleton (p : Z) : nondecreasing [p].
Proof.
  intros i j x y _ Hi Hj.
  apply list_lookup_singleton_Some in Hi as [_ <-].
  apply list_lookup_singleton_Some in Hj as [_ <-]. lia.
Qed.

Lemma nondecreasing_app (l1 l2 : list Z) (b : Z) :
  nondecreasing l1 -> nondecreasing l2 ->
  Forall (fun p => p <= b)%Z l1 -> Forall (fun p => b <= p)%Z l2 ->
  nondecreasing (l1 ++ l2).
Proof.
  intros H1 H2 F1 F2 i j x y Hij Hi Hj.
  apply lookup_app_Some in Hi. apply lookup_app_Some in Hj.
  destruct Hi as [Hi|[Hi1 Hi]], Hj as [Hj|[Hj1 Hj]].
  - eapply H1; eauto.
  - rewrite Forall_forall in F1, F2.
    assert (x <= b)%Z by (apply F1; eapply list_elem_of_lookup_2; eauto).
    assert (b <= y)%Z by (apply F2; eapply list_elem_of_lookup_2; eauto).
    lia.
  - apply lookup_lt_Some in Hj. lia.
  - eapply (H2 (i - length l1)%nat (j - length l1)%nat); eauto. lia.
Qed.

Lemma Forall_bounds_weaken (a b a' b' : Z) (l : list Z) :
  Forall (fun p => a <= p <= b)%Z l -> (a' <= a)%Z -> (b <= b')%Z ->
  Forall (fun p => a' <= p <= b')%Z l.
Proof. intros H Ha Hb. eapply Forall_impl; [exact H|]. simpl. intros; lia. Qed.

Lemma Forall_upper (a b c : Z) (l : list Z) :
  Forall (fun p => a <= p <= b)%Z l -> (b <= c)%Z -> Forall (fun p => p <= c)%Z l.
Proof. intros H Hb. eapply Forall_impl; [exact H|]. simpl. intros; lia. Qed.

Lemma Forall_lower (a b c : Z) (l : list Z) :
  Forall (fun p => a <= p <= b)%Z l -> (c <= a)%Z -> Forall (fun p => c <= p)%Z l.
Proof. intros H Hb. eapply Forall_impl; [exact H|]. simpl. intros; lia. Qed.

Lemma emits_weaken {A : Type} (a b a' b' : Z) (m : M (world disk) A) :
  emits a b m -> (a' <= a)%Z -> (b <= b')%Z -> emits a' b' m.
Proof.
  intros H Ha Hb w w' r E. destruct (H w w' r E) as (new & Hc & Hs & Hf).
  exists new. repeat split; auto. eapply Forall_bounds_weaken; eauto.
Qed.

Lemma emits_last_emits {A : Type} pc final (a b : Z) (m : M (world disk) A) :
  emits_last pc final a b m -> emits a b m.
Proof.
  intros H w w' r E. destruct (H w w' r E) as (new & Hc & Hs & Hf & _). eauto.
Qed.

Lemma silent_emits {A : Type} (a b : Z) (m : M (world disk) A) : silent m -> emits a b m.
Proof.
  intros H w w' r E. exists []. rewrite app_nil_r. repeat split.
  - eapply H; eauto.
  - apply nondecreasing_nil.
  - constructor.
Qed.

Lemma emits_bind {A B : Type} (a b c d : Z) (m : M (world disk) A)
    (k : A -> M (world disk) B) :
  emits a b m -> (forall x, emits c d (k x)) ->
  (a <= c)%Z -> (b <= c)%Z -> (b <= d)%Z ->
  emits a d (m ≫= k).
Proof.
  intros Hm Hk Hac Hbc Hbd w w' r E. unfold mbind, M_bind in E.
  destruct (m w) as [w1 [x|e]] eqn:Em.
  - destruct (Hm _ _ _ Em) as (n1 & Hc1 & Hs1 & Hf1).
    destruct (Hk x _ _ _ E) as (n2 & Hc2 & Hs2 & Hf2).
    exists (n1 ++ n2). rewrite Hc2, Hc1, app_assoc. split; [reflexivity|].
    rewrite map_app. split.
    + apply (nondecreasing_app _ _ c); eauto using Forall_upper, Forall_lower with lia.
    + apply Forall_app. split; eapply Forall_bounds_weaken; eauto; lia.
  - injection E as <- <-.
    destruct (Hm _ _ _ Em) as (n1 & Hc1 & Hs1 & Hf1).
    exists n1. repeat split; auto. eapply Forall_bounds_weaken; eauto; lia.
Qed.

Lemma emits_last_bind {A B : Type} pc final (a b c d : Z) (m : M (world disk) A)
    (k : A -> M (world disk) B) :
  emits a b m -> (forall x, emits_last pc final c d (k x)) ->
  (a <= c)%Z -> (b <= c)%Z -> (b <= d)%Z ->
  emits_last pc final a d (m ≫= k).
Proof.
  intros Hm Hk Hac Hbc Hbd w w' r E.
  unfold mbind, M_bind in E.
  destruct (m w) as [w1 [x|e]] eqn:Em.
  - destruct (Hm _ _ _ Em) as (n1 & Hc1 & Hs1 & Hf1).
    destruct (Hk x _ _ _ E) as (n2 & Hc2 & Hs2 & Hf2 & Hl).
    exists (n1 ++ n2). rewrite Hc2, Hc1, app_assoc. split; [reflexivity|].
    rewrite map_app. split; [|split].
    + apply (nondecreasing_app _ _ c); eauto using Forall_upper, Forall_lower with lia.
    + apply Forall_app. split; eapply Forall_bounds_weaken; eauto; lia.
    + intros y Hy Hpc. destruct (Hl y Hy Hpc) as [l ->].
      exists (n1 ++ l). rewrite app_assoc. reflexivity.
  - injection E as <- <-.
    destruct (Hm _ _ _ Em) as (n1 & Hc1 & Hs1 & Hf1).
    exists n1. repeat split; auto.
    + eapply Forall_bounds_weaken; eauto; lia.
    + intros; discriminate.
Qed.

Lemma emits_try_except {A : Type} (a b c d : Z) (body : M (world disk) A)
    (handler : string -> M (world disk) A) :
  emits a b body -> (forall e, emits c d (handler e)) ->
  (a <= c)%Z -> (b <= c)%Z -> (b <= d)%Z ->
  emits a d (try_except body handler).
Proof.
  intros Hm Hk Hac Hbc Hbd w w' r E. unfold try_except in E.
  destruct (body w) as [w1 [x|e]] eqn:Em.
  - injection E as <- <-.
    destruct (Hm _ _ _ Em) as (n1 & Hc1 & Hs1 & Hf1).
    exists n1. repeat split; auto. eapply Forall_bounds_weaken; eauto; lia.
  - destruct (Hm _ _ _ Em) as (n1 & Hc1 & Hs1 & Hf1).
    destruct (Hk e _ _ _ E) as (n2 & Hc2 & Hs2 & Hf2).
    exists (n1 ++ n2). rewrite Hc2, Hc1, app_assoc. split; [reflexivity|].
    rewrite map_app. split.
    + apply (nondecreasing_app _ _ c); eauto using Forall_upper, Forall_lower with lia.
    + apply Forall_app. split; eapply Forall_bounds_weaken; eauto; lia.
Qed.

Lemma silent_ret {A : Type} (x : A) : silent (disk := disk) (mret x).
Proof. intros w w' r [= <- _]. reflexivity. Qed.

Lemma silent_raise {A : Type} (e : string) : silent (@raise (world disk) A e).
Proof. intros w w' r [= <- _]. reflexivity. Qed.

Lemma silent_get : silent (@get (world disk)).
Proof. intros w w' r [= <- _]. reflexivity. Qed.

Lemma silent_lift {A : Type} (o : outcome A) : silent (disk := disk) (lift o).
Proof. intros w w' r [= <- _]. reflexivity. Qed.

Lemma silent_log (msg : string) : silent (log (disk := disk) msg).
Proof. intros w w' r [= <- _]. reflexivity. Qed.

Lemma silent_on_files {A : Type} (m : M disk A) : silent (on_files m).
Proof.
  intros w w' r E. unfold on_files in E. destruct (m (files w)) as [d r0].
  injection E as <- _. reflexivity.
Qed.

Lemma silent_bind {A B : Type} (m : M (world disk) A) (k : A -> M (world disk) B) :
  silent m -> (forall x, silent (k x)) -> silent (m ≫= k).
Proof.
  intros Hm Hk w w' r E. unfold mbind, M_bind in E.
  destruct (m w) as [w1 [x|e]] eqn:Em.
  - rewrite (Hk x _ _ _ E). eapply Hm; eauto.
  - injection E as <- _. eapply Hm; eauto.
Qed.

Lemma update_progress_calls (pc : option (callback disk)) (msg : string) (p : Z)
    (w w' : world disk) (r : outcome unit) :
  keeps_history pc -> update_progress pc msg p w = (w', r) ->
  calls w' = (calls w ++ match pc with Some _ => [(msg, p)] | None => [] end)%list.
Proof.
  intros Hk E. unfold update_progress, mbind, M_bind in E.
  destruct pc as [cb|].
  - unfold call, mbind, M_bind, modify in E.
    set (w0 := World _ _ _ _ _) in E.
    specialize (Hk msg p w0).
    destruct (cb msg p w0) as [w1 [[]|e]]; simpl in Hk.
    + unfold log, modify in E. injection E as <- _. simpl. rewrite Hk. reflexivity.
    + injection E as <- _. rewrite Hk. reflexivity.
  - unfold mret, M_ret, log, modify in E. injection E as <- _. simpl.
    rewrite app_nil_r. reflexivity.
Qed.

Lemma emits_update_progress (pc : option (callback disk)) (msg : string) (p : Z) :
  keeps_history pc -> emits p p (update_progress pc msg p).
Proof.
  intros Hk w w' r E. apply update_progress_calls in E; [|exact Hk].
  eexists. split; [exact E|]. destruct pc; simpl.
  - split; [apply nondecreasing_singleton|]. repeat constructor; lia.
  - split; [apply nondecreasing_nil|]. constructor.
Qed.

Lemma emits_last_update_progress (pc : option (callback disk)) (msg : string) (p : Z) :
  keeps_history pc -> emits_last pc (msg, p) p p (update_progress pc msg p).
Proof.
  intros Hk w w' r E. apply update_progress_calls in E; [|exact Hk].
  eexists. split; [exact E|]. destruct pc; simpl.
  - split; [apply nondecreasing_singleton|]. split; [repeat constructor; lia|].
    intros. exists []. reflexivity.
  - split; [apply nondecreasing_nil|]. split; [constructor|]. intros; congruence.
Qed.

End progress_facts.

Section convert_facts.
Context {colors disk : Type}.
Context (np : Numpy_colors colors) (tm : Trimesh_lib colors disk) (o3 : Open3d_lib colors)
        (os : Os_lib disk).
Context (HAS_OPEN3D HAS_SCIPY : bool).
Context (pc : option (callback disk)).

Lemma emits_last_step {A B : Type} (final : string * Z) (lo hi a b c d : Z)
    (m : M (world disk) A) (k : A -> M (world disk) B) :
  emits a b m -> (forall x, emits_last pc final c d (k x)) ->
  (lo <= a)%Z -> (a <= c)%Z -> (b <= c)%Z -> (b <= d)%Z -> (d <= hi)%Z ->
  emits_last pc final lo hi (m ≫= k).
Proof.
  intros Hm Hk H1 H2 H3 H4 H5 w w' r E.
  destruct (emits_last_bind pc final a b c d m k Hm Hk H2 H3 H4 w w' r E)
    as (new & Hc & Hs & Hf & Hl).
  exists new. repeat split; auto. eapply Forall_bounds_weaken; eauto.
Qed.

Lemma emits_step {A B : Type} (lo hi a b c d : Z)
    (m : M (world disk) A) (k : A -> M (world disk) B) :
  emits a b m -> (forall x, emits c d (k x)) ->
  (lo <= a)%Z -> (a <= c)%Z -> (b <= c)%Z -> (b <= d)%Z -> (d <= hi)%Z ->
  emits lo hi (m ≫= k).
Proof.
  intros Hm Hk H1 H2 H3 H4 H5. eapply emits_weaken.
  - eapply (emits_bind a b c d); eauto.
  - lia.
  - lia.
Qed.

Lemma emits_last_then_ret {A B : Type} (final : string * Z) (a b : Z)
    (m : M (world disk) A) (x : B) :
  emits_last pc final a b m -> emits_last pc final a b (m ≫= fun _ => mret x).
Proof.
  intros Hm w w' r E. unfold mbind, M_bind in E.
  destruct (m w) as [w1 [y|e]] eqn:Em.
  - injection E as <- <-. destruct (Hm _ _ _ Em) as (new & Hc & Hs & Hf & Hl).
    exists new. repeat split; auto. intros _ _ Hpc. eapply Hl; eauto.
  - injection E as <- <-. destruct (Hm _ _ _ Em) as (new & Hc & Hs & Hf & Hl).
    exists new. repeat split; auto. intros; discriminate.
Qed.

Lemma emits_last_raise {A : Type} (final : string * Z) (a b : Z) (e : string) :
  emits_last pc final a b (@raise (world disk) A e).
Proof.
  intros w w' r [= <- <-]. exists []. rewrite app_nil_r. repeat split.
  - apply nondecreasing_nil.
  - constructor.
  - intros; discriminate.
Qed.

Hypothesis Hkeeps : keeps_history pc.

Lemma emits_reconstruct (vertices : list vec) (colors0 : option colors) (lvl : string) :
  emits 25 45 (reconstruct np tm o3 HAS_OPEN3D HAS_SCIPY pc vertices colors0 lvl).
Proof.
  unfold reconstruct.
  destruct (precise_poisson_reconstruction _ _ _ _ _ _ _).
  - eapply (emits_step 25 45 25 25 45 45); try lia.
    + apply emits_update_progress, Hkeeps.
    + intros _. eapply (emits_step 45 45 45 45 45 45); try lia.
      * apply emits_update_progress, Hkeeps.
      * intros _. apply silent_emits, silent_ret.
  - eapply (emits_step 25 45 25 25 35 35); try lia.
    + apply emits_update_progress, Hkeeps.
    + intros _. eapply (emits_step 35 35 35 35 35 35); try lia.
      * apply emits_update_progress, Hkeeps.
      * intros _. apply silent_emits, silent_ret.
Qed.

Lemma emits_original_mesh (vertices : list vec) (faces : option (list face))
    (colors0 : option colors) :
  emits 25 40 (original_mesh np tm pc vertices faces colors0).
Proof.
  unfold original_mesh.
  eapply (emits_step 25 40 25 25 25 40); try lia.
  { apply emits_update_progress, Hkeeps. }
  intros _. eapply (emits_step 25 40 25 25 25 40); try lia.
  { apply silent_emits, silent_lift. }
  intros mesh. eapply (emits_step 25 40 25 25 25 40); try lia.
  { apply silent_emits. destruct colors0.
    - apply silent_bind; [apply silent_lift|]. intros; apply silent_ret.
    - apply silent_ret. }
  intros mesh'. eapply (emits_step 25 40 40 40 40 40); try lia.
  { apply emits_update_progress, Hkeeps. }
  intros _. apply silent_emits, silent_ret.
Qed.

Lemma silent_final_cleanup (mesh : trimesh colors) : silent (final_cleanup tm mesh).
Proof.
  unfold final_cleanup. destruct (cleanup tm mesh) as [m' [[]|e]].
  - apply silent_ret.
  - apply silent_bind; [apply silent_log|]. intros; apply silent_ret.
Qed.

Lemma export_progress_mono (i n : nat) :
  (0 < n)%nat -> (export_progress i n <= export_progress (S i) n)%Z.
Proof.
  intros Hn. unfold export_progress.
  apply Z.add_le_mono_l. apply Z.div_le_mono; lia.
Qed.

Lemma export_progress_bounds (i n : nat) :
  (i < n)%nat -> (80 <= export_progress i n <= 95)%Z.
Proof.
  intros Hn. unfold export_progress. split.
  - assert (0 <= Z.of_nat (i + 1) * 15 / Z.of_nat n)%Z by (apply Z.div_pos; lia). lia.
  - assert (Z.of_nat (i + 1) * 15 / Z.of_nat n <= 15)%Z.
    { apply Z.div_le_upper_bound; lia. }
    lia.
Qed.

Lemma emits_export_one (mesh : trimesh colors) (output_dir cid : string) (n i : nat)
    (fmt : string) (results : gmap string string) :
  emits (export_progress i n) (export_progress i n)
    (export_one tm pc mesh output_dir cid n i fmt results).
Proof.
  unfold export_one. cbv zeta.
  set (p := export_progress i n).
  eapply (emits_try_except p p p p); try lia.
  - eapply (emits_step p p p p p p); try lia.
    + apply emits_update_progress, Hkeeps.
    + intros _. apply silent_emits.
      apply silent_bind; [apply silent_on_files|]. intros _.
      apply silent_bind; [apply silent_log|]. intros _. apply silent_ret.
  - intros e. apply silent_emits.
    apply silent_bind; [apply silent_log|]. intros _. apply silent_ret.
Qed.

Lemma emits_export_loop (mesh : trimesh colors) (output_dir cid : string) (n : nat)
    (fmts : list string) :
  forall (i : nat) (results : gmap string string),
    (i + length fmts <= n)%nat ->
    emits (export_progress i n) 95 (export_loop tm pc mesh output_dir cid n i fmts results).
Proof.
  induction fmts as [|fmt fmts IH]; intros i results Hn; simpl.
  - apply silent_emits, silent_ret.
  - simpl in Hn.
    pose proof (export_progress_bounds i n ltac:(lia)) as Hb.
    pose proof (export_progress_mono i n ltac:(lia)) as Hm.
    set (p := export_progress i n) in *. set (p' := export_progress (S i) n) in *.
    eapply (emits_step p 95 p p p' 95); try lia.
    + apply emits_export_one.
    + intros r. apply IH. lia.
Qed.

End convert_facts.

Section convert_progress.
Context {colors disk : Type}.
Context (np : Numpy_colors colors) (tm : Trimesh_lib colors disk) (o3 : Open3d_lib colors)
        (os : Os_lib disk).
Context (HAS_OPEN3D HAS_SCIPY : bool).
Context (pc : option (callback disk)).
Hypothesis Hkeeps : keeps_history pc.

Lemma emits_last_export_stage (mesh : trimesh colors) (output_dir : string)
    (output_formats : list string) (cid : string) :
  emits_last pc completed 80 100
    (export_stage tm os pc mesh output_dir output_formats cid).
Proof.
  unfold export_stage.
  eapply (emits_last_step pc _ 80 100 80 80 80 100); try lia.
  { apply emits_update_progress, Hkeeps. }
  intros _. eapply (emits_last_step pc _ 80 100 80 80 80 100); try lia.
  { apply silent_emits, silent_on_files. }
  intros _. eapply (emits_last_step pc _ 80 100 80 95 100 100); try lia.
  { destruct output_formats as [|f fs] eqn:E.
    - apply silent_emits, silent_ret.
    - rewrite <- E. eapply emits_weaken.
      + apply emits_export_loop; [exact Hkeeps|]. simpl. lia.
      + apply export_progress_bounds. subst. simpl. lia.
      + lia. }
  intros results. destruct (bool_decide (results = ∅)).
  - apply emits_last_raise.
  - apply emits_last_then_ret. apply emits_last_update_progress, Hkeeps.
Qed.

Lemma emits_last_convert_loaded (ply : ply_data colors) (output_dir : string)
    (output_formats : list string) (cid lvl : string) :
  emits_last pc completed 15 100
    (convert_loaded np tm o3 os HAS_OPEN3D HAS_SCIPY ply output_dir output_formats
       cid pc lvl).
Proof.
  unfold convert_loaded. cbv zeta.
  eapply (emits_last_step pc _ 15 100 15 15 15 100); try lia.
  { apply emits_update_progress, Hkeeps. }
  intros _. eapply (emits_last_step pc _ 15 100 25 45 45 100); try lia.
  { destruct (is_point_cloud ply).
    - apply emits_reconstruct, Hkeeps.
    - eapply emits_weaken; [apply emits_original_mesh, Hkeeps|lia|lia]. }
  intros mesh. eapply (emits_last_step pc _ 45 100 55 55 55 100); try lia.
  { apply emits_update_progress, Hkeeps. }
  intros _. eapply (emits_last_step pc _ 55 100 55 55 55 100); try lia.
  { apply silent_emits, silent_lift. }
  intros mesh1. eapply (emits_last_step pc _ 55 100 65 65 65 100); try lia.
  { apply emits_update_progress, Hkeeps. }
  intros _. eapply (emits_last_step pc _ 65 100 75 75 75 100); try lia.
  { apply emits_update_progress, Hkeeps. }
  intros _. eapply (emits_last_step pc _ 75 100 75 75 80 100); try lia.
  { apply silent_emits, silent_final_cleanup. }
  intros mesh2. apply emits_last_export_stage.
Qed.

Lemma emits_last_convert_body (input_path output_dir : string)
    (output_formats : list string) (cid lvl : string) :
  emits_last pc completed 5 100
    (convert_body np tm o3 os HAS_OPEN3D HAS_SCIPY input_path output_dir output_formats
       cid pc lvl).
Proof.
  unfold convert_body.
  eapply (emits_last_step pc _ 5 100 5 5 5 100); try lia.
  { apply emits_update_progress, Hkeeps. }
  intros _. eapply (emits_last_step pc _ 5 100 5 5 5 100); try lia.
  { apply silent_emits, silent_get. }
  intros w0. eapply (emits_last_step pc _ 5 100 5 5 15 100); try lia.
  { apply silent_emits, silent_lift. }
  intros ply. apply emits_last_convert_loaded.
Qed.

(** What the handler of lines 494-499 does after the body has raised. *)
Lemma convert_handler_calls (e0 : string) (w1 w' : world disk)
    (r : outcome (gmap string string)) :
  (let error_msg := ("Conversion failed: " ++ e0)%string in
   log ("ERROR: " ++ error_msg)%string;;
   log ("Traceback: " ++ format_exc os e0)%string;;
   update_progress pc error_msg 0;;
   raise error_msg) w1 = (w', r) ->
  (exists e, r = Raise e) /\
  calls w' = calls w1 ++ match pc with
                         | Some _ => [(("Conversion failed: " ++ e0)%string, 0%Z)]
                         | None => []
                         end.
Proof.
  cbv zeta. unfold mbind, M_bind. unfold log at 1 2. unfold modify.
  set (w2 := World _ _ _ _ _).
  destruct (update_progress pc _ 0 w2) as [w3 [[]|e]] eqn:E; intros [= <- <-].
  - split; [eauto|]. apply update_progress_calls in E; [|exact Hkeeps]. exact E.
  - split; [eauto|]. apply update_progress_calls in E; [|exact Hkeeps]. exact E.
Qed.

Lemma convert_ply_calls (input_path output_dir : string) (output_formats : list string)
    (cid lvl : string) (w w' : world disk) (r : outcome (gmap string string)) :
  convert_ply np tm o3 os HAS_OPEN3D HAS_SCIPY input_path output_dir output_formats
    cid pc lvl w = (w', r) ->
  exists body : list (string * Z),
    nondecreasing (map snd body) /\
    Forall (fun p => 5 <= p <= 100)%Z (map snd body) /\
    match r with
    | Ok _ =>
        calls w' = calls w ++ body /\
        (pc <> None -> exists l, body = l ++ [completed])
    | Raise _ =>
        exists e0 : string,
          calls w' = calls w ++ body ++
            match pc with
            | Some _ => [(("Conversion failed: " ++ e0)%string, 0%Z)]
            | None => []
            end
    end.
Proof.
  unfold convert_ply, try_except. intros E.
  destruct (convert_body _ _ _ _ _ _ _ _ _ _ _ _ w) as [w1 [res|e0]] eqn:Eb.
  - injection E as <- <-.
    destruct (emits_last_convert_body _ _ _ _ _ _ _ _ Eb) as (new & Hc & Hs & Hf & Hl).
    exists new. repeat split; auto. intros Hpc. eapply Hl; eauto.
  - destruct (emits_last_convert_body _ _ _ _ _ _ _ _ Eb) as (new & Hc & Hs & Hf & Hl).
    apply convert_handler_calls in E. destruct E as [[e ->] Hcalls].
    exists new. repeat split; auto. exists e0. rewrite Hcalls, Hc, app_assoc. reflexivity.
Qed.

End convert_progress.

(** ** Export *)

Section export_facts.
Context {colors disk : Type}.
Context (tm : Trimesh_lib colors disk) (os : Os_lib disk).
Context (pc : option (callback disk)) (mesh : trimesh colors) (output_dir cid : string).

Local Abbreviation path_of fmt := (export_path output_dir cid fmt).
Local Abbreviation returns fmt := (export_always_returns tm mesh output_dir cid fmt).
Local Abbreviation fails fmt := (export_always_raises tm mesh output_dir cid fmt).

(** One iteration returns in every case: either the format is entered in
    [results] after an export that returned, or [results] is unchanged and the
    failure is the last line printed. *)
Lemma export_one_cases (n i : nat) (fmt : string) (results : gmap string string)
    (w : world disk) :
  exists w' : world disk,
    (export_one tm pc mesh output_dir cid n i fmt results w
       = (w', Ok (<[fmt := path_of fmt]> results)) /\
     exists d, export tm mesh (path_of fmt) d = (files w', Ok tt)) \/
    (export_one tm pc mesh output_dir cid n i fmt results w = (w', Ok results) /\
     exists e, last (stdout w')
               = Some ("[PLY-Converter] Failed to export " ++ fmt ++ ": " ++ e)%string /\
               ((update_progress pc ("Exporting " ++ Py.upper fmt ++ "...")%string
                  (export_progress i n) w).2 = Raise e \/
                exists d, (export tm mesh (path_of fmt) d).2 = Raise e)).
Proof.
  unfold export_one, try_except. cbv zeta. unfold mbind, M_bind.
  destruct (update_progress pc _ _ w) as [w1 [[]|e]] eqn:Eu.
  - unfold on_files.
    destruct (export tm mesh (path_of fmt) (files w1)) as [d' [[]|e]] eqn:Ee.
    + eexists. left. unfold log, modify, mret, M_ret. split; [reflexivity|].
      exists (files w1). simpl. exact Ee.
    + eexists. right. unfold log, modify, mret, M_ret. split; [reflexivity|].
      exists e. simpl. rewrite last_snoc. split; [reflexivity|].
      right. exists (files w1). rewrite Ee. reflexivity.
  - eexists. right. unfold log, modify, mret, M_ret. split; [reflexivity|].
    exists e. simpl. rewrite last_snoc. split; [reflexivity|]. left. reflexivity.
Qed.

Lemma export_one_success (n i : nat) (fmt : string) (results : gmap string string)
    (w : world disk) :
  never_raises pc -> returns fmt ->
  exists w', export_one tm pc mesh output_dir cid n i fmt results w
             = (w', Ok (<[fmt := path_of fmt]> results)).
Proof.
  intros Hc Hr. unfold export_one, try_except. cbv zeta. unfold mbind, M_bind.
  destruct (update_progress_returns pc ("Exporting " ++ Py.upper fmt ++ "...")%string
              (export_progress i n) w Hc) as [w1 ->].
  unfold on_files. specialize (Hr (files w1)).
  destruct (export tm mesh (path_of fmt) (files w1)) as [d' r]. simpl in Hr. subst r.
  unfold log, modify, mret, M_ret. eauto.
Qed.

Lemma export_one_failure (n i : nat) (fmt : string) (results : gmap string string)
    (w : world disk) :
  fails fmt ->
  exists w' e,
    export_one tm pc mesh output_dir cid n i fmt results w = (w', Ok results) /\
    last (stdout w') = Some ("[PLY-Converter] Failed to export " ++ fmt ++ ": " ++ e)%string.
Proof.
  intros Hf. destruct (export_one_cases n i fmt results w) as [w' [[E [d Hd]]|[E [e [Hl _]]]]].
  - destruct (Hf d) as [e He]. rewrite Hd in He. discriminate.
  - eauto.
Qed.

(** The loop returns whatever the single formats do. *)
Lemma export_loop_returns (n : nat) (fmts : list string) :
  forall (i : nat) (results : gmap string string) (w : world disk),
    exists w' res, export_loop tm pc mesh output_dir cid n i fmts results w = (w', Ok res).
Proof.
  induction fmts as [|fmt fmts IH]; intros i results w; simpl.
  - unfold mret, M_ret. eauto.
  - unfold mbind, M_bind.
    destruct (export_one_cases n i fmt results w) as [w1 [[-> _]|[-> _]]]; apply IH.
Qed.

(** An entry of the final dictionary was there before, or belongs to a
    requested format whose export returned. *)
Lemma export_loop_entries (n : nat) (fmts : list string) :
  forall (i : nat) (results res : gmap string string) (w w' : world disk),
    export_loop tm pc mesh output_dir cid n i fmts results w = (w', Ok res) ->
    forall f p, res !! f = Some p ->
      results !! f = Some p \/
      (f ∈ fmts /\ p = path_of f /\ exists d, (export tm mesh (path_of f) d).2 = Ok tt).
Proof.
  induction fmts as [|fmt fmts IH]; intros i results res w w' E f p Hres; simpl in E.
  - injection E as <- <-. left. exact Hres.
  - unfold mbind, M_bind in E.
    destruct (export_one_cases n i fmt results w) as [w1 [[E1 [d Hd]]|[E1 _]]];
      rewrite E1 in E.
    + destruct (IH _ _ _ _ _ E f p Hres) as [H|(Hin & Hp & Hex)].
      * destruct (decide (fmt = f)) as [->|Hne].
        -- rewrite lookup_insert_eq in H. injection H as <-.
           right. split; [left|]. split; [reflexivity|].
           exists d. rewrite Hd. reflexivity.
        -- rewrite lookup_insert_ne in H by exact Hne. left. exact H.
      * right. split; [right; exact Hin|]. eauto.
    + destruct (IH _ _ _ _ _ E f p Hres) as [H|(Hin & Hp & Hex)].
      * left. exact H.
      * right. split; [right; exact Hin|]. eauto.
Qed.

(** An entry with the path of its format stays. *)
Lemma export_loop_keeps (n : nat) (fmts : list string) :
  forall (i : nat) (results res : gmap string string) (w w' : world disk) (f : string),
    export_loop tm pc mesh output_dir cid n i fmts results w = (w', Ok res) ->
    results !! f = Some (path_of f) -> res !! f = Some (path_of f).
Proof.
  induction fmts as [|fmt fmts IH]; intros i results res w w' f E H; simpl in E.
  - injection E as <- <-. exact H.
  - unfold mbind, M_bind in E.
    destruct (export_one_cases n i fmt results w) as [w1 [[E1 _]|[E1 _]]];
      rewrite E1 in E; eapply IH; eauto.
    destruct (decide (fmt = f)) as [->|Hne].
    + apply lookup_insert_eq.
    + rewrite lookup_insert_ne by exact Hne. exact H.
Qed.

(** A requested format whose export returns is exported, whatever happens to
    the other formats. *)
Lemma export_loop_exports (n : nat) (fmts : list string) :
  forall (i : nat) (results res : gmap string string) (w w' : world disk) (f : string),
    never_raises pc -> f ∈ fmts -> returns f ->
    export_loop tm pc mesh output_dir cid n i fmts results w = (w', Ok res) ->
    res !! f = Some (path_of f).
Proof.
  induction fmts as [|fmt fmts IH]; intros i results res w w' f Hc Hin Hr E.
  - apply elem_of_nil in Hin. contradiction.
  - simpl in E. unfold mbind, M_bind in E.
    destruct (decide (fmt = f)) as [->|Hne].
    + destruct (export_one_success n i f results w Hc Hr) as [w1 E1]. rewrite E1 in E.
      eapply export_loop_keeps; eauto. apply lookup_insert_eq.
    + apply elem_of_cons in Hin. destruct Hin as [->|Hin]; [congruence|].
      destruct (export_one_cases n i fmt results w) as [w1 [[E1 _]|[E1 _]]];
        rewrite E1 in E; eapply IH; eauto.
Qed.

Lemma export_stage_outcome (output_formats : list string) (w : world disk) :
  never_raises pc ->
  (forall d, (makedirs os output_dir d).2 = Ok tt) ->
  exists w' : world disk,
    (export_stage tm os pc mesh output_dir output_formats cid w
       = (w', Raise "No files were successfully exported") /\
     forall f, f ∈ output_formats -> ~ returns f) \/
    (exists res : gmap string string,
       export_stage tm os pc mesh output_dir output_formats cid w = (w', Ok res) /\
       res <> ∅ /\
       (forall f p, res !! f = Some p ->
          f ∈ output_formats /\ p = path_of f /\ ~ fails f) /\
       (forall f, f ∈ output_formats -> returns f -> res !! f = Some (path_of f))).
Proof.
  intros Hc Hmk. unfold export_stage, mbind, M_bind.
  destruct (update_progress_returns pc "Exporting files..." 80 w Hc) as [w1 ->].
  unfold on_files. specialize (Hmk (files w1)).
  destruct (makedirs os output_dir (files w1)) as [d1 r1]. simpl in Hmk. subst r1.
  set (w2 := World _ _ _ _ _).
  destruct (export_loop_returns (length output_formats) output_formats 0 ∅ w2)
    as (w3 & res & El).
  rewrite El. destruct (bool_decide (res = ∅)) eqn:Eres.
  - apply bool_decide_eq_true in Eres. subst res.
    exists w3. left. split; [reflexivity|].
    intros f Hin Hr.
    pose proof (export_loop_exports _ _ _ _ _ _ _ f Hc Hin Hr El) as H.
    rewrite lookup_empty in H. discriminate.
  - apply bool_decide_eq_false in Eres.
    destruct (update_progress_returns pc "Conversion completed successfully!" 100 w3 Hc)
      as [w4 E4].
    exists w4. right. exists res. rewrite E4. split; [reflexivity|].
    split; [exact Eres|]. split.
    + intros f p Hres.
      destruct (export_loop_entries _ _ _ _ _ _ _ El f p Hres) as [H|(Hin & Hp & [d Hd])].
      * rewrite lookup_empty in H. discriminate.
      * split; [exact Hin|]. split; [exact Hp|].
        intros Hf. destruct (Hf d) as [e He]. congruence.
    + intros f Hin Hr. eapply export_loop_exports; eauto.
Qed.

Lemma verified_results_lookup (results : gmap string string) (d : disk) (f p : string) :
  verified_results os results d !! f = Some p <->
  results !! f = Some p /\ p <> "" /\ path_exists os p d = true.
Proof.
  unfold verified_results. rewrite map_lookup_filter_Some. simpl. tauto.
Qed.

End export_facts.

(** ** Jobs, uploads and the density threshold *)

Section job_facts.
Context {colors disk : Type}.
Context (np : Numpy_colors colors) (tm : Trimesh_lib colors disk) (o3 : Open3d_lib colors)
        (os : Os_lib disk).
Context (HAS_OPEN3D HAS_SCIPY : bool).

Lemma verify_and_store_run (cid : string) (results : gmap string string) (w : world disk) :
  let verified := verified_results os results (files w) in
  (verified = ∅ ->
   verify_and_store os cid results w
     = (w, Raise "No output files were created successfully")) /\
  (verified <> ∅ -> forall en, conversion_progress w !! cid = Some en ->
   exists w' en',
     verify_and_store os cid results w = (w', Ok tt) /\
     conversion_results w' !! cid = Some verified /\
     conversion_progress w' !! cid = Some en' /\
     e_status en' = "completed" /\ e_progress en' = 100%Z).
Proof.
  intros verified. unfold verify_and_store, mbind, M_bind, get. cbv zeta. fold verified.
  split.
  - intros H. rewrite bool_decide_eq_true_2 by exact H. reflexivity.
  - intros H en Hen. rewrite bool_decide_eq_false_2 by exact H.
    unfold store_results, mbind, M_bind, get, set_conversion_results, modify.
    rewrite Hen. unfold set_conversion_progress, modify.
    eexists. eexists. split; [reflexivity|]. simpl.
    rewrite !lookup_insert_eq. auto.
Qed.

(** Claim C5.  With a progress callback that returns and an output directory
    that can be made: every iteration of the export loop returns, a failing
    one leaving [results] as it was with the failure as the last line printed;
    the export stage raises "No files were successfully exported" only when no
    requested format has an export that always returns, and otherwise returns
    a non-empty dictionary which holds exactly requested formats whose export
    returned, each with its path, among them every format whose export always
    returns; the results kept by app.py are the entries whose file exists,
    and the job is completed with them when there is one and fails when
    there is none. *)
Theorem export_skips_failures (pc : option (callback disk)) (mesh : trimesh colors)
    (output_dir cid : string) (output_formats : list string) (w : world disk) :
  never_raises pc ->
  (forall d, (makedirs os output_dir d).2 = Ok tt) ->
  (forall (n i : nat) (fmt : string) (results : gmap string string) (w0 : world disk),
     exists w1 : world disk,
       (export_one tm pc mesh output_dir cid n i fmt results w0
          = (w1, Ok (<[fmt := export_path output_dir cid fmt]> results)) /\
        exists d, export tm mesh (export_path output_dir cid fmt) d = (files w1, Ok tt)) \/
       (export_one tm pc mesh output_dir cid n i fmt results w0 = (w1, Ok results) /\
        exists e, last (stdout w1)
          = Some ("[PLY-Converter] Failed to export " ++ fmt ++ ": " ++ e)%string)) /\
  (exists w' : world disk,
     (export_stage tm os pc mesh output_dir output_formats cid w
        = (w', Raise "No files were successfully exported") /\
      forall f, f ∈ output_formats ->
        ~ export_always_returns tm mesh output_dir cid f) \/
     (exists res : gmap string string,
        export_stage tm os pc mesh output_dir output_formats cid w = (w', Ok res) /\
        res <> ∅ /\
        (forall f p, res !! f = Some p ->
           f ∈ output_formats /\ p = export_path output_dir cid f /\
           ~ export_always_raises tm mesh output_dir cid f) /\
        (forall f, f ∈ output_formats ->
           export_always_returns tm mesh output_dir cid f ->
           res !! f = Some (export_path output_dir cid f)))) /\
  (forall (results : gmap string string) (d : disk) (f p : string),
     verified_results os results d !! f = Some p <->
     results !! f = Some p /\ p <> "" /\ path_exists os p d = true) /\
  (forall (job : string) (results : gmap string string) (w0 : world disk),
     let verified := verified_results os results (files w0) in
     (verified = ∅ ->
      verify_and_store os job results w0
        = (w0, Raise "No output files were created successfully")) /\
     (verified <> ∅ -> forall en, conversion_progress w0 !! job = Some en ->
      exists w1 en',
        verify_and_store os job results w0 = (w1, Ok tt) /\
        conversion_results w1 !! job = Some verified /\
        conversion_progress w1 !! job = Some en' /\
        e_status en' = "completed" /\ e_progress en' = 100%Z)).
Proof.
  intros Hc Hmk. split; [|split; [|split]].
  - intros n i fmt results w0.
    destruct (export_one_cases tm pc mesh output_dir cid n i fmt results w0)
      as [w1 [[E Hd]|[E [e [Hl _]]]]]; exists w1; [left|right]; eauto.
  - apply export_stage_outcome; assumption.
  - apply verified_results_lookup.
  - intros job results w0. apply verify_and_store_run.
Qed.

Lemma progress_callback_run (cid msg : string) (p : Z) (en : entry) (w : world disk) :
  conversion_progress w !! cid = Some en ->
  progress_callback cid msg (Some p) w =
    (World (files w)
       (<[cid := Entry "converting" (Z.min p 100) msg (e_input_file en)
                   (e_output_formats en) (e_smoothing_level en) (e_created_at en)]>
          (conversion_progress w))
       (conversion_results w) (stdout w) (calls w), Ok tt).
Proof.
  intros H. unfold progress_callback, mbind, M_bind, get. rewrite H. reflexivity.
Qed.

Lemma store_error_run (cid e : string) (en : entry) (w : world disk) :
  conversion_progress w !! cid = Some en ->
  store_error cid e w =
    (World (files w)
       (<[cid := Entry "error" (e_progress en) ("Conversion failed: " ++ e)%string
                   (e_input_file en) (e_output_formats en) (e_smoothing_level en)
                   (e_created_at en)]>
          (conversion_progress w))
       (conversion_results w) (stdout w) (calls w), Ok tt).
Proof.
  intros H. unfold store_error, mbind, M_bind, get. cbv zeta. rewrite H. reflexivity.
Qed.

Lemma notify_keeps_history (cid : string) :
  keeps_history (Some (fun msg p => progress_callback (disk := disk) cid msg (Some p))).
Proof.
  intros msg p w. unfold progress_callback, mbind, M_bind, get.
  destruct (conversion_progress w !! cid); reflexivity.
Qed.

Lemma notify_never_raises (cid : string) :
  never_raises (Some (fun msg p => progress_callback (disk := disk) cid msg (Some p))).
Proof.
  intros msg p w. unfold progress_callback, mbind, M_bind, get.
  destruct (conversion_progress w !! cid); reflexivity.
Qed.

(** Claim C6, as the code has it.  The calls that one run of [convert_ply]
    makes to its callback carry percentages between 5 and 100 that never
    decrease, up to the end of the [try] body; a run that returns has made its
    last call with 100; a run that raises makes one more call, with the error
    message and the percentage 0.  In app.py the callback stores the
    percentage (at most 100) with the status "converting", and the error
    handler sets the status "error" and leaves the stored percentage. *)
Theorem convert_ply_progress (pc : option (callback disk))
    (input_path output_dir : string) (output_formats : list string)
    (cid lvl : string) (w w' : world disk) (r : outcome (gmap string string)) :
  keeps_history pc ->
  convert_ply np tm o3 os HAS_OPEN3D HAS_SCIPY input_path output_dir output_formats
    cid pc lvl w = (w', r) ->
  (exists body : list (string * Z),
     nondecreasing (map snd body) /\
     Forall (fun p => 5 <= p <= 100)%Z (map snd body) /\
     match r with
     | Ok _ =>
         calls w' = calls w ++ body /\
         (pc <> None -> exists l, body = l ++ [completed])
     | Raise _ =>
         exists e0 : string,
           calls w' = calls w ++ body ++
             match pc with
             | Some _ => [(("Conversion failed: " ++ e0)%string, 0%Z)]
             | None => []
             end
     end) /\
  (forall (job msg e : string) (p : Z) (en : entry) (w0 : world disk),
     conversion_progress w0 !! job = Some en ->
     (exists en',
        conversion_progress (progress_callback job msg (Some p) w0).1 !! job = Some en' /\
        e_progress en' = Z.min p 100 /\ e_status en' = "converting") /\
     (exists en',
        conversion_progress (store_error job e w0).1 !! job = Some en' /\
        e_progress en' = e_progress en /\ e_status en' = "error")).
Proof.
  intros Hk E. split.
  - eapply convert_ply_calls; eauto.
  - intros job msg e p en w0 H. split.
    + rewrite (progress_callback_run job msg p en w0 H). simpl.
      rewrite lookup_insert_eq. eauto.
    + rewrite (store_error_run job e en w0 H). simpl.
      rewrite lookup_insert_eq. eauto.
Qed.




End job_facts.

Section density_facts.
Local Open Scope R_scope.

Lemma py_max_r (a b : R) : b <= Np.py_max a b.
Proof. unfold Np.py_max. destruct (Rlt_dec a b); lra. Qed.

Lemma py_max_l (a b : R) : a <= Np.py_max a b.
Proof. unfold Np.py_max. destruct (Rlt_dec a b); lra. Qed.

Lemma py_max_le (a b c : R) : Np.py_max a b <= c <-> a <= c /\ b <= c.
Proof. unfold Np.py_max. destruct (Rlt_dec a b); lra. Qed.

Lemma std_nonneg (l : list R) : 0 <= Np.std l.
Proof. apply sqrt_pos. Qed.

(** Claim C1, as the code has it.  For a non-empty array of densities the
    threshold is the larger of [mean - 2*std] and [min * 1.1]: it is never
    below either of them, and it is at most the mean exactly when [min * 1.1]
    is.  The mask marks exactly the vertices whose density is strictly below
    the threshold, and it is this mask that goes to the vertex removal
    whenever it marks a vertex. *)
Theorem density_threshold_bounds (d0 : R) (rest : list R) :
  let densities := d0 :: rest in
  exists min_density thresh : R,
    Np.min densities = Ok min_density /\
    density_threshold densities = Ok thresh /\
    thresh = Np.py_max (Np.mean densities - 2 * Np.std densities) (min_density * 1.1) /\
    min_density * 1.1 <= thresh /\
    Np.mean densities - 2 * Np.std densities <= thresh /\
    (thresh <= Np.mean densities <-> min_density * 1.1 <= Np.mean densities) /\
    (forall (i : nat) (d : R), densities !! i = Some d ->
       exists b : bool,
         vertices_to_remove densities thresh !! i = Some b /\ (b = true <-> d < thresh)) /\
    (forall (colors : Type) (o3 : Open3d_lib colors) (mesh : tmesh o3),
       density_filter o3 mesh densities =
         if (0 <? Np.count_true (vertices_to_remove densities thresh))%nat
         then on mesh (remove_vertices_by_mask o3 (vertices_to_remove densities thresh))
         else Ok mesh).
Proof.
  intros densities.
  exists (fold_left Rmin rest d0).
  exists (Np.py_max (Np.mean densities - 2 * Np.std densities)
            (fold_left Rmin rest d0 * 1.1)).
  split; [reflexivity|]. split; [reflexivity|]. split; [reflexivity|].
  split; [apply py_max_r|]. split; [apply py_max_l|]. split; [|split].
  - rewrite py_max_le. pose proof (std_nonneg densities). lra.
  - intros i d H. unfold vertices_to_remove. rewrite list_lookup_fmap, H. simpl.
    eexists. split; [reflexivity|]. apply Rltb_true.
  - intros colors o3 mesh. reflexivity.
Qed.

(** The statistics of the densities 10 and 11. *)
Lemma density_threshold_above_mean_aux :
  0 < Np.var Demo.tight_densities /\
  Np.mean Demo.tight_densities = 10.5 /\
  density_threshold Demo.tight_densities = Ok 11 /\
  ~ (11 <= Np.mean Demo.tight_densities).
Proof.
  assert (Hm : Np.mean Demo.tight_densities = 10.5).
  { unfold Np.mean, Np.sum, Demo.tight_densities. simpl. lra. }
  split; [|split; [exact Hm|split]].
  - unfold Np.var. rewrite Hm. unfold Np.mean, Np.sum, Demo.tight_densities. simpl. lra.
  - unfold density_threshold. cbv zeta. rewrite Hm.
    unfold Demo.tight_densities at 2. simpl. unfold Rmin.
    destruct (Rle_dec 10 11) as [_|H]; [|lra].
    unfold mbind, outcome_bind. f_equal. unfold Np.py_max.
    pose proof (std_nonneg Demo.tight_densities).
    destruct (Rlt_dec _ _) as [_|H1]; lra.
  - rewrite Hm. lra.
Defined.

(** Claim C1 as stated fails: the densities 10 and 11 have positive variance,
    yet the threshold is 11 and their mean is 10.5. *)
Lemma density_threshold_above_mean :
  0 < Np.var Demo.tight_densities /\
  Np.mean Demo.tight_densities = 10.5 /\
  density_threshold Demo.tight_densities = Ok 11 /\
  ~ (11 <= Np.mean Demo.tight_densities).
Proof. exact density_threshold_above_mean_aux. Qed.

(** The densities 10 and 11: the vertex of density 10 is marked. *)
Lemma density_threshold_bounds_witness :
  Demo.tight_densities !! 0%nat = Some 10%R /\
  vertices_to_remove Demo.tight_densities 11 !! 0%nat = Some true.
Proof.
  assert (H0 : Demo.tight_densities !! 0%nat = Some 10%R) by reflexivity.
  split; [exact H0|].
  destruct (density_threshold_bounds 10 [11]) as (mn & t & _ & Ht & _ & _ & _ & _ & Hmask & _).
  destruct density_threshold_above_mean_aux as [_ [_ [Ht' _]]].
  fold Demo.tight_densities in Ht, Hmask. rewrite Ht' in Ht. injection Ht as <-.
  destruct (Hmask 0%nat 10 H0) as (b & Hb & Hiff).
  rewrite Hb. f_equal. apply Hiff. lra.
Defined.

End density_facts.

(** ** File names *)

Lemma after_last_dot_None (s : string) :
  Py.after_last_dot s = None <-> ("."%char ∉ list_ascii_of_string s).
Proof.
  induction s as [|c s IH]; simpl.
  - split; [intros _; apply not_elem_of_nil|reflexivity].
  - destruct (Py.after_last_dot s) as [ext|].
    + split; [discriminate|]. intros H. exfalso.
      assert (Hs : "."%char ∉ list_ascii_of_string s).
      { intros Hin. apply H. right. exact Hin. }
      apply IH in Hs. discriminate.
    + destruct (Ascii.eqb_spec c "."%char) as [->|Hc].
      * split; [discriminate|]. intros H. exfalso. apply H. left.
      * split; [|reflexivity]. intros _ Hin. apply elem_of_cons in Hin.
        destruct Hin as [Hin|Hin]; [congruence|]. apply IH in Hin; [exact Hin|reflexivity].
Qed.

Lemma after_last_dot_Some (s ext : string) :
  Py.after_last_dot s = Some ext <->
  exists stem, s = (stem ++ "." ++ ext)%string /\ ("."%char ∉ list_ascii_of_string ext).
Proof.
  revert ext. induction s as [|c s IH]; intros ext; simpl.
  - split; [discriminate|]. intros (stem & H & _). destruct stem; discriminate.
  - destruct (Py.after_last_dot s) as [ext'|] eqn:E.
    + split.
      * intros [= <-]. destruct (proj1 (IH ext') eq_refl) as (stem & -> & Hn).
        exists (String c stem). split; [reflexivity|exact Hn].
      * intros (stem & H & Hn). destruct stem as [|c' stem]; simpl in H.
        -- injection H as -> ->. apply after_last_dot_None in Hn.
           change ("" +:+ ext)%string with ext in E. rewrite Hn in E. discriminate.
        -- injection H as -> ->. f_equal. symmetry.
           assert (G : Some ext' = Some ext); [|congruence].
           apply IH. eauto.
    + destruct (Ascii.eqb_spec c "."%char) as [->|Hc].
      * split.
        -- intros [= <-]. exists "". split; [reflexivity|]. apply after_last_dot_None, E.
        -- intros (stem & H & Hn). destruct stem as [|c' stem]; simpl in H.
           ++ injection H as ->. reflexivity.
           ++ injection H as <- ->. exfalso.
              assert (G : None = Some ext); [|discriminate].
              apply IH. eauto.
      * split; [discriminate|]. intros (stem & H & Hn).
        destruct stem as [|c' stem]; simpl in H.
        -- injection H as -> _. congruence.
        -- injection H as -> ->. exfalso.
           assert (G : None = Some ext); [|discriminate].
           apply IH. eauto.
Qed.

(** Property X1.  [allowed_file] accepts exactly the names that end in a dot followed
    by an extension without dots that reads "ply" in lower case: report.PLY
    and .ply pass, ply, scan.ply.txt and scan.ply. do not. *)
Theorem allowed_file_spec (filename : string) :
  (allowed_file filename = true <->
   exists stem ext,
     filename = (stem ++ "." ++ ext)%string /\
     ("."%char ∉ list_ascii_of_string ext) /\ Py.lower ext = "ply") /\
  (("."%char ∉ list_ascii_of_string filename) -> allowed_file filename = false).
Proof.
  unfold allowed_file. split.
  - destruct (Py.after_last_dot filename) as [ext|] eqn:E.
    + rewrite bool_decide_eq_true. unfold ALLOWED_EXTENSIONS. rewrite list_elem_of_singleton.
      split.
      * intros H. apply after_last_dot_Some in E as (stem & -> & Hn). eauto.
      * intros (stem & ext' & H & Hn & Hl).
        assert (G : Py.after_last_dot filename = Some ext').
        { apply after_last_dot_Some. eauto. }
        congruence.
    + split; [discriminate|]. intros (stem & ext' & H & Hn & Hl).
      assert (G : Py.after_last_dot filename = Some ext').
      { apply after_last_dot_Some. eauto. }
      congruence.
  - intros H. apply after_last_dot_None in H. rewrite H. reflexivity.
Qed.

(** ** Uploads *)

Section upload_theorems.
Context {colors disk : Type}.
Context (os : Os_lib disk).

Lemma requested_smoothing_valid (form_smoothing : option string) :
  requested_smoothing form_smoothing ∈ SMOOTHING_LEVELS.
Proof.
  unfold requested_smoothing. cbv zeta.
  destruct (bool_decide _) eqn:E.
  - apply bool_decide_eq_true in E. exact E.
  - right. left.
Qed.

Lemma requested_formats_valid (form_formats : list string) :
  Forall (fun fmt => fmt ∈ OUTPUT_FORMATS) (requested_formats form_formats).
Proof.
  unfold requested_formats. cbv zeta. apply Forall_forall. intros f Hf.
  apply list_elem_of_filter in Hf. tauto.
Qed.

Lemma requested_formats_sublist (form_formats : list string) :
  form_formats <> [] -> requested_formats form_formats `sublist_of` form_formats.
Proof.
  intros H. unfold requested_formats. destruct form_formats; [congruence|].
  cbv zeta. apply sublist_filter.
Qed.

(** What [upload_file] does once the file has passed the checks of lines
    57-70. *)
Lemma upload_file_checked (cid : string) (now : R) (req : request) (name content : string)
    (w : world disk) :
  req_file req = Some (name, content) -> name <> "" -> allowed_file name = true ->
  let filename := secure_filename os name in
  let input_path := (UPLOAD_FOLDER ++ "/" ++ cid ++ "_" ++ filename)%string in
  let saved := (file_save os input_path content (files w)).1 in
  let after_save :=
    World saved (conversion_progress w) (conversion_results w) (stdout w) (calls w) in
  upload_file os cid now req w =
    match (file_save os input_path content (files w)).2 with
    | Raise e => (after_save, Ok (Rejected ("Upload failed: " ++ e) 500))
    | Ok _ =>
        if negb (path_exists os input_path saved)
        then (after_save, Ok (Rejected "File save failed" 500))
        else
          match requested_formats (req_formats req) with
          | [] => (after_save, Ok (Rejected "Invalid output formats specified" 400))
          | f :: fs =>
              (World saved
                 (<[cid := Entry "starting" 0 "Initializing smooth surface conversion..."
                             filename (f :: fs) (requested_smoothing (req_smoothing req))
                             now]> (conversion_progress w))
                 (conversion_results w) (stdout w) (calls w),
               Ok (Started (Job cid input_path (f :: fs)
                              (requested_smoothing (req_smoothing req))) filename))
          end
    end.
Proof.
  intros Hfile Hname Hallowed filename input_path saved after_save.
  unfold upload_file, try_except. rewrite Hfile.
  rewrite bool_decide_eq_false_2 by exact Hname. rewrite Hallowed.
  change (negb true) with false. cbv beta iota zeta.
  unfold mbind, M_bind, on_files. fold filename. fold input_path.
  unfold saved, after_save.
  destruct (file_save os input_path content (files w)) as [d [[]|e]]; cbn [fst snd].
  2:{ reflexivity. }
  unfold get. cbn [files].
  destruct (path_exists os input_path d); cbn [negb]; [|reflexivity].
  destruct (requested_formats (req_formats req)); reflexivity.
Qed.

(** Property X2.  [upload_file] answers every request: no exception escapes it.  A
    request without a file, with an empty file name or with a name that is
    not *.ply is rejected with status 400 before anything is saved: the
    state is exactly as before.  No rejected request, whatever its reason,
    leaves a progress entry or results behind. *)
Theorem upload_rejections_leave_no_trace (cid : string) (now : R) (req : request)
    (w : world disk) :
  (exists w' resp, upload_file os cid now req w = (w', Ok resp)) /\
  (req_file req = None ->
     upload_file os cid now req w = (w, Ok (Rejected "No file uploaded" 400))) /\
  (forall content, req_file req = Some ("", content) ->
     upload_file os cid now req w = (w, Ok (Rejected "No file selected" 400))) /\
  (forall name content, req_file req = Some (name, content) -> name <> "" ->
     allowed_file name = false ->
     upload_file os cid now req w = (w, Ok (Rejected "Only PLY files are allowed" 400))) /\
  (forall w' error code, upload_file os cid now req w = (w', Ok (Rejected error code)) ->
     registries w' = registries w /\ stdout w' = stdout w /\ calls w' = calls w /\
     (code = 400 \/ code = 500)%nat).
Proof.
  assert (H1 : req_file req = None ->
            upload_file os cid now req w = (w, Ok (Rejected "No file uploaded" 400))).
  { intros H. unfold upload_file, try_except. rewrite H. reflexivity. }
  assert (H2 : forall content, req_file req = Some ("", content) ->
            upload_file os cid now req w = (w, Ok (Rejected "No file selected" 400))).
  { intros content H. unfold upload_file, try_except. rewrite H. reflexivity. }
  assert (H3 : forall name content, req_file req = Some (name, content) -> name <> "" ->
            allowed_file name = false ->
            upload_file os cid now req w
              = (w, Ok (Rejected "Only PLY files are allowed" 400))).
  { intros name content H Hn Ha. unfold upload_file, try_except. rewrite H.
    rewrite bool_decide_eq_false_2 by exact Hn. rewrite Ha. reflexivity. }
  assert (Hcases : req_file req = None \/
            (exists content, req_file req = Some ("", content)) \/
            (exists name content, req_file req = Some (name, content) /\ name <> "" /\
               allowed_file name = false) \/
            (exists name content, req_file req = Some (name, content) /\ name <> "" /\
               allowed_file name = true)).
  { destruct (req_file req) as [[name content]|]; [|auto].
    destruct (decide (name = "")) as [->|Hn]; [eauto|].
    destruct (allowed_file name) eqn:Ha; eauto 8. }
  split; [|split; [exact H1|split; [exact H2|split; [exact H3|]]]].
  - destruct Hcases as [H|[[c H]|[(n & c & H & Hn & Ha)|(n & c & H & Hn & Ha)]]].
    + rewrite (H1 H). eauto.
    + rewrite (H2 c H). eauto.
    + rewrite (H3 n c H Hn Ha). eauto.
    + rewrite (upload_file_checked cid now req n c w H Hn Ha). cbv zeta.
      destruct (file_save os _ c (files w)) as [d [[]|e]]; cbn [fst snd]; [|eauto].
      destruct (negb _); [eauto|].
      destruct (requested_formats (req_formats req)); eauto.
  - intros w' error code E.
    destruct Hcases as [H|[[c H]|[(n & c & H & Hn & Ha)|(n & c & H & Hn & Ha)]]].
    + rewrite (H1 H) in E. injection E as <- _ <-. auto.
    + rewrite (H2 c H) in E. injection E as <- _ <-. auto.
    + rewrite (H3 n c H Hn Ha) in E. injection E as <- _ <-. auto.
    + rewrite (upload_file_checked cid now req n c w H Hn Ha) in E. cbv zeta in E.
      destruct (file_save os _ c (files w)) as [d [[]|e]]; cbn [fst snd] in E.
      2:{ injection E as <- _ <-. auto. }
      destruct (negb _).
      { injection E as <- _ <-. auto. }
      destruct (requested_formats (req_formats req)).
      { injection E as <- _ <-. auto. }
      discriminate.
Qed.

(** Property X3.  A job is started with valid parameters only: its formats are a
    non-empty list of output formats, taken in order from the formats of the
    request (from [stl] when the request names none), its smoothing level is
    one of the four levels, its input file exists under
    uploads/<id>_<secure name>, and its progress entry, the only change to the
    registries, has the status "starting" and the percentage 0. *)
Theorem started_job_is_valid (cid : string) (now : R) (req : request) (w w' : world disk)
    (j : job) (input_file : string) :
  upload_file os cid now req w = (w', Ok (Started j input_file)) ->
  job_id j = cid /\
  job_formats j <> [] /\
  Forall (fun fmt => fmt ∈ OUTPUT_FORMATS) (job_formats j) /\
  (if bool_decide (req_formats req = []) then job_formats j = ["stl"]
   else job_formats j `sublist_of` req_formats req) /\
  job_smoothing j ∈ SMOOTHING_LEVELS /\
  (forall level, req_smoothing req = Some level -> level ∈ SMOOTHING_LEVELS ->
     job_smoothing j = level) /\
  job_input_path j = (UPLOAD_FOLDER ++ "/" ++ cid ++ "_" ++ input_file)%string /\
  path_exists os (job_input_path j) (files w') = true /\
  conversion_results w' = conversion_results w /\
  conversion_progress w' =
    <[cid := Entry "starting" 0 "Initializing smooth surface conversion..." input_file
               (job_formats j) (job_smoothing j) now]> (conversion_progress w).
Proof.
  intros E.
  destruct (req_file req) as [[name content]|] eqn:Hfile.
  2:{ unfold upload_file, try_except in E. rewrite Hfile in E. discriminate. }
  destruct (decide (name = "")) as [->|Hn].
  { unfold upload_file, try_except in E. rewrite Hfile in E. discriminate. }
  destruct (allowed_file name) eqn:Ha.
  2:{ unfold upload_file, try_except in E. rewrite Hfile in E.
      rewrite bool_decide_eq_false_2 in E by exact Hn. rewrite Ha in E. discriminate. }
  rewrite (upload_file_checked cid now req name content w Hfile Hn Ha) in E.
  cbv zeta in E.
  destruct (file_save os _ content (files w)) as [d [[]|e]]; cbn [fst snd] in E;
    [|discriminate].
  destruct (path_exists os _ d) eqn:Hex; cbn [negb] in E; [|discriminate].
  pose proof (requested_formats_valid (req_formats req)) as Hvalid.
  pose proof (requested_formats_sublist (req_formats req)) as Hsub.
  destruct (requested_formats (req_formats req)) as [|f fs] eqn:Hf; [discriminate|].
  injection E as <- <- <-. cbn.
  split; [reflexivity|]. split; [discriminate|]. split; [exact Hvalid|]. split.
  { destruct (bool_decide (req_formats req = [])) eqn:Hb.
    - apply bool_decide_eq_true in Hb. rewrite Hb in Hf. vm_compute in Hf. congruence.
    - apply bool_decide_eq_false in Hb. apply Hsub, Hb. }
  split; [apply requested_smoothing_valid|]. split.
  { intros level Hl Hin. unfold requested_smoothing. rewrite Hl. cbn.
    rewrite bool_decide_eq_true_2 by exact Hin. reflexivity. }
  split; [reflexivity|]. split; [exact Hex|]. split; reflexivity.
Qed.

End upload_theorems.

(** ** Registries: what a run may touch *)

Section registry_facts.
Context {colors disk : Type}.
Context (np : Numpy_colors colors) (tm : Trimesh_lib colors disk) (o3 : Open3d_lib colors)
        (os : Os_lib disk).
Context (HAS_OPEN3D HAS_SCIPY : bool).
Context (R : relation (gmap string entry * gmap string (gmap string string))).
Context `{!PreOrder R}.

Lemma moves_ret {A : Type} (x : A) : moves_registries (disk := disk) R (mret x).
Proof. intros w w' r [= <- _]. reflexivity. Qed.

Lemma moves_raise {A : Type} (e : string) : moves_registries R (@raise (world disk) A e).
Proof. intros w w' r [= <- _]. reflexivity. Qed.

Lemma moves_get : moves_registries R (@get (world disk)).
Proof. intros w w' r [= <- _]. reflexivity. Qed.

Lemma moves_lift {A : Type} (o : outcome A) : moves_registries (disk := disk) R (lift o).
Proof. intros w w' r [= <- _]. reflexivity. Qed.

Lemma moves_log (msg : string) : moves_registries R (log (disk := disk) msg).
Proof. intros w w' r [= <- _]. reflexivity. Qed.

Lemma moves_on_files {A : Type} (m : M disk A) : moves_registries R (on_files m).
Proof.
  intros w w' r E. unfold on_files in E. destruct (m (files w)) as [d r0].
  injection E as <- _. reflexivity.
Qed.

Lemma moves_bind {A B : Type} (m : M (world disk) A) (k : A -> M (world disk) B) :
  moves_registries R m -> (forall x, moves_registries R (k x)) ->
  moves_registries R (m ≫= k).
Proof.
  intros Hm Hk w w' r E. unfold mbind, M_bind in E.
  destruct (m w) as [w1 [x|e]] eqn:Em.
  - etransitivity; [eapply Hm; eauto|eapply Hk; eauto].
  - injection E as <- _. eapply Hm; eauto.
Qed.

Lemma moves_try_except {A : Type} (body : M (world disk) A)
    (handler : string -> M (world disk) A) :
  moves_registries R body -> (forall e, moves_registries R (handler e)) ->
  moves_registries R (try_except body handler).
Proof.
  intros Hm Hk w w' r E. unfold try_except in E.
  destruct (body w) as [w1 [x|e]] eqn:Em.
  - injection E as <- _. eapply Hm; eauto.
  - etransitivity; [eapply Hm; eauto|eapply Hk; eauto].
Qed.

Lemma moves_call (cb : callback disk) (msg : string) (p : Z) :
  moves_registries R (cb msg p) -> moves_registries R (call cb msg p).
Proof.
  intros H. unfold call. apply moves_bind; [|intros _; exact H].
  intros w w' r [= <- _]. reflexivity.
Qed.

Section with_callback.
Context (pc : option (callback disk)).
Hypothesis Hpc : callback_moves_registries R pc.

Lemma moves_update_progress (msg : string) (p : Z) :
  moves_registries R (update_progress pc msg p).
Proof.
  unfold update_progress. apply moves_bind; [|intros _; apply moves_log].
  destruct pc as [cb|]; [apply moves_call, Hpc|apply moves_ret].
Qed.

Lemma moves_reconstruct (vertices : list vec) (colors0 : option colors) (lvl : string) :
  moves_registries R (reconstruct np tm o3 HAS_OPEN3D HAS_SCIPY pc vertices colors0 lvl).
Proof.
  unfold reconstruct. apply moves_bind; [apply moves_update_progress|]. intros _.
  destruct (precise_poisson_reconstruction _ _ _ _ _ _ _);
    (apply moves_bind; [apply moves_update_progress|intros _; apply moves_ret]).
Qed.

Lemma moves_original_mesh (vertices : list vec) (faces : option (list face))
    (colors0 : option colors) :
  moves_registries R (original_mesh np tm pc vertices faces colors0).
Proof.
  unfold original_mesh. apply moves_bind; [apply moves_update_progress|]. intros _.
  apply moves_bind; [apply moves_lift|]. intros mesh.
  apply moves_bind.
  { destruct colors0.
    - apply moves_bind; [apply moves_lift|]. intros; apply moves_ret.
    - apply moves_ret. }
  intros mesh'. apply moves_bind; [apply moves_update_progress|]. intros _. apply moves_ret.
Qed.

Lemma moves_final_cleanup (mesh : trimesh colors) : moves_registries R (final_cleanup tm mesh).
Proof.
  unfold final_cleanup. destruct (cleanup tm mesh) as [m' [[]|e]].
  - apply moves_ret.
  - apply moves_bind; [apply moves_log|]. intros; apply moves_ret.
Qed.

Lemma moves_export_one (mesh : trimesh colors) (output_dir cid : string) (n i : nat)
    (fmt : string) (results : gmap string string) :
  moves_registries R (export_one tm pc mesh output_dir cid n i fmt results).
Proof.
  unfold export_one. cbv zeta. apply moves_try_except.
  - apply moves_bind; [apply moves_update_progress|]. intros _.
    apply moves_bind; [apply moves_on_files|]. intros _.
    apply moves_bind; [apply moves_log|]. intros _. apply moves_ret.
  - intros e. apply moves_bind; [apply moves_log|]. intros _. apply moves_ret.
Qed.

Lemma moves_export_loop (mesh : trimesh colors) (output_dir cid : string) (n : nat)
    (fmts : list string) :
  forall (i : nat) (results : gmap string string),
    moves_registries R (export_loop tm pc mesh output_dir cid n i fmts results).
Proof.
  induction fmts as [|fmt fmts IH]; intros i results; simpl.
  - apply moves_ret.
  - apply moves_bind; [apply moves_export_one|]. intros r. apply IH.
Qed.

Lemma moves_export_stage (mesh : trimesh colors) (output_dir : string)
    (output_formats : list string) (cid : string) :
  moves_registries R (export_stage tm os pc mesh output_dir output_formats cid).
Proof.
  unfold export_stage. apply moves_bind; [apply moves_update_progress|]. intros _.
  apply moves_bind; [apply moves_on_files|]. intros _.
  apply moves_bind; [apply moves_export_loop|]. intros results.
  destruct (bool_decide (results = ∅)).
  - apply moves_raise.
  - apply moves_bind; [apply moves_update_progress|]. intros _. apply moves_ret.
Qed.

Lemma moves_convert_loaded (ply : ply_data colors) (output_dir : string)
    (output_formats : list string) (cid lvl : string) :
  moves_registries R
    (convert_loaded np tm o3 os HAS_OPEN3D HAS_SCIPY ply output_dir output_formats cid pc lvl).
Proof.
  unfold convert_loaded. cbv zeta.
  apply moves_bind; [apply moves_update_progress|]. intros _.
  apply moves_bind.
  { destruct (is_point_cloud ply); [apply moves_reconstruct|apply moves_original_mesh]. }
  intros mesh. apply moves_bind; [apply moves_update_progress|]. intros _.
  apply moves_bind; [apply moves_lift|]. intros mesh1.
  apply moves_bind; [apply moves_update_progress|]. intros _.
  apply moves_bind; [apply moves_update_progress|]. intros _.
  apply moves_bind; [apply moves_final_cleanup|]. intros mesh2.
  apply moves_export_stage.
Qed.

Lemma moves_convert_ply (input_path output_dir : string) (output_formats : list string)
    (cid lvl : string) :
  moves_registries R
    (convert_ply np tm o3 os HAS_OPEN3D HAS_SCIPY input_path output_dir output_formats
       cid pc lvl).
Proof.
  unfold convert_ply. apply moves_try_except.
  - unfold convert_body. apply moves_bind; [apply moves_update_progress|]. intros _.
    apply moves_bind; [apply moves_get|]. intros w0.
    apply moves_bind; [apply moves_lift|]. intros ply. apply moves_convert_loaded.
  - intros e. cbv zeta. apply moves_bind; [apply moves_log|]. intros _.
    apply moves_bind; [apply moves_log|]. intros _.
    apply moves_bind; [apply moves_update_progress|]. intros _. apply moves_raise.
Qed.

End with_callback.
End registry_facts.

(** ** Jobs *)

Section job_runs.
Context {colors disk : Type}.
Context (np : Numpy_colors colors) (tm : Trimesh_lib colors disk) (o3 : Open3d_lib colors)
        (os : Os_lib disk).
Context (HAS_OPEN3D HAS_SCIPY : bool).

#[local] Instance same_job_preorder : PreOrder same_job.
Proof.
  split.
  - intros a. repeat split.
  - intros a b c (H1 & H2 & H3 & H4) (G1 & G2 & G3 & G4). repeat split; congruence.
Qed.

#[local] Instance progress_of_preorder (cid : string) : PreOrder (progress_of cid).
Proof.
  split.
  - intros a. repeat split. reflexivity.
  - intros a b c (H1 & H2 & H3) (G1 & G2 & G3). split; [congruence|]. split.
    + intros k Hk. rewrite G2, H2 by exact Hk. reflexivity.
    + etransitivity; eassumption.
Qed.

#[local] Instance job_of_preorder (cid : string) : PreOrder (job_of cid).
Proof.
  split.
  - intros a. split; [left; reflexivity|]. split; [reflexivity|reflexivity].
  - intros a b c (H1 & H2 & H3) (G1 & G2 & G3). split; [|split].
    + destruct G1 as [->|[v ->]]; [exact H1|]. right. exists v.
      destruct H1 as [->|[v' ->]]; [reflexivity|]. apply insert_insert_eq.
    + intros k Hk. rewrite G2, H2 by exact Hk. reflexivity.
    + etransitivity; eassumption.
Qed.

Lemma progress_of_job_of (cid : string) a b : progress_of cid a b -> job_of cid a b.
Proof. intros (H1 & H2 & H3). split; [|split]; auto. Qed.

Lemma moves_weaken {A : Type} (R R' : relation (gmap string entry * gmap string (gmap string string)))
    (m : M (world disk) A) :
  (forall a b, R a b -> R' a b) -> moves_registries R m -> moves_registries R' m.
Proof. intros H Hm w w' r E. apply H. eapply Hm; eauto. Qed.

(** The callback of a job changes the progress of this job only. *)
Lemma progress_callback_moves (cid msg : string) (p : option Z) :
  moves_registries (disk := disk) (progress_of cid) (progress_callback cid msg p).
Proof.
  intros w w' r E. unfold progress_callback, mbind, M_bind, get in E.
  destruct (conversion_progress w !! cid) as [en|] eqn:Een.
  - injection E as <- _. unfold registries, progress_of. simpl.
    split; [reflexivity|]. split.
    + intros k Hk. apply lookup_insert_ne. congruence.
    + rewrite lookup_insert_eq, Een. constructor. repeat split.
  - injection E as <- _. reflexivity.
Qed.

Lemma notify_moves (cid : string) :
  callback_moves_registries (disk := disk) (progress_of cid)
    (Some (fun msg p => progress_callback cid msg (Some p))).
Proof. intros msg p. apply progress_callback_moves. Qed.

Lemma bind_Ok_inv {S A B : Type} (m : M S A) (k : A -> M S B) (s s' : S) (b : B) :
  (m ≫= k) s = (s', Ok b) -> exists s1 a, m s = (s1, Ok a) /\ k a s1 = (s', Ok b).
Proof.
  unfold mbind, M_bind. destruct (m s) as [s1 [a|e]]; [eauto|discriminate].
Qed.

Lemma export_stage_results (pc : option (callback disk)) (mesh : trimesh colors)
    (output_dir : string) (output_formats : list string) (cid : string)
    (w w' : world disk) (res : gmap string string) :
  export_stage tm os pc mesh output_dir output_formats cid w = (w', Ok res) ->
  results_of output_dir cid output_formats res.
Proof.
  unfold export_stage. intros E.
  apply bind_Ok_inv in E as (w1 & [] & _ & E).
  apply bind_Ok_inv in E as (w2 & [] & _ & E).
  apply bind_Ok_inv in E as (w3 & results & El & E).
  destruct (bool_decide (results = ∅)) eqn:Eres; [discriminate|].
  apply bool_decide_eq_false in Eres.
  apply bind_Ok_inv in E as (w4 & [] & _ & E). injection E as _ <-.
  split; [exact Eres|]. intros f p Hres.
  destruct (export_loop_entries _ _ _ _ _ _ _ _ _ _ _ _ El f p Hres) as [H|(Hin & Hp & _)].
  - rewrite lookup_empty in H. discriminate.
  - auto.
Qed.

Lemma convert_ply_results (pc : option (callback disk)) (input_path output_dir : string)
    (output_formats : list string) (cid lvl : string) (w w' : world disk)
    (res : gmap string string) :
  convert_ply np tm o3 os HAS_OPEN3D HAS_SCIPY input_path output_dir output_formats
    cid pc lvl w = (w', Ok res) ->
  results_of output_dir cid output_formats res.
Proof.
  unfold convert_ply, try_except.
  destruct (convert_body _ _ _ _ _ _ _ _ _ _ _ _ w) as [w1 [res1|e0]] eqn:Eb.
  - intros [= <- <-]. unfold convert_body in Eb.
    apply bind_Ok_inv in Eb as (w2 & [] & _ & Eb).
    apply bind_Ok_inv in Eb as (w3 & w0 & _ & Eb).
    apply bind_Ok_inv in Eb as (w4 & ply & _ & Eb).
    unfold convert_loaded in Eb. cbv zeta in Eb.
    apply bind_Ok_inv in Eb as (w5 & [] & _ & Eb).
    apply bind_Ok_inv in Eb as (w6 & mesh & _ & Eb).
    apply bind_Ok_inv in Eb as (w7 & [] & _ & Eb).
    apply bind_Ok_inv in Eb as (w8 & mesh1 & _ & Eb).
    apply bind_Ok_inv in Eb as (w9 & [] & _ & Eb).
    apply bind_Ok_inv in Eb as (w10 & [] & _ & Eb).
    apply bind_Ok_inv in Eb as (w11 & mesh2 & _ & Eb).
    eapply export_stage_results; eauto.
  - cbv zeta. intros E.
    apply bind_Ok_inv in E as (w2 & [] & _ & E).
    apply bind_Ok_inv in E as (w3 & [] & _ & E).
    apply bind_Ok_inv in E as (w4 & [] & _ & E). discriminate.
Qed.

(** [store_error] and [remove_input] return. *)
Lemma store_error_returns (cid e : string) (w : world disk) :
  (store_error cid e w).2 = Ok tt.
Proof.
  unfold store_error, mbind, M_bind, get. cbv zeta.
  destruct (conversion_progress w !! cid); reflexivity.
Qed.

Lemma remove_input_returns (input_path : string) (w : world disk) :
  (remove_input os input_path w).2 = Ok tt /\
  registries (remove_input os input_path w).1 = registries w /\
  stdout (remove_input os input_path w).1 = stdout w /\
  calls (remove_input os input_path w).1 = calls w.
Proof.
  unfold remove_input, try_except, mbind, M_bind, get.
  destruct (path_exists os input_path (files w)).
  - unfold on_files. destruct (os_remove os input_path (files w)) as [d [[]|e]]; auto.
  - auto.
Qed.

Lemma moves_remove_input R `{!PreOrder R} (input_path : string) :
  moves_registries R (remove_input os input_path).
Proof.
  intros w w' r E. destruct (remove_input_returns input_path w) as (_ & H & _).
  rewrite E in H. simpl in H. rewrite H. reflexivity.
Qed.

Lemma moves_store_error (cid e : string) :
  moves_registries (disk := disk) (progress_of cid) (store_error cid e).
Proof.
  intros w w' r E. unfold store_error, mbind, M_bind, get in E. cbv zeta in E.
  destruct (conversion_progress w !! cid) as [en|] eqn:Een.
  - injection E as <- _. unfold registries, progress_of. simpl.
    split; [reflexivity|]. split.
    + intros k Hk. apply lookup_insert_ne. congruence.
    + rewrite lookup_insert_eq, Een. constructor. repeat split.
  - injection E as <- _. reflexivity.
Qed.

Lemma moves_store_results (cid : string) (verified : gmap string string) :
  moves_registries (disk := disk) (job_of cid) (store_results cid verified).
Proof.
  intros w w' r E.
  unfold store_results, mbind, M_bind, get, set_conversion_results, modify in E.
  destruct (conversion_progress w !! cid) as [en|] eqn:Een.
  - injection E as <- _. unfold registries, job_of. simpl. split; [|split].
    + right. eauto.
    + intros k Hk. apply lookup_insert_ne. congruence.
    + rewrite lookup_insert_eq, Een. constructor. repeat split.
  - injection E as <- _. unfold registries, job_of. simpl. split; [|split].
    + right. eauto.
    + reflexivity.
    + reflexivity.
Qed.

Lemma moves_verify_and_store (cid : string) (results : gmap string string) :
  moves_registries (job_of cid) (verify_and_store os cid results).
Proof.
  unfold verify_and_store. apply moves_bind; [typeclasses eauto|apply moves_get; typeclasses eauto|].
  intros w. cbv zeta. destruct (bool_decide _).
  - apply moves_raise. typeclasses eauto.
  - apply moves_store_results.
Qed.

Lemma moves_try_finally R `{!PreOrder R} {A : Type} (body : M (world disk) A)
    (cleanup : M (world disk) unit) :
  moves_registries R body -> moves_registries R cleanup ->
  moves_registries R (try_finally body cleanup).
Proof.
  intros Hb Hc w w' r E. unfold try_finally in E.
  destruct (body w) as [w1 r1] eqn:Eb. destruct (cleanup w1) as [w2 [[]|e]] eqn:Ec;
    injection E as <- _; (etransitivity; [eapply Hb; eauto|eapply Hc; eauto]).
Qed.

Lemma progress_of_is_Some (cid : string) a b :
  progress_of cid a b -> is_Some (a.1 !! cid) -> is_Some (b.1 !! cid).
Proof. intros (_ & _ & H) [en Hen]. rewrite Hen in H. inversion H. eauto. Qed.

Lemma job_prefix_bind {A : Type} (cid : string) (fmts : list string)
    (m : M (world disk) A) (k : A -> M (world disk) unit) :
  moves_registries (progress_of cid) m ->
  (forall x, job_prefix_spec os cid fmts (k x)) ->
  job_prefix_spec os cid fmts (m ≫= k).
Proof.
  intros Hm Hk w w' r E Hen. unfold mbind, M_bind in E.
  destruct (m w) as [w1 [x|e]] eqn:Em.
  - specialize (Hm _ _ _ Em).
    specialize (Hk x w1 w' r E (progress_of_is_Some cid _ _ Hm Hen)). destruct r as [[]|e].
    + destruct Hk as (w0 & results & H1 & H2 & H3). exists w0, results.
      split; [etransitivity; eassumption|]. auto.
    + etransitivity; eassumption.
  - injection E as <- <-. eapply Hm; eauto.
Qed.

Lemma verify_and_store_inv (cid : string) (results : gmap string string)
    (w w' : world disk) (r : outcome unit) :
  verify_and_store os cid results w = (w', r) ->
  let verified := verified_results os results (files w) in
  match r with
  | Ok _ =>
      verified <> ∅ /\
      exists en, conversion_progress w !! cid = Some en /\
        w' = World (files w)
               (<[cid := Entry "completed" 100
                           ("Conversion completed! " ++ pretty (size verified)
                            ++ " files created.")%string
                           (e_input_file en) (e_output_formats en) (e_smoothing_level en)
                           (e_created_at en)]> (conversion_progress w))
               (<[cid := verified]> (conversion_results w)) (stdout w) (calls w)
  | Raise e =>
      (verified = ∅ /\ w' = w /\ e = "No output files were created successfully") \/
      (verified <> ∅ /\ conversion_progress w !! cid = None)
  end.
Proof.
  intros E verified. unfold verify_and_store, mbind, M_bind, get in E. cbv zeta in E.
  fold verified in E. destruct (bool_decide (verified = ∅)) eqn:Ev.
  - apply bool_decide_eq_true in Ev. injection E as <- <-. left. auto.
  - apply bool_decide_eq_false in Ev.
    unfold store_results, mbind, M_bind, get, set_conversion_results, modify in E.
    destruct (conversion_progress w !! cid) as [en|] eqn:Een.
    + injection E as <- <-. split; [exact Ev|]. exists en. split; reflexivity.
    + injection E as <- <-. right. auto.
Qed.

Lemma verified_results_of (output_dir cid : string) (fmts : list string)
    (results : gmap string string) (d : disk) :
  results_of output_dir cid fmts results ->
  verified_results os results d <> ∅ ->
  results_of output_dir cid fmts (verified_results os results d).
Proof.
  intros [_ H] Hne. split; [exact Hne|]. intros f p Hf.
  apply verified_results_lookup in Hf as (Hf & _). eauto.
Qed.

Lemma job_body_spec (cid input_path : string) (fmts : list string) (lvl : string) :
  let notify : callback disk := fun message progress =>
    progress_callback cid message (Some progress) in
  job_prefix_spec os cid fmts
    (call notify "Loading PLY converter..." 5;;
     try_except (lift (import_PLYConverter os))
       (fun import_error => raise ("Failed to import PLYConverter: " ++ import_error));;
     call notify "Creating converter instance..." 10;;
     call notify "Checking input file..." 15;;
     w ← get;
     (if negb (path_exists os input_path (files w))
      then raise ("Input file not found: " ++ input_path)
      else mret tt);;
     let output_dir := OUTPUT_FOLDER in
     (if negb (path_exists os output_dir (files w))
      then on_files (makedirs os output_dir)
      else mret tt);;
     call notify "Starting PLY conversion..." 20;;
     results ← convert_ply np tm o3 os HAS_OPEN3D HAS_SCIPY input_path output_dir fmts cid
                 (Some notify) lvl;
     verify_and_store os cid results).
Proof.
  intros notify.
  assert (Hn : forall msg p, moves_registries (progress_of cid) (call notify msg p)).
  { intros msg p. apply moves_call; [typeclasses eauto|]. apply progress_callback_moves. }
  apply job_prefix_bind; [apply Hn|]. intros _.
  apply job_prefix_bind.
  { apply moves_try_except; [typeclasses eauto|apply moves_lift; typeclasses eauto|].
    intros e. apply moves_raise. typeclasses eauto. }
  intros _. apply job_prefix_bind; [apply Hn|]. intros _.
  apply job_prefix_bind; [apply Hn|]. intros _.
  apply job_prefix_bind; [apply moves_get; typeclasses eauto|]. intros w0.
  apply job_prefix_bind.
  { destruct (negb _); [apply moves_raise|apply moves_ret]; typeclasses eauto. }
  intros _. cbv zeta. apply job_prefix_bind.
  { destruct (negb _); [apply moves_on_files|apply moves_ret]; typeclasses eauto. }
  intros _. apply job_prefix_bind; [apply Hn|]. intros _.
  intros w w' r E Hen. unfold mbind, M_bind in E.
  destruct (convert_ply _ _ _ _ _ _ _ _ _ _ _ _ w) as [w1 [results|e]] eqn:Ec.
  - assert (Hp : progress_of cid (registries w) (registries w1)).
    { eapply (moves_convert_ply np tm o3 os HAS_OPEN3D HAS_SCIPY (progress_of cid));
        [apply notify_moves|exact Ec]. }
    pose proof (convert_ply_results _ _ _ _ _ _ _ _ _ Ec) as Hres.
    destruct r as [[]|e].
    + exists w1, results. auto.
    + apply verify_and_store_inv in E. cbv zeta in E.
      destruct E as [(_ & -> & _)|(_ & Hnone)]; [exact Hp|].
      apply (progress_of_is_Some cid _ _ Hp) in Hen. simpl in Hen.
      rewrite Hnone in Hen. destruct Hen as [? Hen]. discriminate.
  - injection E as <- <-.
    eapply (moves_convert_ply np tm o3 os HAS_OPEN3D HAS_SCIPY (progress_of cid));
      [apply notify_moves|exact Ec].
Qed.

(** The job as a whole. *)
Lemma job_run (cid input_path : string) (fmts : list string) (lvl : string)
    (w : world disk) :
  exists w' : world disk,
    convert_file_async_debug np tm o3 os HAS_OPEN3D HAS_SCIPY cid input_path fmts lvl w
      = (w', Ok tt) /\
    forall en, conversion_progress w !! cid = Some en ->
      exists en', conversion_progress w' !! cid = Some en' /\ same_job en en' /\
        (forall k, k <> cid -> conversion_progress w' !! k = conversion_progress w !! k) /\
        ((e_status en' = "completed" /\ e_progress en' = 100%Z /\
          exists verified,
            conversion_results w' = <[cid := verified]> (conversion_results w) /\
            results_of OUTPUT_FOLDER cid fmts verified /\
            e_message en' = ("Conversion completed! " ++ pretty (size verified)
                             ++ " files created.")%string) \/
         (e_status en' = "error" /\
          conversion_results w' = conversion_results w /\
          exists e, e_message en' = ("Conversion failed: " ++ e)%string)).
Proof.
  unfold convert_file_async_debug. cbv zeta. unfold try_finally, try_except at 1.
  pose proof (job_body_spec cid input_path fmts lvl) as Hb. cbv zeta in Hb.
  match goal with |- context [match ?b w with _ => _ end] => set (body := b) in * end.
  specialize (Hb w). destruct (body w) as [w1 r1] eqn:Eb. specialize (Hb w1 r1 eq_refl).
  destruct r1 as [[]|e].
  - destruct (remove_input_returns input_path w1) as (Hr & Hreg & _).
    destruct (remove_input os input_path w1) as [w2 r2]. simpl in Hr, Hreg. subst r2.
    exists w2. split; [reflexivity|]. intros en Hen.
    destruct (Hb (ex_intro _ en Hen)) as (w0 & results & Hp & Hres & Hv).
    apply verify_and_store_inv in Hv. cbv zeta in Hv.
    destruct Hv as (Hne & en0 & Hen0 & ->).
    injection Hreg as Hcp Hcr. simpl in Hcp, Hcr.
    destruct Hp as (Hp1 & Hp2 & Hp3). simpl in Hp1, Hp2, Hp3.
    rewrite Hen, Hen0 in Hp3. inversion Hp3 as [? ? Hsame|]. subst.
    eexists. rewrite Hcp, lookup_insert_eq. split; [reflexivity|].
    split; [destruct Hsame as (? & ? & ? & ?); repeat split; assumption|]. split.
    + intros k Hk. rewrite lookup_insert_ne by congruence. apply Hp2, Hk.
    + left. simpl. split; [reflexivity|]. split; [reflexivity|].
      eexists. rewrite Hcr, Hp1. split; [reflexivity|]. split; [|reflexivity].
      apply verified_results_of; assumption.
  - pose proof (store_error_returns cid e w1) as Hs.
    pose proof (moves_store_error cid e w1) as Hm.
    destruct (store_error cid e w1) as [w2 r2] eqn:Es. simpl in Hs. subst r2.
    specialize (Hm w2 (Ok tt) eq_refl).
    destruct (remove_input_returns input_path w2) as (Hr & Hreg & _).
    destruct (remove_input os input_path w2) as [w3 r3]. simpl in Hr, Hreg. subst r3.
    exists w3. split; [reflexivity|]. intros en Hen.
    specialize (Hb (ex_intro _ en Hen)).
    destruct Hb as (Hp1 & Hp2 & Hp3). simpl in Hp1, Hp2, Hp3.
    rewrite Hen in Hp3. inversion Hp3 as [? en1 Hsame Hx Hen1|]. subst. symmetry in Hen1.
    unfold store_error, mbind, M_bind, get in Es. cbv zeta in Es. rewrite Hen1 in Es.
    injection Es as <-. injection Hreg as Hcp Hcr. simpl in Hcp, Hcr.
    eexists. rewrite Hcp, lookup_insert_eq. split; [reflexivity|].
    split; [destruct Hsame as (? & ? & ? & ?); repeat split; assumption|]. split.
    + intros k Hk. rewrite lookup_insert_ne by congruence. apply Hp2, Hk.
    + right. simpl. split; [reflexivity|]. split; [congruence|]. eauto.
Qed.

(** The job moves the registries at its own identifier only. *)
Lemma job_moves (cid input_path : string) (fmts : list string) (lvl : string) :
  moves_registries (job_of cid)
    (convert_file_async_debug np tm o3 os HAS_OPEN3D HAS_SCIPY cid input_path fmts lvl).
Proof.
  unfold convert_file_async_debug. cbv zeta.
  set (notify := fun message progress => progress_callback cid message (Some progress)).
  assert (Hn : forall msg p, moves_registries (job_of cid) (call notify msg p)).
  { intros msg p. apply moves_call; [typeclasses eauto|].
    eapply moves_weaken; [apply progress_of_job_of|apply progress_callback_moves]. }
  apply moves_try_finally; [typeclasses eauto| |apply moves_remove_input; typeclasses eauto].
  apply moves_try_except; [typeclasses eauto| |].
  2:{ intros e. eapply moves_weaken; [apply progress_of_job_of|apply moves_store_error]. }
  apply moves_bind; [typeclasses eauto|apply Hn|]. intros _.
  apply moves_bind; [typeclasses eauto| |].
  { apply moves_try_except; [typeclasses eauto|apply moves_lift; typeclasses eauto|].
    intros e. apply moves_raise. typeclasses eauto. }
  intros _. apply moves_bind; [typeclasses eauto|apply Hn|]. intros _.
  apply moves_bind; [typeclasses eauto|apply Hn|]. intros _.
  apply moves_bind; [typeclasses eauto|apply moves_get; typeclasses eauto|]. intros w0.
  apply moves_bind; [typeclasses eauto| |].
  { destruct (negb _); [apply moves_raise|apply moves_ret]; typeclasses eauto. }
  intros _. apply moves_bind; [typeclasses eauto| |].
  { destruct (negb _); [apply moves_on_files|apply moves_ret]; typeclasses eauto. }
  intros _. apply moves_bind; [typeclasses eauto|apply Hn|]. intros _.
  apply moves_bind; [typeclasses eauto| |].
  { apply moves_convert_ply; [typeclasses eauto|].
    intros msg p. eapply moves_weaken; [apply progress_of_job_of|apply progress_callback_moves]. }
  intros results. apply moves_verify_and_store.
Qed.

End job_runs.

Section job_theorems.
Context {colors disk : Type}.
Context (np : Numpy_colors colors) (tm : Trimesh_lib colors disk) (o3 : Open3d_lib colors)
        (os : Os_lib disk).
Context (HAS_OPEN3D HAS_SCIPY : bool).

(** Property X4.  The background job never lets an exception escape, and it is
    confined to its own identifier: the progress entries and the results of
    every other job are left as they are, and the entry of the job itself is
    neither created nor removed and keeps the fields set by the upload. *)
Theorem job_never_raises_and_is_isolated (cid input_path : string) (fmts : list string)
    (lvl : string) (w : world disk) :
  let run := convert_file_async_debug np tm o3 os HAS_OPEN3D HAS_SCIPY cid input_path
               fmts lvl w in
  run.2 = Ok tt /\
  (forall k, k <> cid ->
     conversion_progress run.1 !! k = conversion_progress w !! k /\
     conversion_results run.1 !! k = conversion_results w !! k) /\
  (is_Some (conversion_progress run.1 !! cid) <-> is_Some (conversion_progress w !! cid)) /\
  (forall en en', conversion_progress w !! cid = Some en ->
     conversion_progress run.1 !! cid = Some en' -> same_job en en').
Proof.
  intros run.
  destruct (job_run np tm o3 os HAS_OPEN3D HAS_SCIPY cid input_path fmts lvl w)
    as (w' & E & _).
  pose proof (job_moves np tm o3 os HAS_OPEN3D HAS_SCIPY cid input_path fmts lvl w w'
                (Ok tt) E) as (H1 & H2 & H3).
  unfold run. rewrite E. simpl in *. split; [reflexivity|]. split; [|split].
  - intros k Hk. split; [apply H2, Hk|].
    destruct H1 as [->|[v ->]]; [reflexivity|]. apply lookup_insert_ne. congruence.
  - inversion H3; split; intros [e0 He0]; eauto; discriminate.
  - intros en en' Hen Hen'. rewrite Hen, Hen' in H3. inversion H3. assumption.
Qed.

(** Property X5.  A job that has its entry ends in one of two states.  Either the
    status is "completed" with the percentage 100, and the non-empty results
    stored for the job hold requested formats only, each with the path
    outputs/<id>_smooth.<format>; or the status is "error", the message
    starts with "Conversion failed: " and no results are stored. *)
Theorem job_final_status (cid input_path : string) (fmts : list string) (lvl : string)
    (w : world disk) (en : entry) :
  conversion_progress w !! cid = Some en ->
  exists (w' : world disk) (en' : entry),
    convert_file_async_debug np tm o3 os HAS_OPEN3D HAS_SCIPY cid input_path fmts lvl w
      = (w', Ok tt) /\
    conversion_progress w' !! cid = Some en' /\
    ((e_status en' = "completed" /\ e_progress en' = 100%Z /\
      exists verified,
        conversion_results w' = <[cid := verified]> (conversion_results w) /\
        results_of OUTPUT_FOLDER cid fmts verified /\
        e_message en' = ("Conversion completed! " ++ pretty (size verified)
                         ++ " files created.")%string) \/
     (e_status en' = "error" /\
      conversion_results w' = conversion_results w /\
      exists e, e_message en' = ("Conversion failed: " ++ e)%string)).
Proof.
  intros Hen.
  destruct (job_run np tm o3 os HAS_OPEN3D HAS_SCIPY cid input_path fmts lvl w)
    as (w' & E & H).
  destruct (H en Hen) as (en' & Hen' & _ & _ & Hcases).
  exists w', en'. auto.
Qed.

Lemma remove_input_files (input_path : string) (w : world disk) :
  files (remove_input os input_path w).1 =
    if path_exists os input_path (files w)
    then (os_remove os input_path (files w)).1
    else files w.
Proof.
  unfold remove_input, try_except, mbind, M_bind, get.
  destruct (path_exists os input_path (files w)); [|reflexivity].
  unfold on_files. destruct (os_remove os input_path (files w)) as [d [[]|e]]; reflexivity.
Qed.

(** Property X6.  Whatever the job did, and whether it succeeded or failed, the
    uploaded input file is gone when the job ends, given that [os.remove]
    removes a file that exists. *)
Theorem job_removes_input (cid input_path : string) (fmts : list string) (lvl : string)
    (w : world disk) :
  (forall d, path_exists os input_path d = true ->
     path_exists os input_path (os_remove os input_path d).1 = false) ->
  path_exists os input_path
    (files (convert_file_async_debug np tm o3 os HAS_OPEN3D HAS_SCIPY cid input_path
              fmts lvl w).1) = false.
Proof.
  intros Hrm. unfold convert_file_async_debug. cbv zeta. unfold try_finally.
  match goal with |- context [match ?b w with _ => _ end] => destruct (b w) as [w1 r1] end.
  pose proof (remove_input_files input_path w1) as Hf.
  destruct (remove_input_returns os input_path w1) as (Hr & _).
  destruct (remove_input os input_path w1) as [w2 r2]. simpl in Hf, Hr. subst r2.
  simpl. rewrite Hf.
  destruct (path_exists os input_path (files w1)) eqn:Ex; [apply Hrm, Ex|exact Ex].
Qed.

Lemma remove_input_absent (input_path : string) (w : world disk) :
  path_exists os input_path (files w) = false -> remove_input os input_path w = (w, Ok tt).
Proof.
  intros H. unfold remove_input, try_except, mbind, M_bind, get. rewrite H. reflexivity.
Qed.

Lemma call_notify_run (cid msg : string) (p : Z) (en : entry) (w : world disk) :
  conversion_progress w !! cid = Some en ->
  call (fun message progress => progress_callback cid message (Some progress)) msg p w =
    (World (files w)
       (<[cid := Entry "converting" (Z.min p 100) msg (e_input_file en)
                   (e_output_formats en) (e_smoothing_level en) (e_created_at en)]>
          (conversion_progress w))
       (conversion_results w) (stdout w) (calls w ++ [(msg, p)]), Ok tt).
Proof.
  intros H. unfold call, mbind, M_bind, modify.
  rewrite progress_callback_run with (en := en) by exact H. reflexivity.
Qed.

(** Property X7.  A job whose input file is not there when it is checked never calls
    the converter: after the three calls 5, 10 and 15 of the callback the job
    ends with the status "error", the percentage 15 and the message
    "Conversion failed: Input file not found: <path>"; nothing is printed,
    no file is touched and no results are stored.  When the import of the
    converter fails, the job ends after the first call, with the percentage
    5. *)
Theorem job_fails_early (cid input_path : string) (fmts : list string) (lvl : string)
    (w : world disk) (en : entry) :
  conversion_progress w !! cid = Some en ->
  (import_PLYConverter os = Ok tt ->
   path_exists os input_path (files w) = false ->
   convert_file_async_debug np tm o3 os HAS_OPEN3D HAS_SCIPY cid input_path fmts lvl w =
     (World (files w)
        (<[cid := Entry "error" 15
                    ("Conversion failed: Input file not found: " ++ input_path)%string
                    (e_input_file en) (e_output_formats en) (e_smoothing_level en)
                    (e_created_at en)]> (conversion_progress w))
        (conversion_results w) (stdout w)
        (calls w ++ [("Loading PLY converter...", 5%Z);
                     ("Creating converter instance...", 10%Z);
                     ("Checking input file...", 15%Z)]), Ok tt)) /\
  (forall import_error, import_PLYConverter os = Raise import_error ->
   exists d : disk,
     convert_file_async_debug np tm o3 os HAS_OPEN3D HAS_SCIPY cid input_path fmts lvl w =
       (World d
          (<[cid := Entry "error" 5
                      ("Conversion failed: Failed to import PLYConverter: "
                       ++ import_error)%string
                      (e_input_file en) (e_output_formats en) (e_smoothing_level en)
                      (e_created_at en)]> (conversion_progress w))
          (conversion_results w) (stdout w)
          (calls w ++ [("Loading PLY converter...", 5%Z)]), Ok tt)).
Proof.
  intros Hen. split.
  - intros Himp Hex. unfold convert_file_async_debug. cbv zeta.
    unfold try_finally, try_except at 1. unfold mbind at 1, M_bind at 1.
    rewrite (call_notify_run cid _ _ en w Hen).
    unfold mbind at 1, M_bind at 1. rewrite Himp.
    unfold try_except at 1, lift at 1.
    unfold mbind at 1, M_bind at 1.
    erewrite call_notify_run by (simpl; apply lookup_insert_eq).
    unfold mbind at 1, M_bind at 1.
    erewrite call_notify_run by (simpl; apply lookup_insert_eq).
    unfold mbind at 1, M_bind at 1. unfold get at 1. cbn [files].
    rewrite Hex. cbn [negb]. unfold mbind at 1, M_bind at 1. unfold raise at 1.
    unfold store_error, mbind, M_bind, get. cbv zeta.
    cbn [conversion_progress]. rewrite lookup_insert_eq.
    unfold set_conversion_progress, modify.
    rewrite remove_input_absent by exact Hex.
    cbn. rewrite !insert_insert_eq, <- !app_assoc. reflexivity.
  - intros import_error Himp. unfold convert_file_async_debug. cbv zeta.
    unfold try_finally, try_except at 1. unfold mbind at 1, M_bind at 1.
    rewrite (call_notify_run cid _ _ en w Hen).
    unfold mbind at 1, M_bind at 1. rewrite Himp.
    unfold try_except at 1, lift at 1. unfold raise at 1.
    unfold store_error, mbind, M_bind, get. cbv zeta.
    cbn [conversion_progress]. rewrite lookup_insert_eq.
    unfold set_conversion_progress, modify.
    match goal with |- context [remove_input os input_path ?w0] =>
      destruct (remove_input_returns os input_path w0) as (Hr & Hreg & Hout & Hcalls);
      destruct (remove_input os input_path w0) as [w2 r2] end.
    cbn [fst snd] in Hr, Hreg, Hout, Hcalls. subst r2.
    destruct w2 as [d2 cp2 cr2 out2 calls2]. unfold registries in Hreg.
    cbn in Hreg, Hout, Hcalls. injection Hreg as -> ->. subst out2 calls2.
    exists d2. rewrite insert_insert_eq. reflexivity.
Qed.

End job_theorems.

(** ** The endpoints *)

Section endpoint_theorems.
Context {colors disk : Type}.
Context (np : Numpy_colors colors) (tm : Trimesh_lib colors disk) (o3 : Open3d_lib colors)
        (os : Os_lib disk) (fl : Flask_lib disk).
Context (HAS_OPEN3D HAS_SCIPY : bool).

Lemma links_of_lookup (cid : string) (results : gmap string string) (d : disk)
    (f url : string) :
  links_of os fl cid results d !! f = Some url <->
  url = url_for_download_file fl cid f /\
  exists path, results !! f = Some path /\ path <> "" /\ path_exists os path d = true.
Proof.
  unfold links_of. rewrite map_lookup_imap.
  destruct (results !! f) as [path|]; simpl.
  - destruct (decide (path = "")) as [->|Hne].
    + rewrite bool_decide_eq_false_2 by tauto. simpl. split; [discriminate|].
      intros (_ & p & [= <-] & Hp & _). congruence.
    + rewrite bool_decide_eq_true_2 by exact Hne. simpl.
      destruct (path_exists os path d) eqn:Hex.
      * split; [intros [= <-]; eauto|]. intros (-> & _). reflexivity.
      * split; [discriminate|]. intros (_ & p & [= <-] & _ & Hp). congruence.
  - split; [discriminate|]. intros (_ & p & Hp & _). discriminate.
Qed.

Lemma get_progress_run (cid : string) (w : world disk) :
  get_progress os fl cid w =
    (w, Ok match conversion_progress w !! cid with
           | None => Json_error "Conversion not found" 404
           | Some en =>
               Json (Progress_json en
                       (if bool_decide (e_status en = "completed") then
                          match conversion_results w !! cid with
                          | Some results => Some (links_of os fl cid results (files w))
                          | None => None
                          end
                        else None))
           end).
Proof.
  unfold get_progress, try_except, mbind, M_bind, get.
  destruct (conversion_progress w !! cid); reflexivity.
Qed.

Lemma download_file_run (cid f : string) (w : world disk) :
  download_file os fl cid f w =
    (w, Ok match conversion_results w !! cid with
           | None => Download_error "Conversion not found" 404
           | Some results =>
               match results !! f with
               | None => Download_error "Format not found" 404
               | Some path =>
                   if bool_decide (path = "") || negb (path_exists os path (files w))
                   then Download_error "File not found" 404
                   else
                     match send_file fl path ("smooth_" ++ cid ++ "." ++ f) (files w) with
                     | Ok _ => Attachment path ("smooth_" ++ cid ++ "." ++ f)
                     | Raise e => Download_error ("Download failed: " ++ e) 500
                     end
               end
           end).
Proof.
  unfold download_file, try_except, mbind, M_bind, get.
  destruct (conversion_results w !! cid) as [results|]; [|reflexivity].
  destruct (results !! f) as [path|]; [|reflexivity].
  destruct (bool_decide (path = "") || negb (path_exists os path (files w)));
    [reflexivity|].
  cbv zeta. unfold lift. destruct (send_file fl path _ (files w)) as [[]|e]; reflexivity.
Qed.

(** Property X8.  [get_progress] answers 404 "Conversion not found" for an unknown
    identifier and the stored entry for a known one.  The key
    [download_links] is added exactly when the status is "completed" and
    results are registered for the identifier, and it then holds a link for
    exactly the registered formats whose file path is not empty and exists;
    the entry stored in the registry is not changed by the request. *)
Theorem get_progress_spec (cid : string) (w : world disk) :
  (conversion_progress w !! cid = None ->
     get_progress os fl cid w = (w, Ok (Json_error "Conversion not found" 404))) /\
  (forall en, conversion_progress w !! cid = Some en ->
     exists links,
       get_progress os fl cid w = (w, Ok (Json (Progress_json en links))) /\
       (is_Some links <->
        e_status en = "completed" /\ is_Some (conversion_results w !! cid)) /\
       forall ls f url, links = Some ls ->
         (ls !! f = Some url <->
          url = url_for_download_file fl cid f /\
          exists results path,
            conversion_results w !! cid = Some results /\ results !! f = Some path /\
            path <> "" /\ path_exists os path (files w) = true)).
Proof.
  split.
  - intros H. rewrite get_progress_run, H. reflexivity.
  - intros en H. rewrite get_progress_run, H. eexists. split; [reflexivity|].
    destruct (decide (e_status en = "completed")) as [Hc|Hc].
    + rewrite bool_decide_eq_true_2 by exact Hc.
      destruct (conversion_results w !! cid) as [results|].
      * split; [split; eauto|]. intros ls f url [= <-].
        rewrite links_of_lookup. split.
        -- intros (-> & path & H1 & H2 & H3). eauto 8.
        -- intros (-> & results' & path & [= <-] & H1 & H2 & H3). eauto.
      * split; [|discriminate]. split; [intros [? ?]; discriminate|].
        intros [_ [? ?]]. discriminate.
    + rewrite bool_decide_eq_false_2 by exact Hc. split; [|discriminate].
      split; [intros [? ?]; discriminate|]. intros [? _]. contradiction.
Qed.

(** Property X9.  [download_file] sends a file only if it is the path registered for
    this identifier and this format, is not empty and exists; the download
    name is smooth_<id>.<format>.  Every other request is answered with an
    error, 404 unless [send_file] itself raised.  Every link that
    [get_progress] offers in a state is served by [download_file] in that
    state, with the registered path, unless [send_file] raises. *)
Theorem download_file_spec (cid f : string) (w : world disk) :
  (forall path name,
     download_file os fl cid f w = (w, Ok (Attachment path name)) <->
     name = ("smooth_" ++ cid ++ "." ++ f)%string /\
     (exists results, conversion_results w !! cid = Some results /\
                      results !! f = Some path) /\
     path <> "" /\ path_exists os path (files w) = true /\
     send_file fl path name (files w) = Ok tt) /\
  (exists resp, download_file os fl cid f w = (w, Ok resp) /\
     forall error code, resp = Download_error error code ->
       code = 404%nat \/
       (code = 500%nat /\ exists path name e, send_file fl path name (files w) = Raise e)) /\
  (forall en ls url,
     get_progress os fl cid w = (w, Ok (Json (Progress_json en (Some ls)))) ->
     ls !! f = Some url ->
     exists path,
       (exists results, conversion_results w !! cid = Some results /\
                        results !! f = Some path) /\
       (download_file os fl cid f w
          = (w, Ok (Attachment path ("smooth_" ++ cid ++ "." ++ f)%string)) \/
        exists e, send_file fl path ("smooth_" ++ cid ++ "." ++ f)%string (files w)
                  = Raise e)).
Proof.
  split; [|split].
  - intros path name. rewrite download_file_run. split.
    + intros E. injection E as E.
      destruct (conversion_results w !! cid) as [results|]; [|discriminate].
      destruct (results !! f) as [p|] eqn:Hp; [|discriminate].
      destruct (decide (p = "")) as [->|Hne].
      { rewrite bool_decide_eq_true_2 in E by reflexivity. discriminate. }
      rewrite bool_decide_eq_false_2 in E by exact Hne. cbn [orb] in E.
      destruct (path_exists os p (files w)) eqn:Hex; cbn [negb] in E; [|discriminate].
      destruct (send_file fl p _ (files w)) as [[]|e] eqn:Hs; [|discriminate].
      injection E as <- <-. eauto 10.
    + intros (-> & (results & Hr & Hp) & Hne & Hex & Hs).
      rewrite Hr, Hp, Hex, Hs. rewrite bool_decide_eq_false_2 by exact Hne. reflexivity.
  - rewrite download_file_run. eexists. split; [reflexivity|].
    intros error code.
    destruct (conversion_results w !! cid) as [results|]; [|intros [= _ <-]; auto].
    destruct (results !! f) as [p|]; [|intros [= _ <-]; auto].
    destruct (bool_decide (p = "") || negb (path_exists os p (files w)));
      [intros [= _ <-]; auto|].
    destruct (send_file fl p _ (files w)) as [[]|e] eqn:Hs; [discriminate|].
    intros [= _ <-]. right. eauto 10.
  - intros en ls url E Hl. rewrite get_progress_run in E. injection E as E.
    destruct (conversion_progress w !! cid) as [en0|]; [|discriminate].
    injection E as _ E.
    destruct (bool_decide (e_status en0 = "completed")); [|discriminate].
    destruct (conversion_results w !! cid) as [results|] eqn:Hr; [|discriminate].
    injection E as <-. apply links_of_lookup in Hl as (_ & path & Hp & Hne & Hex).
    exists path. split; [eauto|]. rewrite download_file_run, Hr, Hp, Hex.
    rewrite bool_decide_eq_false_2 by exact Hne. cbn [orb negb].
    destruct (send_file fl path _ (files w)) as [[]|e]; eauto.
Qed.

(** Property X10.  After a job that had its entry, [get_progress] never answers 404
    and never reports a job still running: it reports "completed" with the
    percentage 100 and a link for exactly the stored files that still exist,
    or "error" without download links. *)
Theorem finished_job_progress (cid input_path : string) (fmts : list string) (lvl : string)
    (w : world disk) (en : entry) :
  conversion_progress w !! cid = Some en ->
  let w' := (convert_file_async_debug np tm o3 os HAS_OPEN3D HAS_SCIPY cid input_path
               fmts lvl w).1 in
  exists en' links,
    get_progress os fl cid w' = (w', Ok (Json (Progress_json en' links))) /\
    ((e_status en' = "completed" /\ e_progress en' = 100%Z /\
      exists verified ls,
        conversion_results w' !! cid = Some verified /\ links = Some ls /\
        forall f url, ls !! f = Some url <->
          url = url_for_download_file fl cid f /\
          exists path, verified !! f = Some path /\ path_exists os path (files w') = true) \/
     (e_status en' = "error" /\ links = None)).
Proof.
  intros Hen w'.
  destruct (job_run np tm o3 os HAS_OPEN3D HAS_SCIPY cid input_path fmts lvl w)
    as (w1 & E & H).
  destruct (H en Hen) as (en' & Hen' & _ & _ & Hcases).
  unfold w'. rewrite E. cbn [fst]. rewrite get_progress_run, Hen'.
  eexists. eexists. split; [reflexivity|].
  destruct Hcases as [(Hs & Hp & verified & Hcr & Hres & _)|(Hs & _)].
  - left. split; [exact Hs|]. split; [exact Hp|].
    rewrite bool_decide_eq_true_2 by exact Hs.
    rewrite Hcr, lookup_insert_eq. eexists. eexists. split; [reflexivity|].
    split; [reflexivity|]. intros f url. rewrite links_of_lookup. split.
    + intros (-> & path & H1 & _ & H3). eauto.
    + intros (-> & path & H1 & H3). split; [reflexivity|]. exists path.
      split; [exact H1|]. split; [|exact H3].
      destruct Hres as [_ Hres]. destruct (Hres f path H1) as [_ ->].
      unfold export_path, path_join. discriminate.
  - right. split; [exact Hs|]. rewrite bool_decide_eq_false_2; [reflexivity|].
    rewrite Hs. discriminate.
Qed.

Lemma remove_output_returns (p : string) (d : disk) : (remove_output os p d).2 = Ok tt.
Proof.
  unfold remove_output, mbind, M_bind, get, try_except.
  destruct (bool_decide (p ≠ "") && path_exists os p d); [|reflexivity].
  destruct (os_remove os p d) as [d' [[]|e]]; reflexivity.
Qed.

Lemma remove_outputs_returns (ps : list string) (d : disk) :
  (remove_outputs os ps d).2 = Ok tt.
Proof.
  revert d. induction ps as [|p ps IH]; intros d; [reflexivity|].
  simpl. unfold mbind, M_bind.
  pose proof (remove_output_returns p d) as H.
  destruct (remove_output os p d) as [d1 r]. simpl in H. subst r. apply IH.
Qed.

Lemma cleanup_conversion_run (cid : string) (w : world disk) :
  cleanup_conversion os cid w =
    (World match conversion_results w !! cid with
           | Some results => (remove_outputs os (map snd (map_to_list results)) (files w)).1
           | None => files w
           end
           (delete cid (conversion_progress w)) (delete cid (conversion_results w))
           (stdout w) (calls w),
     Ok (Json "Cleanup completed")).
Proof.
  unfold cleanup_conversion, try_except, mbind, M_bind, get.
  destruct (conversion_progress w !! cid) as [en|] eqn:Hen.
  - unfold set_conversion_progress, modify. cbn [conversion_results files].
    destruct (conversion_results w !! cid) as [results|] eqn:Hr.
    + unfold on_files. cbn [files].
      pose proof (remove_outputs_returns (map snd (map_to_list results)) (files w)) as H.
      destruct (remove_outputs os _ (files w)) as [d r]. simpl in H. subst r.
      unfold set_conversion_results, modify. reflexivity.
    + unfold mret, M_ret. rewrite (delete_id _ _ Hr). reflexivity.
  - unfold mret at 1, M_ret at 1. rewrite (delete_id _ _ Hen).
    destruct (conversion_results w !! cid) as [results|] eqn:Hr.
    + unfold on_files.
      pose proof (remove_outputs_returns (map snd (map_to_list results)) (files w)) as H.
      destruct (remove_outputs os _ (files w)) as [d r]. simpl in H. subst r.
      unfold set_conversion_results, modify. destruct w; reflexivity.
    + unfold mret, M_ret. rewrite (delete_id _ _ Hr). destruct w; reflexivity.
Qed.

(** Property X11.  [cleanup_conversion] always answers "Cleanup completed", also when
    removing a file fails.  Afterwards the identifier is gone from both
    registries and every other job is as before: [get_progress] and
    [download_file] answer 404 "Conversion not found" for it, and a second
    cleanup changes nothing.  A job without registered results has no file
    touched. *)
Theorem cleanup_forgets_job (cid : string) (w : world disk) :
  exists w' : world disk,
    cleanup_conversion os cid w = (w', Ok (Json "Cleanup completed")) /\
    conversion_progress w' = delete cid (conversion_progress w) /\
    conversion_results w' = delete cid (conversion_results w) /\
    (conversion_results w !! cid = None -> w' =
       World (files w) (delete cid (conversion_progress w)) (conversion_results w)
             (stdout w) (calls w)) /\
    get_progress os fl cid w' = (w', Ok (Json_error "Conversion not found" 404)) /\
    (forall f, download_file os fl cid f w'
               = (w', Ok (Download_error "Conversion not found" 404))) /\
    cleanup_conversion os cid w' = (w', Ok (Json "Cleanup completed")).
Proof.
  rewrite cleanup_conversion_run. eexists. split; [reflexivity|].
  split; [reflexivity|]. split; [reflexivity|]. split; [|split; [|split]].
  - intros H. rewrite H, (delete_id _ _ H). reflexivity.
  - rewrite get_progress_run. cbn [conversion_progress]. rewrite lookup_delete_eq.
    reflexivity.
  - intros f. rewrite download_file_run. cbn [conversion_results].
    rewrite lookup_delete_eq. reflexivity.
  - rewrite cleanup_conversion_run. cbn [conversion_results conversion_progress files].
    rewrite lookup_delete_eq, !delete_delete_eq. reflexivity.
Qed.

End endpoint_theorems.

Section cleanup_files.
Context {colors disk : Type}.
Context (np : Numpy_colors colors) (tm : Trimesh_lib colors disk) (o3 : Open3d_lib colors)
        (os : Os_lib disk).
Context (HAS_OPEN3D HAS_SCIPY : bool).

Section with_remove_contract.
(** What [os.remove] does to the existence of paths. *)
Hypothesis remove_removes : forall (p : string) (d : disk),
  path_exists os p d = true -> path_exists os p (os_remove os p d).1 = false.
Hypothesis remove_keeps_others : forall (p q : string) (d : disk),
  q <> p -> path_exists os q (os_remove os p d).1 = path_exists os q d.

Lemma remove_output_files (p : string) (d : disk) :
  (remove_output os p d).1 =
    if bool_decide (p ≠ "") && path_exists os p d then (os_remove os p d).1 else d.
Proof.
  unfold remove_output, mbind, M_bind, get, try_except.
  destruct (bool_decide (p ≠ "") && path_exists os p d); [|reflexivity].
  destruct (os_remove os p d) as [d' [[]|e]]; reflexivity.
Qed.

Lemma remove_output_other (p q : string) (d : disk) :
  q <> p -> path_exists os q (remove_output os p d).1 = path_exists os q d.
Proof.
  intros H. rewrite remove_output_files.
  destruct (bool_decide (p ≠ "") && path_exists os p d); [|reflexivity].
  apply remove_keeps_others, H.
Qed.

Lemma remove_output_gone (p : string) (d : disk) :
  p <> "" -> path_exists os p (remove_output os p d).1 = false.
Proof.
  intros H. rewrite remove_output_files. rewrite bool_decide_eq_true_2 by exact H.
  cbn [andb]. destruct (path_exists os p d) eqn:E; [apply remove_removes, E|exact E].
Qed.

Lemma remove_output_stays_gone (p q : string) (d : disk) :
  q <> "" -> path_exists os q d = false -> path_exists os q (remove_output os p d).1 = false.
Proof.
  intros Hq H. destruct (decide (q = p)) as [->|Hne].
  - apply remove_output_gone, Hq.
  - rewrite remove_output_other by exact Hne. exact H.
Qed.

Lemma remove_outputs_cons (p : string) (ps : list string) (d : disk) :
  (remove_outputs os (p :: ps) d).1 = (remove_outputs os ps (remove_output os p d).1).1.
Proof.
  simpl. unfold mbind, M_bind. pose proof (remove_output_returns os p d) as H.
  destruct (remove_output os p d) as [d1 r]. simpl in H. subst r. reflexivity.
Qed.

Lemma remove_outputs_other (ps : list string) (q : string) :
  forall d, q ∉ ps -> path_exists os q (remove_outputs os ps d).1 = path_exists os q d.
Proof.
  induction ps as [|p ps IH]; intros d H; [reflexivity|].
  rewrite remove_outputs_cons, IH.
  - apply remove_output_other. intros ->. apply H. left.
  - intros Hin. apply H. right. exact Hin.
Qed.

Lemma remove_outputs_stays_gone (ps : list string) (q : string) :
  forall d, q <> "" -> path_exists os q d = false ->
    path_exists os q (remove_outputs os ps d).1 = false.
Proof.
  induction ps as [|p ps IH]; intros d Hq H; [exact H|].
  rewrite remove_outputs_cons. apply IH; [exact Hq|].
  apply remove_output_stays_gone; assumption.
Qed.

Lemma remove_outputs_gone (ps : list string) (q : string) :
  forall d, q ∈ ps -> q <> "" -> path_exists os q (remove_outputs os ps d).1 = false.
Proof.
  induction ps as [|p ps IH]; intros d Hin Hq.
  - apply elem_of_nil in Hin. contradiction.
  - rewrite remove_outputs_cons. destruct (decide (q = p)) as [->|Hne].
    + apply remove_outputs_stays_gone; [exact Hq|]. apply remove_output_gone, Hq.
    + apply IH; [|exact Hq]. apply elem_of_cons in Hin. destruct Hin; [contradiction|assumption].
Qed.

Lemma cleanup_files (cid : string) (w : world disk) (results : gmap string string) :
  conversion_results w !! cid = Some results ->
  (forall f p, results !! f = Some p -> p <> "" ->
     path_exists os p (files (cleanup_conversion os cid w).1) = false) /\
  (forall q, (forall f, results !! f <> Some q) ->
     path_exists os q (files (cleanup_conversion os cid w).1) = path_exists os q (files w)).
Proof.
  intros Hr. rewrite cleanup_conversion_run, Hr. cbn [fst files]. split.
  - intros f p Hp Hne. apply remove_outputs_gone; [|exact Hne].
    apply list_elem_of_fmap. exists (f, p). split; [reflexivity|].
    apply elem_of_map_to_list. exact Hp.
  - intros q Hq. apply remove_outputs_other. intros Hin.
    apply list_elem_of_fmap in Hin as ([f p] & -> & Hin).
    apply elem_of_map_to_list in Hin. apply (Hq f). exact Hin.
Qed.

End with_remove_contract.

(** Property X12.  Given that [os.remove] removes the path it is given and leaves the
    other paths as they are, a cleanup removes every file registered for the
    identifier and nothing else: the uploads, the outputs of other jobs and
    every other path exist afterwards exactly if they existed before. *)
Theorem cleanup_removes_exactly_the_outputs (cid : string) (w : world disk)
    (results : gmap string string) :
  (forall (p : string) (d : disk),
     path_exists os p d = true -> path_exists os p (os_remove os p d).1 = false) ->
  (forall (p q : string) (d : disk),
     q <> p -> path_exists os q (os_remove os p d).1 = path_exists os q d) ->
  conversion_results w !! cid = Some results ->
  (forall f p, results !! f = Some p -> p <> "" ->
     path_exists os p (files (cleanup_conversion os cid w).1) = false) /\
  (forall q, (forall f, results !! f <> Some q) ->
     path_exists os q (files (cleanup_conversion os cid w).1) = path_exists os q (files w)).
Proof. intros H1 H2 Hr. apply cleanup_files; assumption. Qed.

Lemma size_same_keys {A : Type} (m1 m2 : gmap string A) :
  (forall k, is_Some (m1 !! k) <-> is_Some (m2 !! k)) -> size m1 = size m2.
Proof.
  intros H. rewrite <- !size_dom. f_equal. apply set_eq. intros k.
  rewrite !elem_of_dom. apply H.
Qed.

(** Property X13.  The counts of [status].  A job that is started under a fresh
    identifier adds one active conversion.  Running a job changes no count of
    active conversions: a finished or failed job stays active until it is
    cleaned up; the count of completed conversions stays or grows by one.  A
    cleanup of a known identifier takes one active conversion away. *)
Theorem status_counts (cid : string) (w : world disk) :
  (forall now req w' j name,
     upload_file os cid now req w = (w', Ok (Started j name)) ->
     conversion_progress w !! cid = None ->
     active_conversions (status os w') = S (active_conversions (status os w)) /\
     completed_conversions (status os w') = completed_conversions (status os w)) /\
  (forall input_path fmts lvl,
     let w' := (convert_file_async_debug np tm o3 os HAS_OPEN3D HAS_SCIPY cid input_path
                  fmts lvl w).1 in
     active_conversions (status os w') = active_conversions (status os w) /\
     (completed_conversions (status os w) <= completed_conversions (status os w')
      <= S (completed_conversions (status os w)))%nat) /\
  (is_Some (conversion_progress w !! cid) ->
   S (active_conversions (status os (cleanup_conversion os cid w).1))
     = active_conversions (status os w)).
Proof.
  split; [|split].
  - intros now req w' j name E Hfresh.
    destruct (req_file req) as [[n c]|] eqn:Hfile.
    2:{ unfold upload_file, try_except in E. rewrite Hfile in E. discriminate. }
    destruct (decide (n = "")) as [->|Hn].
    { unfold upload_file, try_except in E. rewrite Hfile in E. discriminate. }
    destruct (allowed_file n) eqn:Ha.
    2:{ unfold upload_file, try_except in E. rewrite Hfile in E.
        rewrite bool_decide_eq_false_2 in E by exact Hn. rewrite Ha in E. discriminate. }
    rewrite (upload_file_checked os cid now req n c w Hfile Hn Ha) in E. cbv zeta in E.
    destruct (file_save os _ c (files w)) as [d [[]|e]]; cbn [fst snd] in E;
      [|discriminate].
    destruct (negb _); [discriminate|].
    destruct (requested_formats (req_formats req)); [discriminate|].
    injection E as <- _ _. unfold status.
    cbn [active_conversions completed_conversions conversion_progress conversion_results].
    rewrite map_size_insert_None by exact Hfresh. auto.
  - intros input_path fmts lvl w'.
    destruct (convert_file_async_debug np tm o3 os HAS_OPEN3D HAS_SCIPY cid input_path
                fmts lvl w) as [w1 r] eqn:E.
    pose proof (job_moves np tm o3 os HAS_OPEN3D HAS_SCIPY cid input_path fmts lvl w w1 r E)
      as (H1 & H2 & H3).
    unfold w', status. cbn [fst active_conversions completed_conversions].
    unfold registries in *. cbn [fst snd] in H1, H2, H3. split.
    + apply size_same_keys. intros k. destruct (decide (k = cid)) as [->|Hk].
      * inversion H3; split; intros [e0 He0]; eauto; discriminate.
      * rewrite H2 by exact Hk. reflexivity.
    + destruct H1 as [->|[v ->]]; [lia|]. rewrite map_size_insert.
      destruct (conversion_results w !! cid); unfold Datatypes.id; lia.
  - intros [en Hen]. rewrite cleanup_conversion_run. unfold status.
    cbn [fst active_conversions conversion_progress].
    rewrite map_size_delete, Hen.
    assert (size (conversion_progress w) <> 0%nat).
    { intros H0. apply map_size_empty_inv in H0. rewrite H0, lookup_empty in Hen.
      discriminate. }
    lia.
Qed.

End cleanup_files.

(** ** Loading *)

Section load_theorems.
Context {colors disk : Type}.
Context (np : Numpy_colors colors) (tm : Trimesh_lib colors disk).

Lemma no_faces_false (faces : option (list face)) :
  no_faces faces = false <-> exists fs, faces = Some fs /\ fs <> [].
Proof.
  unfold no_faces. destruct faces as [[|f fs]|]; simpl.
  - split; [discriminate|]. intros (fs & [= <-] & H). congruence.
  - split; [|reflexivity]. intros _. eexists. split; [reflexivity|discriminate].
  - split; [discriminate|]. intros (fs & H & _). discriminate.
Qed.

Lemma load_with_trimesh_flag (path : string) (d : disk) (data : ply_data colors) :
  load_with_trimesh np tm path d = Ok (Some data) ->
  is_point_cloud data = no_faces (pd_faces data) /\ pd_faces data <> Some [].
Proof.
  unfold load_with_trimesh, mbind, outcome_bind.
  destruct (trimesh_load tm path d) as [mesh_data|]; [|discriminate].
  destruct (l_vertices mesh_data) as [vs|]; [|discriminate].
  destruct (match l_visual_vertex_colors mesh_data with Some _ => _ | None => _ end)
    as [c|]; [|discriminate].
  cbv zeta. intros [= <-]. cbn. split; [reflexivity|].
  destruct (l_faces mesh_data) as [[|f fs]|]; cbn; discriminate.
Qed.

Lemma load_with_plyfile_flag (path : string) (d : disk) (data : ply_data colors) :
  load_with_plyfile np tm path d = Ok data ->
  is_point_cloud data = no_faces (pd_faces data).
Proof.
  unfold load_with_plyfile, mbind, outcome_bind.
  destruct (PlyData_read tm path d) as [plydata|]; [|discriminate].
  destruct (match p_rgb plydata with Some _ => _ | None => _ end) as [c|]; [|discriminate].
  cbv zeta. intros [= <-]. reflexivity.
Qed.

(** Property X14.  [load_ply_file] returns what trimesh loaded (its vertices,
    its faces when there is at least one, colours when it has some) whenever
    [trimesh.load] returns an object with vertices and the colour handling
    ([shape[1]], [max]) does not raise.  The first try gives up when
    [trimesh.load] raises, when the object has no vertices, or when the
    colour handling raises: then the result has the coordinates read by
    plyfile, and a failure of plyfile (the read or the maximum of its
    colours) is raised with "Failed to load PLY file: " before its message.
    The function raises in no other case.  In whatever is returned the flag
    [is_point_cloud] is set exactly when the faces are missing or empty. *)
Theorem load_ply_file_spec (file_path : string) (d : disk) :
  let rgb (c : colors) (width : nat) :=
    if (width =? 4)%nat then colors_rgb np c else c in
  let gives_up : Prop :=
    (exists e, trimesh_load tm file_path d = Raise e) \/
    (exists mesh_data, trimesh_load tm file_path d = Ok mesh_data /\
       (l_vertices mesh_data = None \/
        exists c, l_visual_vertex_colors mesh_data = Some c /\
          ((exists e, colors_width np c = Raise e) \/
           (exists width e, colors_width np c = Ok width /\
                            colors_max np (rgb c width) = Raise e)))) in
  let plyfile_raises (e : string) : Prop :=
    PlyData_read tm file_path d = Raise e \/
    (exists plydata c, PlyData_read tm file_path d = Ok plydata /\
                       p_rgb plydata = Some c /\ colors_max np c = Raise e) in
  (forall mesh_data vs,
     trimesh_load tm file_path d = Ok mesh_data ->
     l_vertices mesh_data = Some vs ->
     (forall c, l_visual_vertex_colors mesh_data = Some c ->
        exists width mx, colors_width np c = Ok width /\
                         colors_max np (rgb c width) = Ok mx) ->
     exists data,
       load_ply_file np tm file_path d = Ok data /\
       pd_vertices data = vs /\
       (forall fs, pd_faces data = Some fs <-> l_faces mesh_data = Some fs /\ fs <> []) /\
       (forall c width mx,
          l_visual_vertex_colors mesh_data = Some c ->
          colors_width np c = Ok width ->
          colors_max np (rgb c width) = Ok mx ->
          pd_colors data = Some (if Np.Rltb 1.0 mx then colors_div255 np (rgb c width)
                                 else rgb c width)) /\
       (l_visual_vertex_colors mesh_data = None -> pd_colors data = None)) /\
  (gives_up ->
     (forall e, plyfile_raises e ->
        load_ply_file np tm file_path d = Raise ("Failed to load PLY file: " ++ e)) /\
     (forall plydata,
        PlyData_read tm file_path d = Ok plydata ->
        (forall c, p_rgb plydata = Some c -> exists mx, colors_max np c = Ok mx) ->
        exists data,
          load_ply_file np tm file_path d = Ok data /\
          pd_vertices data = p_coords plydata /\
          (pd_colors data = None <-> p_rgb plydata = None))) /\
  (forall e, load_ply_file np tm file_path d = Raise e ->
     gives_up /\
     exists e', plyfile_raises e' /\ e = ("Failed to load PLY file: " ++ e')%string) /\
  (forall data, load_ply_file np tm file_path d = Ok data ->
     is_point_cloud data = no_faces (pd_faces data) /\
     (is_point_cloud data = false <-> exists fs, pd_faces data = Some fs /\ fs <> [])).
Proof.
  intros rgb gives_up plyfile_raises.
  assert (Hfirst : gives_up ->
            match load_with_trimesh np tm file_path d with
            | Ok (Some _) => False
            | _ => True
            end).
  { unfold load_with_trimesh, normalize_colors, mbind, outcome_bind.
    intros [[e ->]|(mesh_data & -> & [->|(c & Ec & [[e Ew]|(width & e & Ew & Hmx)])])];
      try exact I.
    - destruct (l_vertices mesh_data); [|exact I]. rewrite Ec, Ew. exact I.
    - destruct (l_vertices mesh_data); [|exact I]. rewrite Ec, Ew.
      fold (rgb c width). rewrite Hmx. exact I. }
  assert (Hback : match load_with_trimesh np tm file_path d with
                  | Ok (Some _) => True
                  | _ => gives_up
                  end).
  { unfold load_with_trimesh, normalize_colors, mbind, outcome_bind.
    destruct (trimesh_load tm file_path d) as [mesh_data|e] eqn:El.
    2:{ left. eauto. }
    destruct (l_vertices mesh_data) as [vs|] eqn:Ev.
    2:{ right. exists mesh_data. auto. }
    destruct (l_visual_vertex_colors mesh_data) as [c|] eqn:Ec; [|exact I].
    destruct (colors_width np c) as [width|e] eqn:Ew.
    2:{ right. exists mesh_data. split; [reflexivity|]. right. exists c. eauto. }
    fold (rgb c width).
    destruct (colors_max np (rgb c width)) as [mx|e] eqn:Em; [exact I|].
    right. exists mesh_data. split; [reflexivity|]. right. exists c.
    split; [exact Ec|]. right. eauto. }
  assert (Hply : forall e, plyfile_raises e -> load_with_plyfile np tm file_path d = Raise e).
  { unfold load_with_plyfile, normalize_colors, mbind, outcome_bind.
    intros e [->|(plydata & c & -> & -> & ->)]; reflexivity. }
  assert (Hply' : forall e, load_with_plyfile np tm file_path d = Raise e -> plyfile_raises e).
  { unfold load_with_plyfile, normalize_colors, mbind, outcome_bind. intros e.
    destruct (PlyData_read tm file_path d) as [plydata|e0] eqn:Er.
    2:{ intros [= <-]. left. reflexivity. }
    destruct (p_rgb plydata) as [c|] eqn:Ec; [|discriminate].
    destruct (colors_max np c) as [mx|e0] eqn:Em; [discriminate|].
    intros [= <-]. right. eauto. }
  split; [|split; [|split]].
  - intros mesh_data vs El Ev Hc.
    unfold load_ply_file, load_with_trimesh, normalize_colors, mbind, outcome_bind.
    rewrite El, Ev. cbv zeta.
    assert (Hfaces : forall fs,
              match l_faces mesh_data with
              | Some fs0 => if (0 <? length fs0)%nat then Some fs0 else None
              | None => None
              end = Some fs <-> l_faces mesh_data = Some fs /\ fs <> []).
    { intros fs. destruct (l_faces mesh_data) as [[|f0 fs0]|]; simpl.
      - split; [discriminate|]. intros [[= <-] H]. congruence.
      - split; [intros [= <-]; split; [reflexivity|discriminate]|].
        intros [[= <-] _]. reflexivity.
      - split; [discriminate|]. intros [H _]. discriminate. }
    destruct (l_visual_vertex_colors mesh_data) as [c|] eqn:Ec.
    + destruct (Hc c eq_refl) as (width & mx & Ew & Em).
      rewrite Ew. fold (rgb c width). rewrite Em.
      eexists. split; [reflexivity|]. cbn [pd_vertices pd_faces pd_colors].
      split; [reflexivity|]. split; [exact Hfaces|]. split; [|discriminate].
      intros c0 width0 mx0 [= <-] Ew0 Em0. rewrite Ew in Ew0. injection Ew0 as <-.
      rewrite Em in Em0. injection Em0 as <-. reflexivity.
    + eexists. split; [reflexivity|]. cbn [pd_vertices pd_faces pd_colors].
      split; [reflexivity|]. split; [exact Hfaces|]. split; [|reflexivity].
      intros c0 width0 mx0 H. discriminate H.
  - intros Hg. apply Hfirst in Hg. unfold load_ply_file. cbv zeta.
    assert (E : match load_with_trimesh np tm file_path d with
                | Ok r => r
                | Raise _ => None
                end = None).
    { destruct (load_with_trimesh np tm file_path d) as [[data|]|e]; [contradiction| |];
        reflexivity. }
    rewrite E. split.
    + intros e He. rewrite (Hply e He). reflexivity.
    + intros plydata Er Hc.
      unfold load_with_plyfile, normalize_colors, mbind, outcome_bind. rewrite Er.
      destruct (p_rgb plydata) as [c|] eqn:Ec.
      * destruct (Hc c eq_refl) as [mx ->].
        eexists. split; [reflexivity|]. cbn [pd_vertices pd_colors].
        split; [reflexivity|]. split; discriminate.
      * eexists. split; [reflexivity|]. cbn [pd_vertices pd_colors].
        split; [reflexivity|]. split; reflexivity.
  - intros e. unfold load_ply_file. cbv zeta. intros H.
    destruct (load_with_trimesh np tm file_path d) as [[data|]|e0];
      [discriminate| |];
      (destruct (load_with_plyfile np tm file_path d) as [data'|e1] eqn:E2;
       [discriminate|]);
      injection H as <-; (split; [exact Hback|]); exists e1;
      (split; [apply Hply'; reflexivity|reflexivity]).
  - intros data H. unfold load_ply_file in H. cbv zeta in H.
    assert (Hflag : is_point_cloud data = no_faces (pd_faces data)).
    { destruct (load_with_trimesh np tm file_path d) as [[data0|]|e0] eqn:E1.
      - injection H as <-. apply (load_with_trimesh_flag _ _ _ E1).
      - destruct (load_with_plyfile np tm file_path d) as [data'|e1] eqn:E2; [|discriminate].
        injection H as <-. apply (load_with_plyfile_flag _ _ _ E2).
      - destruct (load_with_plyfile np tm file_path d) as [data'|e1] eqn:E2; [|discriminate].
        injection H as <-. apply (load_with_plyfile_flag _ _ _ E2). }
    split; [exact Hflag|]. rewrite Hflag. apply no_faces_false.
Qed.

End load_theorems.

(** ** What [convert_ply] returns and how it fails *)

Section conversion_theorems.
Context {colors disk : Type}.
Context (np : Numpy_colors colors) (tm : Trimesh_lib colors disk) (o3 : Open3d_lib colors)
        (os : Os_lib disk).
Context (HAS_OPEN3D HAS_SCIPY : bool).

(** A dictionary whose keys are all in a list has at most as many entries as
    the list has elements. *)
Lemma keys_bounded {V : Type} (res : gmap string V) (l : list string) :
  (forall k, is_Some (res !! k) -> k ∈ l) -> (size res <= length l)%nat.
Proof.
  intros H. rewrite <- size_dom.
  transitivity (size (list_to_set l : gset string)).
  - apply subseteq_size. intros k Hk. apply elem_of_dom in Hk.
    apply elem_of_list_to_set. exact (H k Hk).
  - clear H. induction l as [|x l IH].
    + rewrite list_to_set_nil, size_empty. reflexivity.
    + rewrite list_to_set_cons, size_union_alt, size_singleton.
      pose proof (subseteq_size ((list_to_set l : gset string) ∖ {[x]}) (list_to_set l)
                    (subseteq_difference_l _ _ _ (reflexivity _))) as Hd.
      simpl length. lia.
Qed.

(** Property X15.  The dictionary that [convert_ply] returns is never empty, each of its
    keys is one of the requested formats, and it has no more entries than
    formats were requested: in particular a call with an empty list of
    formats never returns. *)
Theorem convert_ply_returns_requested_files (pc : option (callback disk))
    (input_path output_dir : string) (output_formats : list string) (cid lvl : string)
    (w w' : world disk) (res : gmap string string) :
  convert_ply np tm o3 os HAS_OPEN3D HAS_SCIPY input_path output_dir output_formats
    cid pc lvl w = (w', Ok res) ->
  res <> ∅ /\
  (forall fmt, is_Some (res !! fmt) -> fmt ∈ output_formats) /\
  (size res <= length output_formats)%nat /\
  output_formats <> [].
Proof.
  intros E. apply convert_ply_results in E. destruct E as [Hne H].
  assert (Hkeys : forall fmt, is_Some (res !! fmt) -> fmt ∈ output_formats).
  { intros fmt [p Hp]. exact (proj1 (H fmt p Hp)). }
  split; [exact Hne|]. split; [exact Hkeys|]. split.
  - apply (keys_bounded res output_formats Hkeys).
  - apply map_choose in Hne. destruct Hne as (f & p & Hf).
    intros ->. specialize (Hkeys f (ex_intro _ p Hf)). apply elem_of_nil in Hkeys.
    exact Hkeys.
Qed.

Lemma bind_returns_inv {S A B : Type} (m : M S A) (k : A -> M S B) (s s' : S)
    (r : outcome B) :
  (exists s1 a, m s = (s1, Ok a)) -> (m ≫= k) s = (s', r) ->
  exists s1 a, m s = (s1, Ok a) /\ k a s1 = (s', r).
Proof.
  intros (s1 & a & E). unfold mbind, M_bind. rewrite E. eauto.
Qed.

Lemma fix_returns (mesh : trimesh colors) :
  exists s m, fix_face_orientation_and_normals tm mesh = (s, Ok m).
Proof.
  rewrite fix_unfold. cbv zeta.
  destruct (try_except (step3 tm) (fun _ => mret None) (prepared tm mesh))
    as [m3 [[d|]|e]]; eauto.
  destruct (cleanup tm m3) as [m4 r]. eauto.
Qed.

Lemma final_cleanup_returns (mesh : trimesh colors) (w : world disk) :
  exists w' m, final_cleanup tm mesh w = (w', Ok m).
Proof.
  unfold final_cleanup. destruct (cleanup tm mesh) as [m' [[]|e]].
  - unfold mret, M_ret. eauto.
  - unfold mbind, M_bind, log, modify, mret, M_ret. eauto.
Qed.

Section with_callback.
Context (pc : option (callback disk)).
Hypothesis Hpc : never_raises pc.

Lemma update_progress_returns' (msg : string) (p : Z) (w : world disk) :
  exists w' a, update_progress pc msg p w = (w', Ok a).
Proof. destruct (update_progress_returns pc msg p w Hpc) as [w' E]. eauto. Qed.

Lemma reconstruct_returns (vertices : list vec) (colors0 : option colors) (lvl : string)
    (w : world disk) :
  exists w' m,
    reconstruct np tm o3 HAS_OPEN3D HAS_SCIPY pc vertices colors0 lvl w = (w', Ok m).
Proof.
  unfold reconstruct, mbind, M_bind.
  destruct (update_progress_returns pc
    "Point cloud detected, precise surface reconstruction..." 25 w Hpc) as [w1 ->].
  destruct (precise_poisson_reconstruction _ _ _ _ _ _ _) as [m0|].
  - destruct (update_progress_returns pc
      "Precise surface reconstruction completed" 45 w1 Hpc) as [w2 ->].
    unfold mret, M_ret. eauto.
  - destruct (update_progress_returns pc
      "Using basic surface reconstruction..." 35 w1 Hpc) as [w2 ->].
    unfold mret, M_ret. eauto.
Qed.

(** How the mesh branch of lines 433-440 can fail. *)
Lemma original_mesh_raises (vertices : list vec) (faces : option (list face))
    (colors0 : option colors) (w w' : world disk) (e : string) :
  original_mesh np tm pc vertices faces colors0 w = (w', Raise e) ->
  Trimesh tm vertices faces = Raise e \/
  exists c, colors0 = Some c /\ colors_max np c = Raise e.
Proof.
  unfold original_mesh. intros E.
  apply bind_returns_inv in E as (w1 & [] & _ & E); [|apply update_progress_returns'].
  unfold mbind at 1, M_bind at 1, lift at 1 in E.
  destruct (Trimesh tm vertices faces) as [mesh|e0]; [|left; congruence].
  destruct colors0 as [c|].
  - unfold mbind at 1, M_bind at 1 in E. unfold mbind at 1, M_bind at 1, lift at 1 in E.
    destruct (colors_max np c) as [mx|e0] eqn:Emx.
    + unfold mret at 1, M_ret at 1 in E.
      apply bind_returns_inv in E as (w2 & [] & _ & E); [|apply update_progress_returns'].
      discriminate.
    + right. exists c. split; [reflexivity|]. congruence.
  - unfold mbind at 1, M_bind at 1 in E. unfold mret at 1, M_ret at 1 in E.
    apply bind_returns_inv in E as (w2 & [] & _ & E); [|apply update_progress_returns'].
    discriminate.
Qed.

Lemma first_stage_returns_or (ply : ply_data colors) (lvl : string) (w : world disk) :
  (exists w1 mesh,
     (if is_point_cloud ply
      then reconstruct np tm o3 HAS_OPEN3D HAS_SCIPY pc (pd_vertices ply) (pd_colors ply) lvl
      else original_mesh np tm pc (pd_vertices ply) (pd_faces ply) (pd_colors ply)) w
     = (w1, Ok mesh)) \/
  (exists w1 e,
     (if is_point_cloud ply
      then reconstruct np tm o3 HAS_OPEN3D HAS_SCIPY pc (pd_vertices ply) (pd_colors ply) lvl
      else original_mesh np tm pc (pd_vertices ply) (pd_faces ply) (pd_colors ply)) w
     = (w1, Raise e) /\
     is_point_cloud ply = false /\
     (Trimesh tm (pd_vertices ply) (pd_faces ply) = Raise e \/
      exists c, pd_colors ply = Some c /\ colors_max np c = Raise e)).
Proof.
  destruct (is_point_cloud ply).
  - left. apply reconstruct_returns.
  - destruct (original_mesh np tm pc (pd_vertices ply) (pd_faces ply) (pd_colors ply) w)
      as [w1 [mesh|e]] eqn:E.
    + left. eauto.
    + right. exists w1, e. split; [reflexivity|]. split; [reflexivity|].
      eapply original_mesh_raises; eauto.
Qed.

Lemma convert_loaded_outcome (ply : ply_data colors) (output_dir : string)
    (output_formats : list string) (cid lvl : string) (w w' : world disk)
    (r : outcome (gmap string string)) :
  (forall d, (makedirs os output_dir d).2 = Ok tt) ->
  convert_loaded np tm o3 os HAS_OPEN3D HAS_SCIPY ply output_dir output_formats cid
    pc lvl w = (w', r) ->
  loaded_outcome np tm ply output_dir output_formats cid r.
Proof.
  intros Hmk E. unfold convert_loaded in E. cbv zeta in E.
  apply bind_returns_inv in E as (w1 & [] & _ & E); [|apply update_progress_returns'].
  unfold mbind at 1, M_bind at 1 in E.
  destruct (first_stage_returns_or ply lvl w1) as [(w2 & mesh & E1)|(w2 & e & E1 & Hc)];
    rewrite E1 in E.
  2:{ injection E as _ <-. left. exact Hc. }
  apply bind_returns_inv in E as (w3 & [] & _ & E); [|apply update_progress_returns'].
  apply bind_returns_inv in E as (w4 & m1 & _ & E).
  2:{ destruct (fix_returns mesh) as (s & m1 & ->). unfold lift. eauto. }
  apply bind_returns_inv in E as (w5 & [] & _ & E); [|apply update_progress_returns'].
  apply bind_returns_inv in E as (w6 & [] & _ & E); [|apply update_progress_returns'].
  apply bind_returns_inv in E as (w7 & m2 & _ & E); [|apply final_cleanup_returns].
  destruct (export_stage_outcome tm os pc m2 output_dir cid output_formats w7 Hpc Hmk)
    as [w8 [[E8 Hnone]|(res & E8 & _ & _ & Hall)]]; rewrite E8 in E; injection E as _ <-.
  - right. split; [reflexivity|]. exists m2. exact Hnone.
  - exists m2. exact Hall.
Qed.

End with_callback.

(** Property X16.  With a progress callback that returns and an output directory that
    can be made, [convert_ply] raises in three situations only: the file
    cannot be loaded; the file holds a mesh and the [Trimesh] constructor or
    the maximum of its colours raises; or no format could be exported.  The
    exception carries the message of the cause after "Conversion failed: ". *)
Theorem convert_ply_failure_causes (pc : option (callback disk))
    (input_path output_dir : string) (output_formats : list string) (cid lvl : string)
    (w w' : world disk) (e : string) :
  never_raises pc ->
  (forall d, (makedirs os output_dir d).2 = Ok tt) ->
  convert_ply np tm o3 os HAS_OPEN3D HAS_SCIPY input_path output_dir output_formats
    cid pc lvl w = (w', Raise e) ->
  exists e0 : string,
    e = ("Conversion failed: " ++ e0)%string /\
    ((exists d, load_ply_file np tm input_path d = Raise e0) \/
     (exists d ply,
        load_ply_file np tm input_path d = Ok ply /\ is_point_cloud ply = false /\
        (Trimesh tm (pd_vertices ply) (pd_faces ply) = Raise e0 \/
         exists c, pd_colors ply = Some c /\ colors_max np c = Raise e0)) \/
     e0 = "No files were successfully exported").
Proof.
  intros Hpc Hmk. unfold convert_ply, try_except.
  destruct (convert_body _ _ _ _ _ _ _ _ _ _ _ _ w) as [w1 [res|e0]] eqn:Eb; [discriminate|].
  cbv zeta. unfold mbind, M_bind. unfold log at 1 2. unfold modify.
  match goal with |- context [update_progress pc ?m 0 ?w0] =>
    destruct (update_progress_returns pc m 0 w0 Hpc) as [w2 ->] end.
  unfold raise. intros [= <- <-]. exists e0. split; [reflexivity|].
  unfold convert_body in Eb. unfold mbind at 1, M_bind at 1 in Eb.
  destruct (update_progress_returns pc "Loading PLY file..." 5 w Hpc) as [w3 E3].
  rewrite E3 in Eb. unfold mbind at 1, M_bind at 1, get at 1 in Eb.
  unfold mbind at 1, M_bind at 1, lift at 1 in Eb.
  destruct (load_ply_file np tm input_path (files w3)) as [ply|e1] eqn:El.
  2:{ left. exists (files w3). congruence. }
  pose proof (convert_loaded_outcome pc Hpc ply output_dir output_formats cid lvl _ _ _
                Hmk Eb) as [(Hc1 & Hc2)|(-> & _)].
  - right. left. exists (files w3), ply. auto.
  - right. right. reflexivity.
Qed.

(** Property X17.  Once a file is loaded as a point cloud, nothing before the export
    can make the conversion fail: with a callback that returns and an output
    directory that can be made, the pipeline either returns or raises "No
    files were successfully exported", and it returns, with the file of the
    format among the results, whenever the export of one requested format
    returns for every mesh. *)
Theorem point_cloud_conversion_succeeds (pc : option (callback disk))
    (ply : ply_data colors) (output_dir : string) (output_formats : list string)
    (cid lvl : string) (w : world disk) :
  never_raises pc ->
  (forall d, (makedirs os output_dir d).2 = Ok tt) ->
  is_point_cloud ply = true ->
  (exists w',
     convert_loaded np tm o3 os HAS_OPEN3D HAS_SCIPY ply output_dir output_formats cid
       pc lvl w = (w', Raise "No files were successfully exported") \/
     exists res,
       convert_loaded np tm o3 os HAS_OPEN3D HAS_SCIPY ply output_dir output_formats cid
         pc lvl w = (w', Ok res)) /\
  (forall fmt, fmt ∈ output_formats ->
     (forall mesh, export_always_returns tm mesh output_dir cid fmt) ->
     exists w' res,
       convert_loaded np tm o3 os HAS_OPEN3D HAS_SCIPY ply output_dir output_formats cid
         pc lvl w = (w', Ok res) /\
       res !! fmt = Some (export_path output_dir cid fmt)).
Proof.
  intros Hpc Hmk Hcloud.
  destruct (convert_loaded np tm o3 os HAS_OPEN3D HAS_SCIPY ply output_dir output_formats
              cid pc lvl w) as [w' r] eqn:E.
  pose proof (convert_loaded_outcome pc Hpc ply output_dir output_formats cid lvl _ _ _
                Hmk E) as H.
  destruct r as [res|e]; simpl in H.
  - split; [eauto|]. destruct H as [mesh' Hall]. intros fmt Hin Hret.
    exists w', res. split; [reflexivity|]. apply Hall; [exact Hin|apply Hret].
  - destruct H as [(Hc1 & _)|(-> & mesh' & Hnone)]; [congruence|].
    split; [eauto|]. intros fmt Hin Hret. exfalso. apply (Hnone fmt Hin), Hret.
Qed.

End conversion_theorems.

(** ** Reconstruction, once more *)

Section poisson_theorems.
Context {colors disk : Type}.
Context (np : Numpy_colors colors) (tm : Trimesh_lib colors disk) (o3 : Open3d_lib colors).
Context (HAS_OPEN3D HAS_SCIPY : bool).

Lemma outcome_bind_Ok_inv {A B : Type} (o : outcome A) (k : A -> outcome B) (b : B) :
  o ≫= k = Ok b -> exists a, o = Ok a /\ k a = Ok b.
Proof. destruct o as [a|e]; [eauto|discriminate]. Qed.

Lemma max_axis0_nil : Np.max_axis0 [] = Raise
  "zero-size array to reduction operation maximum which has no identity".
Proof. reflexivity. Qed.

(** Property X18.  [precise_poisson_reconstruction] returns a mesh exactly when Open3D is
    installed and every step of the chain returns, each on the result of the
    one before: the point cloud made of the input, the normals estimated with
    the radius of the bounding box, Open3D's reconstruction at the octree
    depth of the level, the density filter on its output, the four cleanup
    calls, the Laplacian filter at the levels "high" and "ultra", and the
    [Trimesh] constructor on the vertices and triangles of the mesh that is
    left, which must have at least one of each; the colours of that mesh, if
    it has some, are put on the result.  Such a run needs a point set that is
    not empty, and its octree depth is 8, 9, 10 or 11 (9 for any level that is
    not one of the four).  In every other case the function returns
    [None]. *)
Theorem poisson_result_conditions (vertices0 : list vec) (colors0 : option colors)
    (smoothing_level : string) (m : trimesh colors) :
  let depth := Py.dict_get depth_map smoothing_level 9%nat in
  (precise_poisson_reconstruction np tm o3 HAS_OPEN3D vertices0 colors0 smoothing_level
     = Some m <->
   HAS_OPEN3D = true /\
   exists (cloud0 cloud : pcd o3) (hi lo : vec) (mesh0 mesh1 mesh2 mesh3 : tmesh o3)
          (densities : list R) (m0 : trimesh colors),
     PointCloud o3 vertices0 colors0 = Ok cloud0 /\
     Np.max_axis0 vertices0 = Ok hi /\
     Np.min_axis0 vertices0 = Ok lo /\
     on cloud0 (estimate_normals o3 (Np.py_max (Np.norm (Np.vsub hi lo) * 0.02) 0.001) 30;;
                normalize_normals o3;;
                orient_normals o3) = Ok cloud /\
     create_from_point_cloud_poisson o3 cloud depth 0 1.1 false = Ok (mesh0, densities) /\
     density_filter o3 mesh0 densities = Ok mesh1 /\
     on mesh1 (remove_duplicated_vertices o3;;
               remove_duplicated_triangles o3;;
               remove_degenerate_triangles o3;;
               o3d_remove_unreferenced_vertices o3) = Ok mesh2 /\
     (if bool_decide (smoothing_level ∈ ["high"; "ultra"])
      then filter_smooth_laplacian o3
             (Py.dict_get smoothing_iterations smoothing_level 1%nat) 0.2 mesh2 = Ok mesh3
      else mesh3 = mesh2) /\
     tmesh_vertices o3 mesh3 <> [] /\
     tmesh_triangles o3 mesh3 <> [] /\
     Trimesh tm (tmesh_vertices o3 mesh3) (Some (tmesh_triangles o3 mesh3)) = Ok m0 /\
     (if has_vertex_colors o3 mesh3
      then exists mx, colors_max np (tmesh_vertex_colors o3 mesh3) = Ok mx /\
             m = set_vertex_colors m0
                   (if Np.Rleb mx 1.0
                    then colors_to_uint8 np (tmesh_vertex_colors o3 mesh3)
                    else tmesh_vertex_colors o3 mesh3)
      else m = m0)) /\
  (precise_poisson_reconstruction np tm o3 HAS_OPEN3D vertices0 colors0 smoothing_level
     = Some m ->
   vertices0 <> [] /\ (8 <= depth <= 11)%nat).
Proof.
  intros depth.
  assert (Hdepth : (8 <= depth <= 11)%nat).
  { unfold depth, Py.dict_get.
    destruct (depth_map !! smoothing_level) as [n|] eqn:Hn; [|lia].
    unfold depth_map in Hn.
    repeat (apply lookup_insert_Some in Hn as [[_ <-]|[_ Hn]]; [lia|]).
    apply lookup_singleton_Some in Hn as [_ <-]. lia. }
  assert (Hto : forall mesh3,
            to_trimesh np tm o3 mesh3 = Ok (Some m) <->
            tmesh_vertices o3 mesh3 <> [] /\ tmesh_triangles o3 mesh3 <> [] /\
            exists m0,
              Trimesh tm (tmesh_vertices o3 mesh3) (Some (tmesh_triangles o3 mesh3)) = Ok m0 /\
              (if has_vertex_colors o3 mesh3
               then exists mx, colors_max np (tmesh_vertex_colors o3 mesh3) = Ok mx /\
                      m = set_vertex_colors m0
                            (if Np.Rleb mx 1.0
                             then colors_to_uint8 np (tmesh_vertex_colors o3 mesh3)
                             else tmesh_vertex_colors o3 mesh3)
               else m = m0)).
  { intros mesh3. unfold to_trimesh. cbv zeta. split.
    - destruct (0 <? length (tmesh_vertices o3 mesh3))%nat eqn:Ev; simpl; [|discriminate].
      destruct (0 <? length (tmesh_triangles o3 mesh3))%nat eqn:Ef; simpl; [|discriminate].
      intros E. apply outcome_bind_Ok_inv in E as (m0 & Em0 & E).
      apply outcome_bind_Ok_inv in E as (m1 & Em1 & E). injection E as <-.
      split; [apply length_pos_nonempty, Ev|]. split; [apply length_pos_nonempty, Ef|].
      exists m0. split; [exact Em0|].
      destruct (has_vertex_colors o3 mesh3).
      + apply outcome_bind_Ok_inv in Em1 as (mx & Emx & Em1). injection Em1 as <-. eauto.
      + injection Em1 as <-. reflexivity.
    - intros (Hv & Hf & m0 & Em0 & Hc).
      assert (Hv' : (0 <? length (tmesh_vertices o3 mesh3))%nat = true)
        by (destruct (tmesh_vertices o3 mesh3); [congruence|reflexivity]).
      assert (Hf' : (0 <? length (tmesh_triangles o3 mesh3))%nat = true)
        by (destruct (tmesh_triangles o3 mesh3); [congruence|reflexivity]).
      rewrite Hv', Hf'. simpl.
      unfold mbind, outcome_bind. unfold face in *. rewrite Em0.
      destruct (has_vertex_colors o3 mesh3).
      + destruct Hc as (mx & -> & ->). reflexivity.
      + rewrite Hc. reflexivity. }
  split.
  - unfold precise_poisson_reconstruction. split.
    + destruct HAS_OPEN3D; cbn [negb]; [|discriminate].
      destruct (poisson_body np tm o3 vertices0 colors0 smoothing_level) as [r|e] eqn:E;
        [|discriminate].
      intros ->. unfold poisson_body in E. cbv zeta in E.
      apply outcome_bind_Ok_inv in E as (cloud0 & Ep & E).
      apply outcome_bind_Ok_inv in E as (hi & Ehi & E).
      apply outcome_bind_Ok_inv in E as (lo & Elo & E).
      apply outcome_bind_Ok_inv in E as (cloud & En & E).
      apply outcome_bind_Ok_inv in E as ([mesh0 densities] & Ec & E).
      apply outcome_bind_Ok_inv in E as (mesh1 & Ed & E).
      apply outcome_bind_Ok_inv in E as (mesh2 & Ek & E).
      apply outcome_bind_Ok_inv in E as (mesh3 & El & E).
      apply Hto in E as (Hv & Hf & m0 & Em0 & Hc).
      split; [reflexivity|].
      exists cloud0, cloud, hi, lo, mesh0, mesh1, mesh2, mesh3, densities, m0.
      repeat (split; [assumption|]).
      split; [|auto].
      destruct (bool_decide (smoothing_level ∈ ["high"; "ultra"])); [exact El|].
      injection El as <-. reflexivity.
    + intros (-> & cloud0 & cloud & hi & lo & mesh0 & mesh1 & mesh2 & mesh3 & densities & m0
              & Ep & Ehi & Elo & En & Ec & Ed & Ek & El & Hv & Hf & Em0 & Hc).
      cbn [negb].
      assert (E : poisson_body np tm o3 vertices0 colors0 smoothing_level = Ok (Some m));
        [|rewrite E; reflexivity].
      unfold poisson_body. cbv zeta. unfold mbind at 1, outcome_bind at 1. rewrite Ep.
      unfold mbind at 1, outcome_bind at 1. rewrite Ehi.
      unfold mbind at 1, outcome_bind at 1. rewrite Elo.
      unfold mbind at 1, outcome_bind at 1. rewrite En.
      unfold mbind at 1, outcome_bind at 1. fold depth. rewrite Ec.
      unfold mbind at 1, outcome_bind at 1. rewrite Ed.
      unfold mbind at 1, outcome_bind at 1. rewrite Ek.
      unfold mbind at 1, outcome_bind at 1.
      assert (El' : (if bool_decide (smoothing_level ∈ ["high"; "ultra"])
                     then filter_smooth_laplacian o3
                            (Py.dict_get smoothing_iterations smoothing_level 1%nat) 0.2 mesh2
                     else Ok mesh2) = Ok mesh3).
      { destruct (bool_decide (smoothing_level ∈ ["high"; "ultra"])); [exact El|].
        rewrite El. reflexivity. }
      rewrite El'. apply Hto. split; [exact Hv|]. split; [exact Hf|]. eauto.
  - intros E. split; [|exact Hdepth].
    unfold precise_poisson_reconstruction in E.
    destruct (negb HAS_OPEN3D); [discriminate|].
    destruct (poisson_body np tm o3 vertices0 colors0 smoothing_level) as [r|e] eqn:Eb;
      [|discriminate].
    unfold poisson_body in Eb. cbv zeta in Eb.
    apply outcome_bind_Ok_inv in Eb as (cloud0 & _ & Eb).
    apply outcome_bind_Ok_inv in Eb as (hi & Ehi & _).
    intros ->. rewrite max_axis0_nil in Ehi. discriminate.
Qed.

Lemma not_smoothed_level (smoothing_level : string) :
  smoothing_level <> "high" -> smoothing_level <> "ultra" ->
  bool_decide (smoothing_level ∈ ["high"; "ultra"]) = false.
Proof.
  intros Hh Hu. apply bool_decide_eq_false. intros Hin.
  apply elem_of_cons in Hin as [->|Hin]; [congruence|].
  apply elem_of_cons in Hin as [->|Hin]; [congruence|].
  apply elem_of_nil in Hin. exact Hin.
Qed.

Ltac o3_fields :=
  cbn [with_laplacian pcd tmesh PointCloud estimate_normals normalize_normals
       orient_normals_consistent_tangent_plane orient_normals_to_align_with_direction
       create_from_point_cloud_poisson remove_vertices_by_mask remove_duplicated_vertices
       remove_duplicated_triangles remove_degenerate_triangles
       o3d_remove_unreferenced_vertices filter_smooth_laplacian tmesh_vertices
       tmesh_triangles has_vertex_colors tmesh_vertex_colors].

Lemma poisson_same_filter (vertices0 : list vec) (colors0 : option colors)
    (filter : nat -> R -> tmesh o3 -> outcome (tmesh o3)) (smoothing_level : string) :
  bool_decide (smoothing_level ∈ ["high"; "ultra"]) = true ->
  (forall mesh,
     filter (Py.dict_get smoothing_iterations smoothing_level 1%nat) 0.2%R mesh
     = filter_smooth_laplacian o3 (Py.dict_get smoothing_iterations smoothing_level 1%nat)
         0.2%R mesh) ->
  precise_poisson_reconstruction np tm (with_laplacian o3 filter) HAS_OPEN3D vertices0
    colors0 smoothing_level
  = precise_poisson_reconstruction np tm o3 HAS_OPEN3D vertices0 colors0 smoothing_level.
Proof.
  intros Hlvl H. unfold precise_poisson_reconstruction.
  destruct (negb HAS_OPEN3D); [reflexivity|].
  assert (E : poisson_body np tm (with_laplacian o3 filter) vertices0 colors0 smoothing_level
              = poisson_body np tm o3 vertices0 colors0 smoothing_level);
    [|rewrite E; reflexivity].
  unfold poisson_body. cbv zeta. rewrite Hlvl.
  change (density_filter (with_laplacian o3 filter)) with (density_filter o3).
  change (orient_normals (with_laplacian o3 filter)) with (orient_normals o3).
  change (to_trimesh np tm (with_laplacian o3 filter)) with (to_trimesh np tm o3).
  o3_fields. unfold mbind, outcome_bind.
  destruct (PointCloud o3 vertices0 colors0) as [cloud|]; [|reflexivity].
  destruct (Np.max_axis0 vertices0) as [hi|]; [|reflexivity].
  destruct (Np.min_axis0 vertices0) as [lo|]; [|reflexivity].
  match goal with |- match ?x with _ => _ end = _ => destruct x as [cloud'|]; [|reflexivity] end.
  match goal with |- match ?x with _ => _ end = _ =>
    destruct x as [[mesh0 densities]|]; [|reflexivity] end.
  destruct (density_filter o3 mesh0 densities) as [mesh1|]; [|reflexivity].
  match goal with |- match ?x with _ => _ end = _ => destruct x as [mesh2|]; [|reflexivity] end.
  rewrite H. reflexivity.
Qed.

(** Property X19.  The Laplacian filter of Open3D takes part in the Poisson
    reconstruction at the levels "high" and "ultra" only, with one and two
    iterations and the factor 0.2: at every other level the result is the
    same whatever the filter does, and at these two levels it is the same for
    any filter that agrees on these arguments. *)
Theorem laplacian_only_for_high_and_ultra (vertices0 : list vec) (colors0 : option colors)
    (filter : nat -> R -> tmesh o3 -> outcome (tmesh o3)) :
  (forall smoothing_level, smoothing_level <> "high" -> smoothing_level <> "ultra" ->
     precise_poisson_reconstruction np tm (with_laplacian o3 filter) HAS_OPEN3D vertices0
       colors0 smoothing_level
     = precise_poisson_reconstruction np tm o3 HAS_OPEN3D vertices0 colors0 smoothing_level) /\
  ((forall mesh, filter 1%nat 0.2%R mesh = filter_smooth_laplacian o3 1%nat 0.2%R mesh) ->
   precise_poisson_reconstruction np tm (with_laplacian o3 filter) HAS_OPEN3D vertices0
     colors0 "high"
   = precise_poisson_reconstruction np tm o3 HAS_OPEN3D vertices0 colors0 "high") /\
  ((forall mesh, filter 2%nat 0.2%R mesh = filter_smooth_laplacian o3 2%nat 0.2%R mesh) ->
   precise_poisson_reconstruction np tm (with_laplacian o3 filter) HAS_OPEN3D vertices0
     colors0 "ultra"
   = precise_poisson_reconstruction np tm o3 HAS_OPEN3D vertices0 colors0 "ultra").
Proof.
  split; [|split].
  - intros lvl Hh Hu. unfold precise_poisson_reconstruction, poisson_body. cbv zeta.
    rewrite (not_smoothed_level lvl Hh Hu). reflexivity.
  - intros H. apply poisson_same_filter; [vm_compute; reflexivity|].
    change (Py.dict_get smoothing_iterations "high" 1%nat) with 1%nat. exact H.
  - intros H. apply poisson_same_filter; [vm_compute; reflexivity|].
    change (Py.dict_get smoothing_iterations "ultra" 1%nat) with 2%nat. exact H.
Qed.

(** Property X20.  What [create_mesh_from_points_basic] returns is the convex hull,
    with or without colours, or the unit box.  Colours whose number differs
    from the number of points are ignored: the result is that for no colours,
    which does not depend on scipy.  A failure while the colours are
    transferred loses the hull as well: the box is returned, as it is when
    the hull cannot be built. *)
Theorem basic_mesh_colour_transfer (points : list vec) :
  (forall c, colors_len np c <> length points ->
     create_mesh_from_points_basic np tm HAS_SCIPY points (Some c)
     = create_mesh_from_points_basic np tm HAS_SCIPY points None) /\
  (forall b, create_mesh_from_points_basic np tm b points None
             = create_mesh_from_points_basic np tm HAS_SCIPY points None) /\
  (forall colors0,
     (forall cloud hull, Trimesh tm points None = Ok cloud -> convex_hull tm cloud <> Ok hull) ->
     create_mesh_from_points_basic np tm HAS_SCIPY points colors0
     = creation_box tm [1; 1; 1]%R) /\
  (forall c cloud hull e,
     Trimesh tm points None = Ok cloud -> convex_hull tm cloud = Ok hull ->
     colors_len np c = length points ->
     (if HAS_SCIPY then kdtree_nearest_colors np points c (vertices hull)
      else argmin_nearest_colors np points c (vertices hull)) = Raise e ->
     create_mesh_from_points_basic np tm HAS_SCIPY points (Some c)
     = creation_box tm [1; 1; 1]%R /\
     create_mesh_from_points_basic np tm HAS_SCIPY points None = hull) /\
  (forall colors0 cloud hull,
     Trimesh tm points None = Ok cloud -> convex_hull tm cloud = Ok hull ->
     let result := create_mesh_from_points_basic np tm HAS_SCIPY points colors0 in
     result = creation_box tm [1; 1; 1]%R \/
     (vertices result = vertices hull /\ faces result = faces hull)).
Proof.
  split; [|split; [|split; [|split]]].
  - intros c Hc. unfold create_mesh_from_points_basic, basic_body, mbind, outcome_bind.
    apply Nat.eqb_neq in Hc. rewrite Hc. reflexivity.
  - intros b. reflexivity.
  - intros colors0 H. unfold create_mesh_from_points_basic, basic_body, mbind, outcome_bind.
    destruct (Trimesh tm points None) as [cloud|e]; [|reflexivity].
    destruct (convex_hull tm cloud) as [hull|e] eqn:Eh; [|reflexivity].
    exfalso. eapply H; eauto.
  - intros c cloud hull e Hc Hh Hlen Hraise.
    unfold create_mesh_from_points_basic, basic_body, mbind, outcome_bind.
    rewrite Hc, Hh. apply Nat.eqb_eq in Hlen. rewrite Hlen. cbv zeta. rewrite Hraise.
    split; reflexivity.
  - intros colors0 cloud hull Hc Hh result. unfold result.
    unfold create_mesh_from_points_basic, basic_body, mbind, outcome_bind.
    rewrite Hc, Hh. destruct colors0 as [c|]; [|right; split; reflexivity].
    destruct (colors_len np c =? length points)%nat; [|right; split; reflexivity].
    cbv zeta. destruct (if HAS_SCIPY then _ else _) as [mc|e]; [|left; reflexivity].
    destruct (colors_max np mc) as [mx|e]; [|left; reflexivity].
    right. split; reflexivity.
Qed.

End poisson_theorems.

(** ** The density filter *)

Section density_theorems.
Local Open Scope R_scope.

Lemma fold_left_Rmin_le (rest : list R) :
  forall d0 x, x ∈ d0 :: rest -> fold_left Rmin rest d0 <= x.
Proof.
  induction rest as [|d1 rest IH]; intros d0 x Hin; simpl.
  - apply list_elem_of_singleton in Hin. subst. lra.
  - apply elem_of_cons in Hin. destruct Hin as [->|Hin].
    + etransitivity; [apply IH; left|]. apply Rmin_l.
    + apply elem_of_cons in Hin. destruct Hin as [->|Hin].
      * etransitivity; [apply IH; left|]. apply Rmin_r.
      * apply IH. right. exact Hin.
Qed.

Lemma fold_left_Rmin_in (rest : list R) :
  forall d0, fold_left Rmin rest d0 ∈ d0 :: rest.
Proof.
  induction rest as [|d1 rest IH]; intros d0; simpl; [left|].
  specialize (IH (Rmin d0 d1)). apply elem_of_cons in IH. destruct IH as [->|IH].
  - unfold Rmin. destruct (Rle_dec d0 d1); [left|right; left].
  - right. right. exact IH.
Qed.

Lemma count_true_pos (mask : list bool) (i : nat) :
  mask !! i = Some true -> (0 < Np.count_true mask)%nat.
Proof.
  intros H. unfold Np.count_true.
  assert (Hin : true ∈ filter (fun b : bool => b = true) mask).
  { apply list_elem_of_filter. split; [reflexivity|]. eapply list_elem_of_lookup_2, H. }
  destruct (filter _ mask); [apply elem_of_nil in Hin; contradiction|simpl; lia].
Qed.

(** Property X21.  The density filter of the Poisson reconstruction removes vertices
    exactly when the threshold exceeds the minimum density.  Then every
    vertex that has the minimum density is marked, so at least one vertex is,
    and the mask is handed to [remove_vertices_by_mask].  When the threshold
    does not exceed the minimum, no vertex is marked and the mesh is returned
    as it is, without a call to Open3D. *)
Theorem density_filter_removes_minimum (d0 : R) (rest : list R) :
  let densities := d0 :: rest in
  exists min_density thresh : R,
    Np.min densities = Ok min_density /\
    density_threshold densities = Ok thresh /\
    min_density ∈ densities /\
    (forall x, x ∈ densities -> min_density <= x) /\
    (min_density < thresh ->
     (forall i, densities !! i = Some min_density ->
        vertices_to_remove densities thresh !! i = Some true) /\
     (0 < Np.count_true (vertices_to_remove densities thresh))%nat /\
     (forall (colors : Type) (o3 : Open3d_lib colors) (mesh : tmesh o3),
        density_filter o3 mesh densities =
          on mesh (remove_vertices_by_mask o3 (vertices_to_remove densities thresh)))) /\
    (thresh <= min_density ->
     vertices_to_remove densities thresh = map (fun _ => false) densities /\
     Np.count_true (vertices_to_remove densities thresh) = 0%nat /\
     (forall (colors : Type) (o3 : Open3d_lib colors) (mesh : tmesh o3),
        density_filter o3 mesh densities = Ok mesh)).
Proof.
  intros densities.
  exists (fold_left Rmin rest d0).
  exists (Np.py_max (Np.mean densities - 2 * Np.std densities)
            (fold_left Rmin rest d0 * 1.1)).
  set (m := fold_left Rmin rest d0).
  set (t := Np.py_max _ _).
  split; [reflexivity|]. split; [reflexivity|].
  split; [apply fold_left_Rmin_in|]. split; [apply fold_left_Rmin_le|].
  split.
  - intros Ht.
    assert (Hmask : forall i, densities !! i = Some m ->
              vertices_to_remove densities t !! i = Some true).
    { intros i Hi. unfold vertices_to_remove. rewrite list_lookup_fmap, Hi. simpl.
      f_equal. apply Rltb_true, Ht. }
    assert (Hcount : (0 < Np.count_true (vertices_to_remove densities t))%nat).
    { pose proof (fold_left_Rmin_in rest d0) as Hin. fold m in Hin.
      apply list_elem_of_lookup_1 in Hin as [i Hi].
      eapply count_true_pos, Hmask, Hi. }
    split; [exact Hmask|]. split; [exact Hcount|].
    intros colors o3 mesh. unfold density_filter.
    change (0 <? length densities)%nat with true. cbv iota.
    change (density_threshold densities) with (Ok t). unfold mbind, outcome_bind.
    cbv zeta. apply Nat.ltb_lt in Hcount. rewrite Hcount. reflexivity.
  - intros Ht.
    assert (Hmask : vertices_to_remove densities t = map (fun _ => false) densities).
    { unfold vertices_to_remove. apply map_ext_in. intros x Hx.
      apply list_elem_of_In in Hx. apply Rltb_false.
      pose proof (fold_left_Rmin_le rest d0 x Hx) as Hle. fold m in Hle. lra. }
    assert (Hcount : Np.count_true (vertices_to_remove densities t) = 0%nat).
    { rewrite Hmask. unfold Np.count_true. generalize densities.
      intros l. induction l as [|x l IH]; [reflexivity|exact IH]. }
    split; [exact Hmask|]. split; [exact Hcount|].
    intros colors o3 mesh. unfold density_filter.
    change (0 <? length densities)%nat with true. cbv iota.
    change (density_threshold densities) with (Ok t). unfold mbind, outcome_bind.
    cbv zeta. rewrite Hcount. reflexivity.
Qed.

End density_theorems.

(** ** The outward ratio *)

Section ratio_theorems.
Local Open Scope R_scope.

Lemma count_true_le (mask : list bool) : (Np.count_true mask <= length mask)%nat.
Proof. unfold Np.count_true. apply length_filter. Qed.

Lemma count_true_all (l : list R) :
  Forall (fun d => 0 < d) l ->
  Np.count_true (map (fun d => Np.Rltb 0 d) l) = length l.
Proof.
  unfold Np.count_true. induction 1 as [|d l Hd _ IH]; [reflexivity|].
  simpl map. apply Rltb_true in Hd. rewrite Hd.
  rewrite filter_cons_True by reflexivity. simpl. rewrite IH. reflexivity.
Qed.

Lemma count_true_none (l : list R) :
  Forall (fun d => d <= 0) l ->
  Np.count_true (map (fun d => Np.Rltb 0 d) l) = 0%nat.
Proof.
  unfold Np.count_true. induction 1 as [|d l Hd _ IH]; [reflexivity|].
  simpl map. apply Rltb_false in Hd. rewrite Hd.
  rewrite filter_cons_False by discriminate. exact IH.
Qed.

(** Property X22.  The outward ratio is the fraction of the dot products that are
    positive: a number between 0 and 1, which is 0 for no faces, 1 when every
    dot product is positive and 0 when none is.  The test [outward_ratio <
    0.6] of the double-siding decision holds exactly when fewer than three in
    five faces point outward. *)
Theorem outward_ratio_spec (dps : list R) :
  let outward := Np.count_true (map (fun d => Np.Rltb 0 d) dps) in
  (outward <= length dps)%nat /\
  0 <= outward_ratio dps <= 1 /\
  (dps = [] -> outward_ratio dps = 0) /\
  (dps <> [] -> outward_ratio dps = INR outward / INR (length dps)) /\
  (dps <> [] -> (outward_ratio dps < 0.6 <-> (5 * outward < 3 * length dps)%nat)) /\
  (dps <> [] -> Forall (fun d => 0 < d) dps -> outward_ratio dps = 1) /\
  (Forall (fun d => d <= 0) dps -> outward_ratio dps = 0).
Proof.
  cbv zeta. remember (Np.count_true (map (fun d => Np.Rltb 0 d) dps)) as outward eqn:Ho.
  assert (Hle : (outward <= length dps)%nat).
  { subst outward. etransitivity; [apply count_true_le|]. rewrite length_map. lia. }
  assert (Hne : dps <> [] -> outward_ratio dps = INR outward / INR (length dps)).
  { intros H. unfold outward_ratio. cbv zeta. rewrite <- Ho.
    destruct dps; [congruence|]. reflexivity. }
  assert (Hnil : dps = [] -> outward_ratio dps = 0).
  { intros ->. reflexivity. }
  assert (Hpos : dps <> [] -> 0 < INR (length dps)).
  { intros H. apply lt_0_INR. destruct dps; [congruence|simpl; lia]. }
  split; [exact Hle|]. split; [|split; [exact Hnil|split; [exact Hne|split; [|split]]]].
  - destruct (decide (dps = [])) as [Hd|Hd]; [rewrite (Hnil Hd); lra|].
    rewrite (Hne Hd). specialize (Hpos Hd).
    pose proof (pos_INR outward) as H0. apply le_INR in Hle.
    split.
    + apply Rmult_le_pos; [exact H0|]. left. apply Rinv_0_lt_compat, Hpos.
    + apply Rmult_le_reg_r with (r := INR (length dps)); [exact Hpos|].
      unfold Rdiv. rewrite Rmult_assoc, Rinv_l by lra. lra.
  - intros Hd. rewrite (Hne Hd). specialize (Hpos Hd). split.
    + intros H. apply INR_lt. rewrite !mult_INR. simpl INR.
      apply Rmult_lt_compat_r with (r := INR (length dps)) in H; [|exact Hpos].
      unfold Rdiv in H. rewrite Rmult_assoc, Rinv_l in H by lra. lra.
    + intros H. apply lt_INR in H. rewrite !mult_INR in H. simpl INR in H.
      apply Rmult_lt_reg_r with (r := INR (length dps)); [exact Hpos|].
      unfold Rdiv. rewrite Rmult_assoc, Rinv_l by lra. lra.
  - intros Hd Hall. rewrite (Hne Hd), Ho, (count_true_all dps Hall).
    specialize (Hpos Hd). unfold Rdiv. rewrite Rinv_r by lra. reflexivity.
  - intros Hall. destruct (decide (dps = [])) as [Hd|Hd]; [exact (Hnil Hd)|].
    rewrite (Hne Hd), Ho, (count_true_none dps Hall). simpl. lra.
Qed.

End ratio_theorems.

(** ** Failures inside the orientation check *)

Section orientation_failures.
Context {colors disk : Type} (tm : Trimesh_lib colors disk).

Lemma corners_out_of_range (vs : list vec) (f : face) :
  (length vs <= f.1.1 \/ length vs <= f.1.2 \/ length vs <= f.2)%nat ->
  Np.corners vs f = Raise "index is out of bounds".
Proof.
  intros H. unfold Np.corners.
  destruct (vs !! f.1.1) as [a|] eqn:Ea; [|reflexivity].
  destruct (vs !! f.1.2) as [b|] eqn:Eb; [|reflexivity].
  destruct (vs !! f.2) as [c|] eqn:Ec; [|reflexivity].
  apply lookup_lt_Some in Ea, Eb, Ec. lia.
Qed.

Lemma corners_raise (vs : list vec) (f : face) (e : string) :
  Np.corners vs f = Raise e -> e = "index is out of bounds".
Proof.
  unfold Np.corners.
  destruct (vs !! f.1.1); [|congruence].
  destruct (vs !! f.1.2); [|congruence].
  destruct (vs !! f.2); congruence.
Qed.

Lemma take_faces_out_of_range (vs : list vec) (fs : list face) (f : face) :
  f ∈ fs ->
  (length vs <= f.1.1 \/ length vs <= f.1.2 \/ length vs <= f.2)%nat ->
  Np.take_faces vs fs = Raise "index is out of bounds".
Proof.
  intros Hin Hf. induction fs as [|f0 fs IH]; [apply elem_of_nil in Hin; contradiction|].
  simpl. unfold mbind, outcome_bind.
  apply elem_of_cons in Hin. destruct Hin as [<-|Hin].
  - rewrite corners_out_of_range by exact Hf. reflexivity.
  - destruct (Np.corners vs f0) as [t|e] eqn:Ec.
    + rewrite (IH Hin). reflexivity.
    + apply corners_raise in Ec. congruence.
Qed.

(** Property X23.  A failure inside the orientation check is swallowed: when the face
    normals cannot be had or are empty, when the dot products cannot be
    computed, or when the double-sided mesh cannot be built, the function
    returns the mesh object after the standard cleanup, nothing doubled.  The
    dot products cannot be computed, in particular, as soon as one face
    refers to a vertex that is not there. *)
Theorem orientation_check_failure_is_swallowed (mesh : trimesh colors) :
  let m2 := prepared tm mesh in
  let fallback := ((cleanup tm m2).1, Ok (cleanup tm m2).1) in
  (forall e, face_normals tm m2 = Raise e ->
     fix_face_orientation_and_normals tm mesh = fallback) /\
  (face_normals tm m2 = Ok [] ->
     fix_face_orientation_and_normals tm mesh = fallback) /\
  (forall ns e, face_normals tm m2 = Ok ns ->
     dot_products (vertices m2) (faces m2) ns = Raise e ->
     fix_face_orientation_and_normals tm mesh = fallback) /\
  (forall ns dps e, face_normals tm m2 = Ok ns ->
     dot_products (vertices m2) (faces m2) ns = Ok dps ->
     make_double_sided tm m2 (vertices m2) (faces m2) = Raise e ->
     fix_face_orientation_and_normals tm mesh = fallback) /\
  (forall f ns, f ∈ faces m2 ->
     (length (vertices m2) <= f.1.1 \/ length (vertices m2) <= f.1.2 \/
      length (vertices m2) <= f.2)%nat ->
     dot_products (vertices m2) (faces m2) ns = Raise "index is out of bounds").
Proof.
  intros m2 fallback.
  assert (Hfix : forall r,
            (step3 tm m2).2 = r ->
            fix_face_orientation_and_normals tm mesh =
              match r with
              | Ok (Some d) => (m2, Ok d)
              | _ => fallback
              end).
  { intros r Hr. rewrite fix_unfold. cbv zeta. fold m2. unfold try_except.
    rewrite step3_unfold in *. cbn [snd] in Hr. rewrite Hr. unfold fallback.
    destruct r as [[d|]|e]; try reflexivity;
      cbn; destruct (cleanup tm m2) as [m4 r4]; reflexivity. }
  split; [|split; [|split; [|split]]].
  - intros e He. rewrite (Hfix (Raise e)); [reflexivity|].
    rewrite step3_unfold. cbn [snd]. rewrite He. reflexivity.
  - intros He. rewrite (Hfix (Ok None)); [reflexivity|].
    rewrite step3_unfold. cbn [snd]. rewrite He. reflexivity.
  - intros ns e Hn Hd.
    destruct (0 <? length ns)%nat eqn:Hl.
    + rewrite (Hfix (Raise e)); [reflexivity|].
      rewrite step3_unfold. cbn [snd]. rewrite Hn, Hl, Hd. reflexivity.
    + rewrite (Hfix (Ok None)); [reflexivity|].
      rewrite step3_unfold. cbn [snd]. rewrite Hn, Hl. reflexivity.
  - intros ns dps e Hn Hd Hm.
    destruct (0 <? length ns)%nat eqn:Hl.
    + destruct (Np.Rltb (outward_ratio dps) 0.6) eqn:Hr.
      * rewrite (Hfix (Raise e)); [reflexivity|].
        rewrite step3_unfold. cbn [snd]. rewrite Hn, Hl, Hd, Hr, Hm. reflexivity.
      * rewrite (Hfix (Ok None)); [reflexivity|].
        rewrite step3_unfold. cbn [snd]. rewrite Hn, Hl, Hd, Hr. reflexivity.
    + rewrite (Hfix (Ok None)); [reflexivity|].
      rewrite step3_unfold. cbn [snd]. rewrite Hn, Hl. reflexivity.
  - intros f ns Hin Hf. unfold dot_products. cbv zeta.
    rewrite (take_faces_out_of_range _ _ f Hin Hf). reflexivity.
Qed.

End orientation_failures.

(** ** The theorems at work on the concrete installation *)

Lemma demo_notify_never_raises : never_raises (Some Demo.notify).
Proof.
  intros msg p w. unfold Demo.notify, progress_callback, mbind, M_bind, get.
  destruct (conversion_progress w !! "j1"); reflexivity.
Defined.

Lemma demo_notify_keeps_history : keeps_history (Some Demo.notify).
Proof.
  intros msg p w. unfold Demo.notify, progress_callback, mbind, M_bind, get.
  destruct (conversion_progress w !! "j1"); reflexivity.
Defined.



(** Claim C6 as stated fails: a job whose file cannot be parsed makes the
    calls 5, 10, 15, 20, 5, 0, and ends with the status "error" and the
    percentage 0. *)
Lemma progress_drops :
  let run := convert_file_async_debug Demo.np Demo.tm Demo.o3 Demo.os
               Demo.HAS_OPEN3D Demo.HAS_SCIPY "j1" "uploads/other.ply" ["stl"] "medium"
               (Demo.started "uploads/other.ply" ["stl"]) in
  Demo.percentages run.1 = [5; 10; 15; 20; 5; 0]%Z /\
  ~ nondecreasing (Demo.percentages run.1) /\
  e_status <$> conversion_progress run.1 !! "j1" = Some "error" /\
  e_progress <$> conversion_progress run.1 !! "j1" = Some 0%Z.
Proof.
  intros run.
  assert (H : Demo.percentages run.1 = [5; 10; 15; 20; 5; 0]%Z) by (vm_compute; reflexivity).
  split; [exact H|]. split; [|split; vm_compute; reflexivity].
  rewrite H. intros Hn.
  specialize (Hn 3%nat 4%nat 20%Z 5%Z ltac:(lia) eq_refl eq_refl). lia.
Qed.

(** A conversion of the triangle file that succeeds, and one that fails. *)
Lemma convert_ply_progress_witness :
  let run := convert_ply Demo.np Demo.tm Demo.o3 Demo.os Demo.HAS_OPEN3D Demo.HAS_SCIPY
               "uploads/tri.ply" "outputs" ["stl"; "badfmt"; "obj"] "j1"
               (Some Demo.notify) "medium" (Demo.started "uploads/tri.ply" ["stl"]) in
  keeps_history (Some Demo.notify) /\
  exists body : list (string * Z),
    nondecreasing (map snd body) /\
    calls run.1 = calls (Demo.started "uploads/tri.ply" ["stl"]) ++ body /\
    exists l, body = l ++ [completed].
Proof.
  intros run. split; [exact demo_notify_keeps_history|].
  destruct (convert_ply_progress Demo.np Demo.tm Demo.o3 Demo.os Demo.HAS_OPEN3D
              Demo.HAS_SCIPY (Some Demo.notify) "uploads/tri.ply" "outputs"
              ["stl"; "badfmt"; "obj"] "j1" "medium"
              (Demo.started "uploads/tri.ply" ["stl"]) run.1 run.2
              demo_notify_keeps_history (surjective_pairing run))
    as [(body & Hs & _ & Hr) _].
  assert (E : exists res, run.2 = Ok res) by (vm_compute; eauto).
  destruct E as [res E]. rewrite E in Hr. destruct Hr as [Hc Hl].
  exists body. split; [exact Hs|]. split; [exact Hc|]. apply Hl. discriminate.
Defined.

(** The export of the cube to STL and to an unknown format. *)
Lemma export_skips_failures_witness :
  never_raises (Some Demo.notify) /\
  (forall d, (makedirs Demo.os "outputs" d).2 = Ok tt) /\
  export_always_returns Demo.tm Demo.unit_cube "outputs" "j1" "stl" /\
  exists w' res,
    export_stage Demo.tm Demo.os (Some Demo.notify) Demo.unit_cube "outputs"
      ["stl"; "badfmt"] "j1" (Demo.started "uploads/tri.ply" ["stl"]) = (w', Ok res) /\
    res !! "stl" = Some "outputs/j1_smooth.stl".
Proof.
  assert (Hm : forall d, (makedirs Demo.os "outputs" d).2 = Ok tt) by reflexivity.
  assert (Hr : export_always_returns Demo.tm Demo.unit_cube "outputs" "j1" "stl").
  { intros d. vm_compute. reflexivity. }
  split; [exact demo_notify_never_raises|]. split; [exact Hm|]. split; [exact Hr|].
  destruct (export_skips_failures Demo.tm Demo.os (Some Demo.notify) Demo.unit_cube
              "outputs" "j1" ["stl"; "badfmt"] (Demo.started "uploads/tri.ply" ["stl"])
              demo_notify_never_raises Hm)
    as (_ & [w' [[_ Hnone]|(res & E & _ & _ & Hall)]] & _).
  - exfalso. apply (Hnone "stl"); [left|exact Hr].
  - exists w', res. split; [exact E|]. apply Hall; [left|exact Hr].
Defined.

Lemma demo_has_geometry_unit_cube : has_geometry Demo.unit_cube.
Proof. split; discriminate. Defined.

(** The four coplanar points: the hull fails and the box is handed on. *)
Lemma reconstruction_yields_geometry_witness :
  (forall (v : list vec) (f : list face) (m : trimesh Demo.colors),
     Trimesh Demo.tm v (Some f) = Ok m -> v <> [] -> f <> [] -> has_geometry m) /\
  (forall m h : trimesh Demo.colors, convex_hull Demo.tm m = Ok h -> has_geometry h) /\
  (forall extents : list R, has_geometry (creation_box Demo.tm extents)) /\
  has_geometry (reconstructed Demo.np Demo.tm Demo.o3 Demo.HAS_OPEN3D Demo.HAS_SCIPY
                  Demo.cloud_points None "medium") /\
  never_raises (disk := Demo.disk) None /\
  exists w',
    reconstruct Demo.np Demo.tm Demo.o3 Demo.HAS_OPEN3D Demo.HAS_SCIPY None
      Demo.cloud_points None "medium" Demo.idle
    = (w', Ok (reconstructed Demo.np Demo.tm Demo.o3 Demo.HAS_OPEN3D Demo.HAS_SCIPY
                 Demo.cloud_points None "medium")).
Proof.
  assert (H1 : forall (v : list vec) (f : list face) (m : trimesh Demo.colors),
             Trimesh Demo.tm v (Some f) = Ok m -> v <> [] -> f <> [] -> has_geometry m).
  { intros v f m [= <-] Hv Hf. split; assumption. }
  assert (H2 : forall m h : trimesh Demo.colors,
             convex_hull Demo.tm m = Ok h -> has_geometry h).
  { intros m h H. discriminate H. }
  assert (H3 : forall extents : list R, has_geometry (creation_box Demo.tm extents)).
  { intros extents. exact demo_has_geometry_unit_cube. }
  split; [exact H1|]. split; [exact H2|]. split; [exact H3|].
  destruct (reconstruction_yields_geometry Demo.np Demo.tm Demo.o3 Demo.HAS_OPEN3D
              Demo.HAS_SCIPY None Demo.cloud_points None "medium" Demo.idle H1 H2 H3)
    as (Hg & _ & Hret).
  split; [exact Hg|]. split; [exact I|]. exact (Hret I).
Defined.

(** Five smoothing passes at level ultra; none without the capability. *)
Lemma smoothing_stage_spec_witness :
  has_smoothed Demo.tm_plain Demo.triangle = false /\
  smooth_mesh_basic Demo.tm_plain Demo.triangle "ultra" = Demo.triangle /\
  (forall m, has_smoothed Demo.tm m = true) /\
  (forall m, smoothed Demo.tm m = Ok (Datatypes.id m)) /\
  smooth_mesh_basic Demo.tm Demo.triangle "ultra"
    = Nat.iter (Py.dict_get iterations_map "ultra" 2%nat) Datatypes.id Demo.triangle.
Proof.
  assert (H1 : has_smoothed Demo.tm_plain Demo.triangle = false) by reflexivity.
  assert (H2 : forall m, has_smoothed Demo.tm m = true) by reflexivity.
  assert (H3 : forall m, smoothed Demo.tm m = Ok (Datatypes.id m)) by reflexivity.
  destruct (smoothing_stage_spec Demo.np Demo.tm_plain Demo.o3 Demo.HAS_OPEN3D
              Demo.HAS_SCIPY Demo.triangle "ultra") as (_ & _ & _ & Hplain & _ & _).
  destruct (smoothing_stage_spec Demo.np Demo.tm Demo.o3 Demo.HAS_OPEN3D
              Demo.HAS_SCIPY Demo.triangle "ultra") as (_ & _ & _ & _ & Hiter & _).
  split; [exact H1|]. split; [exact (Hplain H1)|].
  split; [exact H2|]. split; [exact H3|]. exact (Hiter Datatypes.id H2 H3).
Defined.

(** The level "extreme" is not one of the four. *)
Lemma unknown_level_is_medium_witness :
  ("extreme" ∉ SMOOTHING_LEVELS) /\
  Py.dict_get depth_map "extreme" 9%nat = 9%nat /\
  smooth_mesh_basic Demo.tm Demo.triangle "extreme"
    = smooth_mesh_basic Demo.tm Demo.triangle "medium".
Proof.
  assert (H : "extreme" ∉ SMOOTHING_LEVELS).
  { apply (bool_decide_unpack _). vm_compute. exact I. }
  split; [exact H|].
  destruct (unknown_level_is_medium Demo.np Demo.tm Demo.o3 Demo.HAS_OPEN3D "extreme"
              Demo.cloud_points None Demo.triangle H) as (Hd & _ & _ & _ & _ & Hs).
  split; [exact Hd|exact Hs].
Defined.

(** The face list of one triangle, doubled. *)
Lemma double_sided_faces_spec_witness :
  [(0, 1, 2)%nat] !! 0%nat = Some (0, 1, 2)%nat /\
  double_sided_faces [(0, 1, 2)%nat] !! 0%nat = Some (0, 1, 2)%nat /\
  double_sided_faces [(0, 1, 2)%nat] !! 1%nat = Some (0, 2, 1)%nat /\
  Trimesh Demo.tm Demo.triangle_points (Some (double_sided_faces [(0, 1, 2)%nat]))
    = Ok (Mesh Demo.triangle_points [(0, 1, 2); (0, 2, 1)]%nat None) /\
  make_double_sided Demo.tm Demo.triangle Demo.triangle_points [(0, 1, 2)%nat]
    = Ok (Mesh Demo.triangle_points [(0, 1, 2); (0, 2, 1)]%nat None).
Proof.
  assert (H0 : [(0, 1, 2)%nat] !! 0%nat = Some (0, 1, 2)%nat) by reflexivity.
  assert (Ht : Trimesh Demo.tm Demo.triangle_points
                 (Some (double_sided_faces [(0, 1, 2)%nat]))
               = Ok (Mesh Demo.triangle_points [(0, 1, 2); (0, 2, 1)]%nat None))
    by reflexivity.
  destruct (double_sided_faces_spec Demo.tm [(0, 1, 2)%nat]) as (_ & Hi & _ & Hm & _).
  destruct (Hi 0%nat 0%nat 1%nat 2%nat H0) as [Ha Hb].
  split; [exact H0|]. split; [exact Ha|]. split; [exact Hb|]. split; [exact Ht|].
  rewrite (Hm Demo.triangle _ Demo.triangle_points Ht). reflexivity.
Defined.








(** ** The further theorems at work on the concrete installation *)

Lemma demo_remove_removes (p : string) (d : Demo.disk) :
  path_exists Demo.os p d = true -> path_exists Demo.os p (os_remove Demo.os p d).1 = false.
Proof.
  intros _. apply bool_decide_eq_false. simpl. intros Hin.
  apply list_elem_of_filter in Hin as [Hne _]. congruence.
Defined.

Lemma demo_remove_keeps_others (p q : string) (d : Demo.disk) :
  q <> p -> path_exists Demo.os q (os_remove Demo.os p d).1 = path_exists Demo.os q d.
Proof.
  intros Hne. simpl. apply bool_decide_ext. rewrite list_elem_of_filter. tauto.
Defined.

(** The job of the triangle file, with a format that cannot be exported. *)
Lemma job_final_status_witness :
  conversion_progress (Demo.started "uploads/tri.ply" ["stl"; "badfmt"]) !! "j1"
    = Some (Demo.entry0 ["stl"; "badfmt"]) /\
  exists (w' : world Demo.disk) (en' : entry),
    convert_file_async_debug Demo.np Demo.tm Demo.o3 Demo.os Demo.HAS_OPEN3D Demo.HAS_SCIPY
      "j1" "uploads/tri.ply" ["stl"; "badfmt"] "medium"
      (Demo.started "uploads/tri.ply" ["stl"; "badfmt"]) = (w', Ok tt) /\
    conversion_progress w' !! "j1" = Some en' /\
    ((e_status en' = "completed" /\ e_progress en' = 100%Z /\
      exists verified,
        conversion_results w'
          = <["j1" := verified]>
              (conversion_results (Demo.started "uploads/tri.ply" ["stl"; "badfmt"])) /\
        results_of OUTPUT_FOLDER "j1" ["stl"; "badfmt"] verified /\
        e_message en' = ("Conversion completed! " ++ pretty (size verified)
                         ++ " files created.")%string) \/
     (e_status en' = "error" /\
      conversion_results w'
        = conversion_results (Demo.started "uploads/tri.ply" ["stl"; "badfmt"]) /\
      exists e, e_message en' = ("Conversion failed: " ++ e)%string)).
Proof.
  assert (H : conversion_progress (Demo.started "uploads/tri.ply" ["stl"; "badfmt"]) !! "j1"
              = Some (Demo.entry0 ["stl"; "badfmt"])) by reflexivity.
  split; [exact H|].
  exact (job_final_status Demo.np Demo.tm Demo.o3 Demo.os Demo.HAS_OPEN3D Demo.HAS_SCIPY
           "j1" "uploads/tri.ply" ["stl"; "badfmt"] "medium" _ _ H).
Defined.

(** The upload of the triangle file is gone after its job. *)
Lemma job_removes_input_witness :
  (forall d, path_exists Demo.os "uploads/tri.ply" d = true ->
     path_exists Demo.os "uploads/tri.ply" (os_remove Demo.os "uploads/tri.ply" d).1 = false) /\
  path_exists Demo.os "uploads/tri.ply"
    (files (convert_file_async_debug Demo.np Demo.tm Demo.o3 Demo.os Demo.HAS_OPEN3D
              Demo.HAS_SCIPY "j1" "uploads/tri.ply" ["stl"] "medium"
              (Demo.started "uploads/tri.ply" ["stl"])).1) = false.
Proof.
  split; [exact (demo_remove_removes "uploads/tri.ply")|].
  exact (job_removes_input Demo.np Demo.tm Demo.o3 Demo.os Demo.HAS_OPEN3D Demo.HAS_SCIPY
           "j1" "uploads/tri.ply" ["stl"] "medium" _ (demo_remove_removes "uploads/tri.ply")).
Defined.

(** A job whose upload has disappeared. *)
Lemma job_fails_early_witness :
  conversion_progress (Demo.started "uploads/tri.ply" ["stl"]) !! "j1"
    = Some (Demo.entry0 ["stl"]) /\
  import_PLYConverter Demo.os = Ok tt /\
  path_exists Demo.os "uploads/gone.ply" (files (Demo.started "uploads/tri.ply" ["stl"]))
    = false /\
  convert_file_async_debug Demo.np Demo.tm Demo.o3 Demo.os Demo.HAS_OPEN3D Demo.HAS_SCIPY
    "j1" "uploads/gone.ply" ["stl"] "medium" (Demo.started "uploads/tri.ply" ["stl"]) =
    (World (files (Demo.started "uploads/tri.ply" ["stl"]))
       (<["j1" := Entry "error" 15
                    "Conversion failed: Input file not found: uploads/gone.ply"
                    "in.ply" ["stl"] "medium" 0]>
          (conversion_progress (Demo.started "uploads/tri.ply" ["stl"])))
       ∅ []
       [("Loading PLY converter...", 5%Z); ("Creating converter instance...", 10%Z);
        ("Checking input file...", 15%Z)], Ok tt).
Proof.
  assert (H : conversion_progress (Demo.started "uploads/tri.ply" ["stl"]) !! "j1"
              = Some (Demo.entry0 ["stl"])) by reflexivity.
  assert (Hi : import_PLYConverter Demo.os = Ok tt) by reflexivity.
  assert (Hx : path_exists Demo.os "uploads/gone.ply"
                 (files (Demo.started "uploads/tri.ply" ["stl"])) = false)
    by (vm_compute; reflexivity).
  split; [exact H|]. split; [exact Hi|]. split; [exact Hx|].
  exact (proj1 (job_fails_early Demo.np Demo.tm Demo.o3 Demo.os Demo.HAS_OPEN3D
                  Demo.HAS_SCIPY "j1" "uploads/gone.ply" ["stl"] "medium" _ _ H) Hi Hx).
Defined.

(** The conversion of the triangle file to STL, an unknown format and OBJ. *)
Lemma convert_ply_returns_requested_files_witness :
  let run := convert_ply Demo.np Demo.tm Demo.o3 Demo.os Demo.HAS_OPEN3D Demo.HAS_SCIPY
               "uploads/tri.ply" "outputs" ["stl"; "badfmt"; "obj"] "j1"
               (Some Demo.notify) "medium" (Demo.started "uploads/tri.ply" ["stl"]) in
  exists res,
    run = (run.1, Ok res) /\
    res <> ∅ /\
    (forall fmt, is_Some (res !! fmt) -> fmt ∈ ["stl"; "badfmt"; "obj"]) /\
    (size res <= 3)%nat.
Proof.
  intros run.
  assert (E : exists res, run.2 = Ok res) by (vm_compute; eauto).
  destruct E as [res E]. exists res.
  assert (E' : run = (run.1, Ok res)).
  { rewrite <- E. apply surjective_pairing. }
  split; [exact E'|].
  destruct (convert_ply_returns_requested_files Demo.np Demo.tm Demo.o3 Demo.os
              Demo.HAS_OPEN3D Demo.HAS_SCIPY (Some Demo.notify) "uploads/tri.ply" "outputs"
              ["stl"; "badfmt"; "obj"] "j1" "medium" _ _ _ E') as (H1 & H2 & H3 & _).
  split; [exact H1|]. split; [exact H2|exact H3].
Defined.

(** The conversion of a file that is no PLY file. *)
Lemma convert_ply_failure_causes_witness :
  let run := convert_ply Demo.np Demo.tm Demo.o3 Demo.os Demo.HAS_OPEN3D Demo.HAS_SCIPY
               "uploads/other.ply" "outputs" ["stl"] "j1"
               (Some Demo.notify) "medium" (Demo.started "uploads/other.ply" ["stl"]) in
  never_raises (Some Demo.notify) /\
  (forall d, (makedirs Demo.os "outputs" d).2 = Ok tt) /\
  run.2 = Raise "Conversion failed: Failed to load PLY file: not a PLY file" /\
  exists e0 : string,
    "Conversion failed: Failed to load PLY file: not a PLY file"
      = ("Conversion failed: " ++ e0)%string /\
    ((exists d, load_ply_file Demo.np Demo.tm "uploads/other.ply" d = Raise e0) \/
     (exists d ply,
        load_ply_file Demo.np Demo.tm "uploads/other.ply" d = Ok ply /\
        is_point_cloud ply = false /\
        (Trimesh Demo.tm (pd_vertices ply) (pd_faces ply) = Raise e0 \/
         exists c, pd_colors ply = Some c /\ colors_max Demo.np c = Raise e0)) \/
     e0 = "No files were successfully exported").
Proof.
  intros run.
  assert (Hm : forall d, (makedirs Demo.os "outputs" d).2 = Ok tt) by reflexivity.
  assert (E : run.2 = Raise "Conversion failed: Failed to load PLY file: not a PLY file")
    by (vm_compute; reflexivity).
  assert (E' : run = (run.1, Raise "Conversion failed: Failed to load PLY file: not a PLY file")).
  { rewrite <- E. apply surjective_pairing. }
  split; [exact demo_notify_never_raises|]. split; [exact Hm|]. split; [exact E|].
  exact (convert_ply_failure_causes Demo.np Demo.tm Demo.o3 Demo.os Demo.HAS_OPEN3D
           Demo.HAS_SCIPY (Some Demo.notify) "uploads/other.ply" "outputs" ["stl"] "j1"
           "medium" _ _ _ demo_notify_never_raises Hm E').
Defined.

(** The four points of the cloud file, converted to STL. *)
Lemma point_cloud_conversion_succeeds_witness :
  let ply := Ply_data Demo.cloud_points None None true in
  never_raises (Some Demo.notify) /\
  (forall d, (makedirs Demo.os "outputs" d).2 = Ok tt) /\
  is_point_cloud ply = true /\
  ("stl" ∈ ["stl"; "badfmt"]) /\
  (forall mesh, export_always_returns Demo.tm mesh "outputs" "j1" "stl") /\
  exists w' res,
    convert_loaded Demo.np Demo.tm Demo.o3 Demo.os Demo.HAS_OPEN3D Demo.HAS_SCIPY ply
      "outputs" ["stl"; "badfmt"] "j1" (Some Demo.notify) "medium"
      (Demo.started "uploads/cloud.ply" ["stl"; "badfmt"]) = (w', Ok res) /\
    res !! "stl" = Some (export_path "outputs" "j1" "stl").
Proof.
  intros ply.
  assert (Hm : forall d, (makedirs Demo.os "outputs" d).2 = Ok tt) by reflexivity.
  assert (Hc : is_point_cloud ply = true) by reflexivity.
  assert (Hin : "stl" ∈ ["stl"; "badfmt"]) by left.
  assert (Hr : forall mesh, export_always_returns Demo.tm mesh "outputs" "j1" "stl").
  { intros mesh d. vm_compute. reflexivity. }
  split; [exact demo_notify_never_raises|]. split; [exact Hm|]. split; [exact Hc|].
  split; [exact Hin|]. split; [exact Hr|].
  exact (proj2 (point_cloud_conversion_succeeds Demo.np Demo.tm Demo.o3 Demo.os
                  Demo.HAS_OPEN3D Demo.HAS_SCIPY (Some Demo.notify) ply "outputs"
                  ["stl"; "badfmt"] "j1" "medium" _ demo_notify_never_raises Hm Hc)
           "stl" Hin Hr).
Defined.

(** An upload that asks for a level that does not exist. *)
Lemma started_job_is_valid_witness :
  let req := Request (Some ("scan.ply", "ply")) ["obj"; "ply"; "stl"] (Some "extreme") in
  let run := upload_file Demo.os "j1" 0 req Demo.idle in
  let j := Job "j1" "uploads/j1_scan.ply" ["obj"; "stl"] "medium" in
  run = (run.1, Ok (Started j "scan.ply")) /\
  job_formats j <> [] /\
  Forall (fun fmt => fmt ∈ OUTPUT_FORMATS) (job_formats j) /\
  job_formats j `sublist_of` req_formats req /\
  (job_smoothing j ∈ SMOOTHING_LEVELS) /\
  path_exists Demo.os (job_input_path j) (files run.1) = true.
Proof.
  intros req run j.
  assert (E : run.2 = Ok (Started j "scan.ply")) by (vm_compute; reflexivity).
  assert (E' : run = (run.1, Ok (Started j "scan.ply"))).
  { rewrite <- E. apply surjective_pairing. }
  split; [exact E'|].
  destruct (started_job_is_valid Demo.os "j1" 0%R req Demo.idle run.1 j "scan.ply" E')
    as (_ & H1 & H2 & H3 & H4 & _ & _ & H5 & _).
  split; [exact H1|]. split; [exact H2|]. split; [exact H3|]. split; [exact H4|exact H5].
Defined.

(** What [get_progress] says after the job of the triangle file. *)
Lemma finished_job_progress_witness :
  let w' := (convert_file_async_debug Demo.np Demo.tm Demo.o3 Demo.os Demo.HAS_OPEN3D
               Demo.HAS_SCIPY "j1" "uploads/tri.ply" ["stl"] "medium"
               (Demo.started "uploads/tri.ply" ["stl"])).1 in
  conversion_progress (Demo.started "uploads/tri.ply" ["stl"]) !! "j1"
    = Some (Demo.entry0 ["stl"]) /\
  exists en' links,
    get_progress Demo.os Demo.fl "j1" w' = (w', Ok (Json (Progress_json en' links))) /\
    ((e_status en' = "completed" /\ e_progress en' = 100%Z /\
      exists verified ls,
        conversion_results w' !! "j1" = Some verified /\ links = Some ls /\
        forall f url, ls !! f = Some url <->
          url = url_for_download_file Demo.fl "j1" f /\
          exists path, verified !! f = Some path /\
                       path_exists Demo.os path (files w') = true) \/
     (e_status en' = "error" /\ links = None)).
Proof.
  intros w'.
  assert (H : conversion_progress (Demo.started "uploads/tri.ply" ["stl"]) !! "j1"
              = Some (Demo.entry0 ["stl"])) by reflexivity.
  split; [exact H|].
  exact (finished_job_progress Demo.np Demo.tm Demo.o3 Demo.os Demo.fl Demo.HAS_OPEN3D
           Demo.HAS_SCIPY "j1" "uploads/tri.ply" ["stl"] "medium" _ _ H).
Defined.

(** The cleanup of the finished job removes its STL file and leaves the
    folders. *)
Lemma cleanup_removes_exactly_the_outputs_witness :
  (forall (p : string) (d : Demo.disk),
     path_exists Demo.os p d = true -> path_exists Demo.os p (os_remove Demo.os p d).1 = false) /\
  (forall (p q : string) (d : Demo.disk),
     q <> p -> path_exists Demo.os q (os_remove Demo.os p d).1 = path_exists Demo.os q d) /\
  conversion_results Demo.finished !! "j1" = Some {[ "stl" := "outputs/j1_smooth.stl" ]} /\
  path_exists Demo.os "outputs/j1_smooth.stl" (files Demo.finished) = true /\
  path_exists Demo.os "outputs/j1_smooth.stl"
    (files (cleanup_conversion Demo.os "j1" Demo.finished).1) = false /\
  path_exists Demo.os "outputs" (files (cleanup_conversion Demo.os "j1" Demo.finished).1)
    = path_exists Demo.os "outputs" (files Demo.finished).
Proof.
  assert (Hr : conversion_results Demo.finished !! "j1"
               = Some {[ "stl" := "outputs/j1_smooth.stl" ]}) by reflexivity.
  assert (Hx : path_exists Demo.os "outputs/j1_smooth.stl" (files Demo.finished) = true)
    by (vm_compute; reflexivity).
  destruct (cleanup_removes_exactly_the_outputs Demo.os "j1" Demo.finished _
              demo_remove_removes demo_remove_keeps_others Hr) as [Hgone Hkept].
  split; [exact demo_remove_removes|]. split; [exact demo_remove_keeps_others|].
  split; [exact Hr|]. split; [exact Hx|]. split.
  - apply (Hgone "stl"); [apply lookup_singleton_eq|discriminate].
  - apply Hkept. intros f Hf. apply lookup_singleton_Some in Hf as [_ Hf]. discriminate.
Defined.

(** The triangle spanned by Open3D over three points. *)
Lemma poisson_result_conditions_witness :
  precise_poisson_reconstruction Demo.np Demo.tm Demo.o3_installed true Demo.triangle_points
    None "medium" = Some Demo.triangle /\
  Demo.triangle_points <> [] /\
  (8 <= Py.dict_get depth_map "medium" 9 <= 11)%nat /\
  exists mesh3 : tmesh Demo.o3_installed,
    tmesh_vertices Demo.o3_installed mesh3 = Demo.triangle_points /\
    tmesh_triangles Demo.o3_installed mesh3 = [(0, 1, 2)%nat].
Proof.
  assert (E : precise_poisson_reconstruction Demo.np Demo.tm Demo.o3_installed true
                Demo.triangle_points None "medium" = Some Demo.triangle) by reflexivity.
  destruct (poisson_result_conditions Demo.np Demo.tm Demo.o3_installed true
              Demo.triangle_points None "medium" Demo.triangle) as [Hiff Hnec].
  destruct (Hnec E) as [Hne Hd].
  destruct (proj1 Hiff E)
    as (_ & cloud0 & cloud & hi & lo & mesh0 & mesh1 & mesh2 & mesh3 & densities & m0
        & _ & _ & _ & _ & _ & _ & _ & _ & _ & _ & Em0 & Hc).
  split; [exact E|]. split; [exact Hne|]. split; [exact Hd|].
  exists mesh3. simpl in Hc. subst m0. injection Em0 as Hv Hf. auto.
Defined.

(** The densities 10 and 11 have the threshold 11: the vertex of density 10
    goes. *)
Lemma density_filter_removes_minimum_witness :
  exists min_density thresh : R,
    Np.min Demo.tight_densities = Ok min_density /\
    density_threshold Demo.tight_densities = Ok thresh /\
    (min_density < thresh)%R /\
    (0 < Np.count_true (vertices_to_remove Demo.tight_densities thresh))%nat.
Proof.
  destruct (density_filter_removes_minimum 10%R [11%R])
    as (m & t & Hm & Ht & _ & Hle & H & _).
  exists m, t. split; [exact Hm|]. split; [exact Ht|].
  assert (Hlt : (m < t)%R).
  { destruct density_threshold_above_mean_aux as (_ & _ & E & _).
    change (density_threshold Demo.tight_densities = Ok t) in Ht.
    rewrite E in Ht. injection Ht as <-.
    pose proof (Hle 10%R ltac:(left)). lra. }
  split; [exact Hlt|]. exact (proj1 (proj2 (H Hlt))).
Defined.

(** report.PLY is a PLY file. *)
Lemma allowed_file_spec_witness : allowed_file "report.PLY" = true.
Proof.
  apply (proj1 (allowed_file_spec "report.PLY")). exists "report", "PLY".
  split; [reflexivity|]. split; [|reflexivity].
  apply (bool_decide_unpack _). vm_compute. exact I.
Defined.

(** An upload of a text file. *)
Lemma upload_rejections_leave_no_trace_witness :
  upload_file Demo.os "j1" 0 (Request (Some ("notes.txt", "text")) ["stl"] None) Demo.idle
    = (Demo.idle, Ok (Rejected "Only PLY files are allowed" 400)).
Proof.
  apply (proj1 (proj2 (proj2 (proj2
           (upload_rejections_leave_no_trace Demo.os "j1" 0%R
              (Request (Some ("notes.txt", "text")) ["stl"] None) Demo.idle))))
           "notes.txt" "text").
  - reflexivity.
  - discriminate.
  - vm_compute. reflexivity.
Defined.

(** A job [j2] that runs beside the entry of [j1]. *)
Lemma job_never_raises_and_is_isolated_witness :
  let run := convert_file_async_debug Demo.np Demo.tm Demo.o3 Demo.os Demo.HAS_OPEN3D
               Demo.HAS_SCIPY "j2" "uploads/tri.ply" ["stl"] "medium"
               (Demo.started "uploads/tri.ply" ["stl"]) in
  run.2 = Ok tt /\
  conversion_progress run.1 !! "j1" = Some (Demo.entry0 ["stl"]) /\
  conversion_progress run.1 !! "j2" = None.
Proof.
  intros run.
  destruct (job_never_raises_and_is_isolated Demo.np Demo.tm Demo.o3 Demo.os Demo.HAS_OPEN3D
              Demo.HAS_SCIPY "j2" "uploads/tri.ply" ["stl"] "medium"
              (Demo.started "uploads/tri.ply" ["stl"])) as (H1 & H2 & H3 & _).
  fold run in H1, H2, H3. split; [exact H1|]. split.
  - destruct (H2 "j1") as [H _]; [discriminate|]. rewrite H. reflexivity.
  - destruct (conversion_progress run.1 !! "j2") as [en|] eqn:E; [|reflexivity].
    exfalso. destruct (proj1 H3 (ex_intro _ en eq_refl)) as [en0 H0].
    vm_compute in H0. discriminate.
Defined.

(** The entry and the link of the finished job, and an unknown job. *)
Lemma get_progress_spec_witness :
  let en := Entry "completed" 100 "Conversion completed! 1 files created." "in.ply"
                  ["stl"] "medium" 0 in
  conversion_progress Demo.finished !! "j1" = Some en /\
  conversion_progress Demo.finished !! "j9" = None /\
  get_progress Demo.os Demo.fl "j9" Demo.finished
    = (Demo.finished, Ok (Json_error "Conversion not found" 404)) /\
  exists ls,
    get_progress Demo.os Demo.fl "j1" Demo.finished
      = (Demo.finished, Ok (Json (Progress_json en (Some ls)))) /\
    ls !! "stl" = Some "/download/j1/stl".
Proof.
  intros en.
  assert (H1 : conversion_progress Demo.finished !! "j1" = Some en) by reflexivity.
  assert (H9 : conversion_progress Demo.finished !! "j9" = None) by reflexivity.
  destruct (get_progress_spec Demo.os Demo.fl "j1" Demo.finished) as [_ Hknown].
  destruct (get_progress_spec Demo.os Demo.fl "j9" Demo.finished) as [Hunknown _].
  split; [exact H1|]. split; [exact H9|]. split; [exact (Hunknown H9)|].
  destruct (Hknown en H1) as (links & E & Hsome & Hl).
  assert (Hs : is_Some links).
  { apply Hsome. split; [reflexivity|]. eexists. reflexivity. }
  destruct Hs as [ls ->]. exists ls. split; [exact E|].
  apply (Hl ls "stl" "/download/j1/stl" eq_refl). split; [reflexivity|].
  exists {[ "stl" := "outputs/j1_smooth.stl" ]}, "outputs/j1_smooth.stl".
  split; [reflexivity|]. split; [reflexivity|]. split; [discriminate|].
  vm_compute. reflexivity.
Defined.

(** The STL file of the finished job is sent. *)
Lemma download_file_spec_witness :
  download_file Demo.os Demo.fl "j1" "stl" Demo.finished
    = (Demo.finished, Ok (Attachment "outputs/j1_smooth.stl" "smooth_j1.stl")).
Proof.
  apply (proj1 (download_file_spec Demo.os Demo.fl "j1" "stl" Demo.finished)).
  split; [reflexivity|]. split.
  { exists {[ "stl" := "outputs/j1_smooth.stl" ]}. split; reflexivity. }
  split; [discriminate|]. split; vm_compute; reflexivity.
Defined.

(** The finished job, cleaned up. *)
Lemma cleanup_forgets_job_witness :
  exists w' : world Demo.disk,
    cleanup_conversion Demo.os "j1" Demo.finished = (w', Ok (Json "Cleanup completed")) /\
    get_progress Demo.os Demo.fl "j1" w' = (w', Ok (Json_error "Conversion not found" 404)) /\
    download_file Demo.os Demo.fl "j1" "stl" w'
      = (w', Ok (Download_error "Conversion not found" 404)).
Proof.
  destruct (cleanup_forgets_job Demo.os Demo.fl "j1" Demo.finished)
    as (w' & E & _ & _ & _ & G & D & _).
  exists w'. split; [exact E|]. split; [exact G|exact (D "stl")].
Defined.

(** One active conversion less after the cleanup. *)
Lemma status_counts_witness :
  is_Some (conversion_progress Demo.finished !! "j1") /\
  S (active_conversions (status Demo.os (cleanup_conversion Demo.os "j1" Demo.finished).1))
    = active_conversions (status Demo.os Demo.finished).
Proof.
  assert (H : is_Some (conversion_progress Demo.finished !! "j1"))
    by (eexists; reflexivity).
  split; [exact H|].
  exact (proj2 (proj2 (status_counts Demo.np Demo.tm Demo.o3 Demo.os Demo.HAS_OPEN3D
                         Demo.HAS_SCIPY "j1" Demo.finished)) H).
Defined.

(** The triangle file is loaded by trimesh, as a mesh. *)
Lemma load_ply_file_spec_witness :
  trimesh_load Demo.tm "uploads/tri.ply" ["uploads/tri.ply"]
    = Ok (Loaded (Some Demo.triangle_points) None (Some [(0, 1, 2)%nat])) /\
  exists data,
    load_ply_file Demo.np Demo.tm "uploads/tri.ply" ["uploads/tri.ply"] = Ok data /\
    pd_vertices data = Demo.triangle_points /\
    pd_faces data = Some [(0, 1, 2)%nat] /\
    is_point_cloud data = false.
Proof.
  assert (H : trimesh_load Demo.tm "uploads/tri.ply" ["uploads/tri.ply"]
              = Ok (Loaded (Some Demo.triangle_points) None (Some [(0, 1, 2)%nat])))
    by (vm_compute; reflexivity).
  split; [exact H|].
  destruct (proj1 (load_ply_file_spec Demo.np Demo.tm "uploads/tri.ply" ["uploads/tri.ply"])
              _ Demo.triangle_points H eq_refl) as (data & E & Hv & Hf & _).
  { intros c Hc. discriminate Hc. }
  assert (Hfs : pd_faces data = Some [(0, 1, 2)%nat]).
  { apply Hf. split; [reflexivity|discriminate]. }
  exists data. split; [exact E|]. split; [exact Hv|]. split; [exact Hfs|].
  apply (proj2 (proj2 (proj2 (load_ply_file_spec Demo.np Demo.tm "uploads/tri.ply"
                                ["uploads/tri.ply"]))) data E).
  exists [(0, 1, 2)%nat]. split; [exact Hfs|discriminate].
Defined.

(** At the level medium a filter that always fails does no harm. *)
Lemma laplacian_only_for_high_and_ultra_witness :
  precise_poisson_reconstruction Demo.np Demo.tm
    (with_laplacian Demo.o3_installed (fun _ _ _ => Raise "no filter")) true
    Demo.triangle_points None "medium" = Some Demo.triangle.
Proof.
  rewrite (proj1 (laplacian_only_for_high_and_ultra Demo.np Demo.tm Demo.o3_installed true
                    Demo.triangle_points None (fun _ _ _ => Raise "no filter")) "medium");
    [reflexivity|discriminate|discriminate].
Defined.

(** The hull of the installation fails: the box, whatever the colours. *)
Lemma basic_mesh_colour_transfer_witness :
  create_mesh_from_points_basic Demo.np Demo.tm Demo.HAS_SCIPY Demo.cloud_points
    (Some [0.5%R]) = Demo.unit_cube.
Proof.
  rewrite (proj1 (proj2 (proj2 (basic_mesh_colour_transfer Demo.np Demo.tm Demo.HAS_SCIPY
                                  Demo.cloud_points))) (Some [0.5%R])); [reflexivity|].
  intros cloud hull _. discriminate.
Defined.

(** Two positive dot products. *)
Lemma outward_ratio_spec_witness : outward_ratio [1; 2]%R = 1%R.
Proof.
  apply (proj1 (proj2 (proj2 (proj2 (proj2 (proj2 (outward_ratio_spec [1; 2]%R))))))).
  - discriminate.
  - repeat constructor; lra.
Defined.

(** Without face normals the triangle comes back as it is. *)
Lemma orientation_check_failure_is_swallowed_witness :
  face_normals Demo.tm (prepared Demo.tm Demo.triangle)
    = Raise "face normals are not available" /\
  fix_face_orientation_and_normals Demo.tm Demo.triangle = (Demo.triangle, Ok Demo.triangle).
Proof.
  split; [reflexivity|].
  exact (proj1 (orientation_check_failure_is_swallowed Demo.tm Demo.triangle)
           "face normals are not available" eq_refl).
Defined.
